(** * Bio.Phylo.PAML._parse_yn00: the three section parsers of a yn00 report

    A shallow embedding of [parse_ng86], [parse_yn00] and [parse_others]
    (src/Bio/Phylo/PAML/_parse_yn00.py) and the properties of them that the
    specification states.

    Modelling choices.
    - Python byte strings are [string]; a Python float is a binary64
      [float] (Rocq's primitive floats), [None] is a value of its own.
    - The regular expressions of the source are terms of a small regex
      syntax, run by a backtracking matcher with Python's priorities
      (greedy repetition, leftmost alternative first).
    - Exceptions are the [Raise] outcome of a [result]; the parsers are
      total functions into [result].
    - [results] is a nested finite map.  The statistics dictionaries
      ([NG86], [YN00], [stats]) are objects of a store and the table holds
      references to them, so that "the same object on both sides of a
      pair" is a statement about references.  The two pair dictionaries
      [{"NG86": NG86}] that [parse_ng86] writes are two dictionary
      displays, hence two objects, and are held by value; a table given
      by the caller is likewise taken to be tree shaped. *)

From Stdlib Require Import ZArith String Ascii List.
From Stdlib Require Import PrimFloat SpecFloat FloatOps.
From stdpp Require Import gmap strings list fin_maps.

Local Open Scope string_scope.

(** ** Python string primitives *)

Module PyStr.

(** [str.isspace] on a byte: space, \t, \n, \v, \f, \r. *)
Definition is_space (c : ascii) : bool :=
  let n := nat_of_ascii c in
  Nat.eqb n 32 || (Nat.leb 9 n && Nat.leb n 13).

Definition is_digit (c : ascii) : bool :=
  let n := nat_of_ascii c in
  Nat.leb 48 n && Nat.leb n 57.

Definition is_char (a c : ascii) : bool := Ascii.eqb a c.

(** [.] of a regex without DOTALL: anything but a newline. *)
Definition is_dot (c : ascii) : bool := negb (Nat.eqb (nat_of_ascii c) 10).

Fixpoint lstrip_by (p : ascii -> bool) (s : string) : string :=
  match s with
  | String c s' => if p c then lstrip_by p s' else s
  | EmptyString => EmptyString
  end.

Fixpoint rstrip_by (p : ascii -> bool) (s : string) : string :=
  match s with
  | String c s' =>
      match rstrip_by p s' with
      | EmptyString => if p c then EmptyString else String c EmptyString
      | r => String c r
      end
  | EmptyString => EmptyString
  end.

(** [s.strip()] *)
Definition strip (s : string) : string :=
  rstrip_by is_space (lstrip_by is_space s).

(** [s.strip(chars)] *)
Definition strip_chars (chars : string) (s : string) : string :=
  let p c := existsb (is_char c) (list_ascii_of_string chars) in
  rstrip_by p (lstrip_by p s).

(** [s.split()]: the maximal runs of non-blank characters. *)
Fixpoint split_ws (s : string) : list string :=
  match s with
  | EmptyString => []
  | String c s' =>
      if is_space c then split_ws s'
      else
        let rest := split_ws s' in
        let next_blank :=
          match s' with String c' _ => is_space c' | EmptyString => true end in
        match rest with
        | w :: ws => if next_blank then String c EmptyString :: rest
                     else String c w :: ws
        | [] => [String c EmptyString]
        end
  end.

(** [s.split(sep)] for a separator of one character. *)
Fixpoint split_char (sep : ascii) (s : string) : list string :=
  match s with
  | EmptyString => [EmptyString]
  | String c s' =>
      if is_char sep c then EmptyString :: split_char sep s'
      else match split_char sep s' with
           | w :: ws => String c w :: ws
           | [] => [String c EmptyString]
           end
  end.

(** [needle in hay] *)
Fixpoint contains (needle hay : string) : bool :=
  if String.prefix needle hay then true
  else match hay with
       | String _ h => contains needle h
       | EmptyString => false
       end.

(** [int(s)] on a string of decimal digits (what [\d+] matched). *)
Definition digit_val (c : ascii) : Z := Z.of_nat (nat_of_ascii c - 48).

Fixpoint int_digits (acc : Z) (s : string) : Z :=
  match s with
  | String c s' => int_digits (10 * acc + digit_val c)%Z s'
  | EmptyString => acc
  end.

Definition int (s : string) : Z := int_digits 0%Z s.

(** [repr(s)] of a byte string, as the [%r] conversion prints it. *)
Definition hex_digit (n : nat) : ascii :=
  ascii_of_nat (if Nat.ltb n 10 then 48 + n else 87 + n).

Definition repr_char (quote : ascii) (c : ascii) : string :=
  let n := nat_of_ascii c in
  if is_char quote c || Nat.eqb n 92 then String "\" (String c EmptyString)
  else if Nat.eqb n 9 then "\t"
  else if Nat.eqb n 10 then "\n"
  else if Nat.eqb n 13 then "\r"
  else if Nat.ltb n 32 || Nat.leb 127 n then
    String "\" (String "x" (String (hex_digit (n / 16))
                                      (String (hex_digit (n mod 16)) EmptyString)))
  else String c EmptyString.

Fixpoint repr_body (quote : ascii) (s : string) : string :=
  match s with
  | String c s' => repr_char quote c ++ repr_body quote s'
  | EmptyString => EmptyString
  end.

Definition repr (s : string) : string :=
  let quote : ascii :=
    if contains "'" s && negb (contains (String (ascii_of_nat 34) EmptyString) s)
    then ascii_of_nat 34 else "'"%char in
  String quote (repr_body quote s ++ String quote EmptyString).

End PyStr.

(** ** Regular expressions

    The fragment of Python's [re] syntax that the four patterns of the
    source use: literal characters, greedy bounded repetition of a
    character class, capturing groups (never nested) and concatenation.
    [run] is a backtracking matcher in continuation-passing style: a
    repetition first takes as many characters as it can and gives one
    back each time the continuation fails, which is the order in which
    [re] explores matches, so the first success is the match [re]
    reports. *)

Module Re.

Inductive regex : Type :=
| Eps
| Lit (c : ascii)
| Rep (cls : ascii -> bool) (lo : nat) (hi : option nat)
| Group (r : regex)
| Cat (r1 r2 : regex).

Definition seq_of (rs : list regex) : regex := foldr Cat Eps rs.
Definition star (cls : ascii -> bool) : regex := Rep cls 0 None.
Definition plus (cls : ascii -> bool) : regex := Rep cls 1 None.
Definition one (cls : ascii -> bool) : regex := Rep cls 1 (Some 1).
Definition between (cls : ascii -> bool) (lo hi : nat) : regex :=
  Rep cls lo (Some hi).

Definition may_take (hi : option nat) : bool :=
  match hi with Some 0 => false | _ => true end.

Fixpoint rep {A} (cls : ascii -> bool) (lo : nat) (hi : option nat)
    (s : string) (k : string -> option A) : option A :=
  let stop := match lo with 0 => k s | S _ => None end in
  match s with
  | String c s' =>
      if cls c && may_take hi then
        match rep cls (pred lo) (pred <$> hi) s' k with
        | Some a => Some a
        | None => stop
        end
      else stop
  | EmptyString => stop
  end.

Definition consumed (s rest : string) : string :=
  substring 0 (String.length s - String.length rest) s.

Fixpoint run {A} (r : regex) (s : string) (caps : list string)
    (k : string -> list string -> option A) : option A :=
  match r with
  | Eps => k s caps
  | Lit c =>
      match s with
      | String c' s' => if Ascii.eqb c c' then k s' caps else None
      | EmptyString => None
      end
  | Rep cls lo hi => rep cls lo hi s (fun rest => k rest caps)
  | Group r1 =>
      run r1 s caps (fun rest caps' => k rest (caps' ++ [consumed s rest])%list)
  | Cat r1 r2 =>
      run r1 s caps (fun rest caps' => run r2 rest caps' k)
  end.

(** [re.match(r, s)]: the groups of the match at the start of [s]
    ([group(i+1)] is the [i]-th element), and the text matched. *)
Definition match_groups (r : regex) (s : string) : option (list string) :=
  run r s [] (fun _ caps => Some caps).

Definition match_text (r : regex) (s : string) : option string :=
  run r s [] (fun rest _ => Some (consumed s rest)).

(** [m.group(1)], and [m.group(1)] with [m.group(2)], of
    [m = re.match(r, s)]; [None] when there is no match. *)
Definition match1 (r : regex) (s : string) : option string :=
  caps ← match_groups r s; caps !! 0%nat.

Definition match2 (r : regex) (s : string) : option (string * string) :=
  caps ← match_groups r s;
  a ← caps !! 0%nat; b ← caps !! 1%nat; Some (a, b).

(** [re.findall(r, s)] for a pattern without groups: scan from the left;
    where the pattern matches, record the text and resume after it.
    [skip] counts the characters of the last match still to be passed. *)
Fixpoint findall_from (r : regex) (skip : nat) (s : string) : list string :=
  match s with
  | String _ s' =>
      match skip with
      | S n => findall_from r n s'
      | 0 =>
          match match_text r s with
          | Some m => m :: findall_from r (pred (String.length m)) s'
          | None => findall_from r 0 s'
          end
      end
  | EmptyString =>
      match skip, match_text r EmptyString with
      | 0, Some m => [m]
      | _, _ => []
      end
  end.

Definition findall (r : regex) (s : string) : list string :=
  findall_from r 0 s.

(** Every character of [s] is in the class; [n] repetitions are within
    the bound [hi]. *)
Fixpoint all_in (cls : ascii -> bool) (s : string) : bool :=
  match s with
  | String c s' => cls c && all_in cls s'
  | EmptyString => true
  end.

Definition within (n : nat) (hi : option nat) : Prop :=
  match hi with
  | Some h => (n <= h)%nat
  | None => True
  end.

End Re.

(** The four patterns of the source. *)

(** ["-*\d+\.\d+"] *)
Definition float_re : Re.regex :=
  Re.seq_of [Re.star (PyStr.is_char "-"); Re.plus PyStr.is_digit;
             Re.Lit "."; Re.plus PyStr.is_digit].

(** ["(.+)\s{5,15}"] *)
Definition matrix_row_re : Re.regex :=
  Re.seq_of [Re.Group (Re.plus PyStr.is_dot); Re.between PyStr.is_space 5 15].

(** ["\s+(\d+)\s+(\d+)"] *)
Definition row_re : Re.regex :=
  Re.seq_of [Re.plus PyStr.is_space; Re.Group (Re.plus PyStr.is_digit);
             Re.plus PyStr.is_space; Re.Group (Re.plus PyStr.is_digit)].

(** ["\d+ \((.+)\) vs. \d+ \((.+)\)"]; the dot after [vs] is not
    escaped in the source and stands for any character. *)
Definition comp_re : Re.regex :=
  Re.seq_of [Re.plus PyStr.is_digit; Re.Lit " "; Re.Lit "(";
             Re.Group (Re.plus PyStr.is_dot); Re.Lit ")"; Re.Lit " ";
             Re.Lit "v"; Re.Lit "s"; Re.one PyStr.is_dot; Re.Lit " ";
             Re.plus PyStr.is_digit; Re.Lit " "; Re.Lit "(";
             Re.Group (Re.plus PyStr.is_dot); Re.Lit ")"].

(** ** The builtin [float]

    [float(s)] accepts, between optional blanks, an optional sign followed
    by [nan], [inf] or [infinity] (in any letter case) or by a decimal
    number [digits [. [digits]] | . digits] with an optional exponent, and
    raises [ValueError] on anything else (so documented since Python 2.6:
    a leading sign is ignored for NaN).  The value is the binary64
    number nearest to the decimal one (ties to even), computed here by one
    correctly rounded division or multiplication of integers. *)

Module PyFloat.

Local Open Scope Z_scope.

Definition lower (c : ascii) : ascii :=
  let n := nat_of_ascii c in
  if Nat.leb 65 n && Nat.leb n 90 then ascii_of_nat (n + 32) else c.

Fixpoint lower_str (s : string) : string :=
  match s with
  | String c s' => String (lower c) (lower_str s')
  | EmptyString => EmptyString
  end.

(** The longest prefix of digits, and what follows it. *)
Fixpoint span_digits (s : string) : string * string :=
  match s with
  | String c s' =>
      if PyStr.is_digit c then
        let '(d, r) := span_digits s' in (String c d, r)
      else (EmptyString, s)
  | EmptyString => (EmptyString, EmptyString)
  end.

Definition split_sign (s : string) : bool * string :=
  match s with
  | String "-" t => (true, t)
  | String "+" t => (false, t)
  | _ => (false, s)
  end.

(** The exponent part: empty, or [e] or [E], a sign and digits. *)
Definition exponent (s : string) : option Z :=
  match s with
  | EmptyString => Some 0
  | String c t =>
      if Ascii.eqb (lower c) "e" then
        let '(neg, t') := split_sign t in
        match span_digits t' with
        | (String _ _ as d, EmptyString) =>
            Some (if neg then - PyStr.int d else PyStr.int d)
        | _ => None
        end
      else None
  end.

(** A decimal numeral as mantissa and power of ten. *)
Definition decimal (s : string) : option (Z * Z) :=
  let '(ip, r) := span_digits s in
  let '(fp, r') :=
    match r with
    | String "." t => span_digits t
    | _ => (EmptyString, r)
    end in
  match (ip ++ fp)%string with
  | EmptyString => None
  | digits =>
      e ← exponent r';
      Some (PyStr.int digits, e - Z.of_nat (String.length fp))
  end.

(** [m * 10 ^ e] rounded to binary64. *)
Definition of_decimal (neg : bool) (m e : Z) : float :=
  match m with
  | Zpos p =>
      let x := S754_finite neg p 0 in
      if e <? 0 then
        SF2Prim (SFdiv prec emax x (S754_finite false (Z.to_pos (10 ^ (- e))) 0))
      else
        SF2Prim (SFmul prec emax x (S754_finite false (Z.to_pos (10 ^ e)) 0))
  | _ => if neg then (-0)%float else 0%float
  end.

(** [float(s)]; [None] stands for the [ValueError]. *)
Definition float_of_string (s : string) : option float :=
  let '(neg, body) := split_sign (PyStr.strip s) in
  let word := lower_str body in
  if String.eqb word "nan" then Some nan
  else if String.eqb word "inf" || String.eqb word "infinity" then
    Some (if neg then neg_infinity else infinity)
  else
    '(m, e) ← decimal body;
    Some (of_decimal neg m e).

End PyFloat.

(** ** Data model *)

(** What a statistics dictionary holds under a key: a float or [None]. *)
Inductive value : Type :=
| VFloat (f : float)
| VNone.

(** A statistics dictionary (MethodStats), referred to by its position
    in the store; a pair's dictionary from method label to statistics object
    (PairResult); the table [results] (ResultTable). *)
Abbreviation MethodStats := (gmap string value).
Abbreviation PairResult := (gmap string nat).
Abbreviation ResultTable := (gmap string (gmap string (gmap string nat))).

(** The objects a parser works on: the store of statistics dictionaries
    ([heap !! r] is the dictionary that reference [r] denotes), the
    dictionary [results] and the list [sequences]. *)
Record state : Type := State {
  heap : list MethodStats;
  results : ResultTable;
  sequences : list string
}.

Definition set_heap (h : list MethodStats) (st : state) : state :=
  State h (results st) (sequences st).
Definition set_results (t : ResultTable) (st : state) : state :=
  State (heap st) t (sequences st).
Definition set_sequences (l : list string) (st : state) : state :=
  State (heap st) (results st) l.

(** ** Exceptions *)

(** [FloatError s] is the [ValueError] that [float(s)] raises (its text
    depends on the interpreter); [ValueError msg] is one raised by the
    source with message [msg]. *)
Inductive exn : Type :=
| IndexError
| KeyError (key : string)
| FloatError (arg : string)
| ValueError (msg : string).

Inductive result (A : Type) : Type :=
| Ok (a : A)
| Raise (e : exn).
Arguments Ok {A} a.
Arguments Raise {A} e.

#[global] Instance result_ret : MRet result := fun A a => Ok a.
#[global] Instance result_bind : MBind result := fun A B f m =>
  match m with
  | Ok a => f a
  | Raise e => Raise e
  end.

(** [for x in xs: body], threading the state and stopping at the first
    exception. *)
Fixpoint for_each {X S : Type} (body : X → S → result S) (xs : list X) (s : S)
    : result S :=
  match xs with
  | [] => Ok s
  | x :: xs' => s' ← body x s; for_each body xs' s'
  end.

(** [range(0, n, 3)] *)
Definition range3 (n : nat) : list nat :=
  (fun j => 3 * j) <$> seq 0 ((n + 2) / 3).

(** [l[i]] for a natural index. *)
Definition getitem {A : Type} (l : list A) (i : nat) : result A :=
  match l !! i with
  | Some a => Ok a
  | None => Raise IndexError
  end.

(** [l[i]] for an integer index: a negative one counts from the end. *)
Definition getitem_int {A : Type} (l : list A) (i : Z) : result A :=
  let j := if (i <? 0)%Z then (i + Z.of_nat (length l))%Z else i in
  if (j <? 0)%Z then Raise IndexError else getitem l (Z.to_nat j).

(** [d[k]] on a dictionary. *)
Definition getkey {V : Type} (d : gmap string V) (k : string) : result V :=
  match d !! k with
  | Some v => Ok v
  | None => Raise (KeyError k)
  end.

(** [float(val)] *)
Definition py_float (val : string) : result float :=
  match PyFloat.float_of_string val with
  | Some f => Ok f
  | None => Raise (FloatError val)
  end.

(** [[float(val) for val in l]] *)
Fixpoint floats (l : list string) : result (list float) :=
  match l with
  | [] => Ok []
  | val :: l' => f ← py_float val; fs ← floats l'; Ok (f :: fs)
  end.

(** [d = {}]: a new statistics dictionary. *)
Definition new_dict (st : state) : nat * state :=
  (length (heap st), set_heap (heap st ++ [∅]) st).

(** [d[key] = v] on a statistics dictionary. *)
Definition setitem (d : nat) (key : string) (v : value) (st : state) : state :=
  set_heap (alter (insert key v) d (heap st)) st.

(** [d[key] = l[i]] *)
Definition setitem_from (d : nat) (key : string) (l : list float) (i : nat)
    (st : state) : result state :=
  x ← getitem l i; Ok (setitem d key (VFloat x) st).

(** [results[a][b] = {label: d}] *)
Definition set_pair (a b label : string) (d : nat) (st : state) : result state :=
  row ← getkey (results st) a;
  Ok (set_results (<[a := <[b := {[label := d]}]> row]> (results st)) st).

(** [results[a][b][label] = d] *)
Definition set_method (a b label : string) (d : nat) (st : state) : result state :=
  row ← getkey (results st) a;
  pair ← getkey row b;
  Ok (set_results (<[a := <[b := <[label := d]> pair]> row]> (results st)) st).

(** ** parse_ng86 *)

(** The body of [for i in range(0, len(line_floats), 3)]. *)
Definition ng86_group (seq_name : string) (line_floats : list float) (i : nat)
    (st : state) : result state :=
  let '(NG86, st) := new_dict st in
  st ← setitem_from NG86 "omega" line_floats i st;
  st ← setitem_from NG86 "dN" line_floats (i + 1) st;
  st ← setitem_from NG86 "dS" line_floats (i + 2) st;
  (* results[seq_name][sequences[i//3]] = {"NG86":NG86} *)
  row ← getkey (results st) seq_name;
  col ← getitem (sequences st) (i / 3);
  st ← set_pair seq_name col "NG86" NG86 st;
  (* results[sequences[i//3]][seq_name] = {"NG86":NG86} *)
  col ← getitem (sequences st) (i / 3);
  set_pair col seq_name "NG86" NG86 st.

(** The body of [for line in lines]. *)
Definition ng86_line (line : string) (st : state) : result state :=
  let line_floats_res := Re.findall float_re line in
  line_floats ← floats line_floats_res;
  match Re.match1 matrix_row_re line with
  | Some g1 =>
      let seq_name := PyStr.strip g1 in
      let st := set_sequences (sequences st ++ [seq_name]) st in
      let st := set_results (<[seq_name := ∅]> (results st)) st in
      for_each (ng86_group seq_name line_floats)
               (range3 (length line_floats)) st
  | None => Ok st
  end.

(** [parse_ng86(lines, results)]: [sequences] starts as a new empty
    list; the value returned is the pair of [results] and [sequences]
    of the final state. *)
Definition parse_ng86 (lines : list string) (st : state) : result state :=
  for_each ng86_line lines (set_sequences [] st).

(** ** parse_yn00 *)

Definition yn00_line (line : string) (st : state) : result state :=
  let line_floats_res := Re.findall float_re line in
  line_floats ← floats line_floats_res;
  match Re.match2 row_re line with
  | Some (g1, g2) =>
      let seq1 := PyStr.int g1 in
      let seq2 := PyStr.int g2 in
      seq_name1 ← getitem_int (sequences st) (seq1 - 1);
      seq_name2 ← getitem_int (sequences st) (seq2 - 1);
      let '(YN00, st) := new_dict st in
      st ← setitem_from YN00 "S" line_floats 0 st;
      st ← setitem_from YN00 "N" line_floats 1 st;
      st ← setitem_from YN00 "t" line_floats 2 st;
      st ← setitem_from YN00 "kappa" line_floats 3 st;
      st ← setitem_from YN00 "omega" line_floats 4 st;
      st ← setitem_from YN00 "dN" line_floats 5 st;
      st ← setitem_from YN00 "dN SE" line_floats 6 st;
      st ← setitem_from YN00 "dS" line_floats 7 st;
      st ← setitem_from YN00 "dS SE" line_floats 8 st;
      st ← set_method seq_name1 seq_name2 "YN00" YN00 st;
      set_method seq_name2 seq_name1 "YN00" YN00 st
  | None => Ok st
  end.

(** [parse_yn00(lines, results, sequences)]; the value returned is
    [results] of the final state. *)
Definition parse_yn00 (lines : list string) (st : state) : result state :=
  for_each yn00_line lines st.

(** ** parse_others *)

(** The state of the loop: the locals [seq_name1] and [seq_name2]
    ([None] until a header line is seen) and the objects. *)
Record others_state : Type := Others {
  seq_name1 : option string;
  seq_name2 : option string;
  objects : state
}.

(** The body of [for i in range(0, len(stats_split), 3)]. *)
Definition others_stat (line : string) (stats : nat) (stats_split : list string)
    (i : nat) (st : state) : result state :=
  tok ← getitem stats_split i;
  let stat := PyStr.strip_chars "()" tok in
  let stat := if String.eqb stat "w" then "omega" else stat in
  value ←
    match stats_split !! (i + 2)%nat with
    | Some tok2 => Ok (PyStr.strip_chars "()" tok2)
    | None => Raise (ValueError ("Problem with stats line: " ++ PyStr.repr line))
    end;
  match PyFloat.float_of_string value with
  | Some f => Ok (setitem stats stat (VFloat f) st)
  | None => Ok (setitem stats stat VNone st)
  end.

(** The [if]/[elif] chain that files [stats] under a method label. *)
Definition others_store (line a b : string) (stats : nat) (st : state)
    : result state :=
  if PyStr.contains "LWL85:" line then
    st ← set_method a b "LWL85" stats st;
    set_method b a "LWL85" stats st
  else if PyStr.contains "LWL85m" line then
    st ← set_method a b "LWL85m" stats st;
    set_method b a "LWL85m" stats st
  else if PyStr.contains "LPB93" line then
    st ← set_method a b "LPB93" stats st;
    set_method b a "LPB93" stats st
  else Ok st.

(** The statements under [if "dS =" in line]. *)
Definition others_stats_line (line a b : string) (st : state) : result state :=
  let '(stats, st) := new_dict st in
  part ← getitem (PyStr.split_char ":" line) 1;
  let line_stats := PyStr.strip part in
  let stats_split := PyStr.split_ws line_stats in
  st ← for_each (others_stat line stats stats_split)
                (range3 (length stats_split)) st;
  others_store line a b stats st.

Definition others_line (line : string) (os : others_state) : result others_state :=
  match Re.match2 comp_re line with
  | Some (g1, g2) => Ok (Others (Some g1) (Some g2) (objects os))
  | None =>
      match seq_name1 os, seq_name2 os with
      | Some a, Some b =>
          if PyStr.contains "dS =" line then
            st ← others_stats_line line a b (objects os);
            Ok (Others (Some a) (Some b) st)
          else Ok os
      | _, _ => Ok os
      end
  end.

(** [parse_others(lines, results, sequences)]; the value returned is
    [results] of the final state. *)
Definition parse_others (lines : list string) (st : state) : result state :=
  os ← for_each others_line lines (Others None None st);
  Ok (objects os).

(** ** Reading the table *)

(** [results[a][b][label]] as a reference, and as the dictionary it
    denotes; [None] where Python raises [KeyError]. *)
Definition method_ref (st : state) (a b label : string) : option nat :=
  row ← results st !! a; pair ← row !! b; pair !! label.

Definition method_stats (st : state) (a b label : string) : option MethodStats :=
  r ← method_ref st a b label; heap st !! r.

(** The lines of the examples. *)
Definition yn00_row_short : string :=
  "   2    1    67.3   154.7   0.0136  3.6564  0.0000 -0.0000 +- 0.0000  0.0150".
Definition yn00_row_full : string :=
  "   2    1    67.3   154.7   0.0136  3.6564  0.0000 -0.0000 +- 0.0000  0.0150 +- 0.0151".

(** A table with (empty) pair entries for [a] and [b]. *)
Definition pair_table (a b : string) : ResultTable :=
  {[ a := {[ b := ∅ ]}; b := {[ a := ∅ ]} ]}.

(** [results[a][b]], the pair's dictionary. *)
Definition pair_at (st : state) (a b : string) : option PairResult :=
  row ← results st !! a; row !! b.

(** The row label of a line of the matrix section: [seq_name] of
    [parse_ng86] when [matrix_row_res] is not [None]. *)
Definition row_label (line : string) : option string :=
  PyStr.strip <$> Re.match1 matrix_row_re line.

Definition row_labels (lines : list string) : list string :=
  omap row_label lines.

(** The tokens of a statistics line: [stats_split] of [parse_others]. *)
Definition stats_tokens (part : string) : list string :=
  PyStr.split_ws (PyStr.strip part).

(** The key and the value that [others_stat] files for a group. *)
Definition stat_key (tok : string) : string :=
  let stat := PyStr.strip_chars "()" tok in
  if String.eqb stat "w" then "omega" else stat.

Definition stat_value (tok : string) : value :=
  match PyFloat.float_of_string (PyStr.strip_chars "()" tok) with
  | Some f => VFloat f
  | None => VNone
  end.

(** The third token of every group of three. *)
Fixpoint value_tokens (toks : list string) : list string :=
  match toks with
  | _ :: _ :: v :: toks' => v :: value_tokens toks'
  | _ => []
  end.

(** What the loop over [range(0, len(stats_split), 3)] does to the
    dictionary [stats], group by group: a group of fewer than three
    tokens is where [stats_split[i+2]] raises. *)
Fixpoint stats_run (line : string) (toks : list string) (m : MethodStats)
    : result MethodStats :=
  match toks with
  | [] => Ok m
  | k :: _ :: v :: toks' =>
      stats_run line toks' (<[stat_key k := stat_value v]> m)
  | _ => Raise (ValueError ("Problem with stats line: " ++ PyStr.repr line))
  end.

(** The label that the [if]/[elif] chain of [parse_others] selects. *)
Definition method_label (line : string) : option string :=
  if PyStr.contains "LWL85:" line then Some "LWL85"
  else if PyStr.contains "LWL85m" line then Some "LWL85m"
  else if PyStr.contains "LPB93" line then Some "LPB93"
  else None.

(** The dictionary [NG86] that [parse_ng86] builds from a group of
    three numbers. *)
Definition ng86_stats (x y z : float) : MethodStats :=
  {[ "omega" := VFloat x; "dN" := VFloat y; "dS" := VFloat z ]}.

(** What holds of the objects while [parse_ng86] runs, [h0] and [t0]
    being the store and the table it was called with: the store only
    grows; the keys of the table are those of [t0] and the names found;
    the entry of a name not found is that of [t0]; the entry of a name
    found has pairs only with names found, each a dictionary
    [{"NG86": r}] where [r] is an object made by this call. *)
Definition ng86_inv (h0 : list MethodStats) (t0 : ResultTable) (st : state) : Prop :=
  h0 `prefix_of` heap st
  ∧ dom (results st) = dom t0 ∪ list_to_set (sequences st)
  ∧ (∀ a, a ∉ sequences st → results st !! a = t0 !! a)
  ∧ (∀ a b p, a ∈ sequences st → pair_at st a b = Some p →
       b ∈ sequences st
       ∧ ∃ r x y z, p = {[ "NG86" := r ]} ∧ (length h0 ≤ r)%nat
                    ∧ heap st !! r = Some (ng86_stats x y z)).

(** What [parse_yn00] and [parse_others] keep: the list of names, the
    keys of the table, the pairs of every entry, the objects of the
    store. *)
Definition same_shape (st st' : state) : Prop :=
  sequences st' = sequences st
  ∧ dom (results st') = dom (results st)
  ∧ (∀ x y, is_Some (pair_at st' x y) ↔ is_Some (pair_at st x y))
  ∧ heap st `prefix_of` heap st'.

(** The lines of a matrix section used in the examples. *)
Definition ng86_rows : list string :=
  ["Homo_sapie          ";
   "Pan_troglo           0.0000 (0.0000 0.0207)";
   "Gorilla_go           0.0000 (0.0000 0.0421) 0.0000 (0.0000 0.0207)";
   ""].


(** The lines that match [matrix_row_re]. *)
Definition row_lines (lines : list string) : list string :=
  filter (λ line, is_Some (Re.match1 matrix_row_re line)) lines.

(** A matrix section in which the label A comes twice. *)
Definition dup_rows : list string :=
  ["A          "; "B          0.1 (0.2 0.3)"; "A          "].

Definition others_header : string := "2 (Pan_troglo) vs. 1 (Homo_sapie)".
Definition others_LWL85 : string :=
  "LWL85:  dS =  0.0227 dN =  0.0000 w = 0.0000 S =   45.0 N =  177.0".
Definition others_LWL85m : string :=
  "LWL85m: dS =    -nan dN =    -nan w =   -nan S =   -nan N =   -nan (rho = -nan)".

Definition others_mixed : string := "LWL85m/LWL85: dS = 0.1 dN = 0.2 w = 0.5".
Definition others_truncated : string := "LWL85:  dS =  0.0227 dN =  0.0000 w =".

(** The dictionary [YN00] that [parse_yn00] builds from the first nine
    numbers of a row. *)
Definition yn00_stats (S N t kappa omega dN dN_SE dS dS_SE : float)
    : MethodStats :=
  {[ "S" := VFloat S; "N" := VFloat N; "t" := VFloat t;
     "kappa" := VFloat kappa; "omega" := VFloat omega; "dN" := VFloat dN;
     "dN SE" := VFloat dN_SE; "dS" := VFloat dS; "dS SE" := VFloat dS_SE ]}.

(** A row of the indexed table whose first index is 0. *)
Definition yn00_row_zero : string :=
  "   0    1    67.3   154.7   0.0136  3.6564  0.0000 -0.0000 +- 0.0000  0.0150 +- 0.0151".

(** The first token of every group of three. *)
Fixpoint key_tokens (toks : list string) : list string :=
  match toks with
  | k :: _ :: _ :: toks' => k :: key_tokens toks'
  | _ => []
  end.

(** A line that [parse_ng86] gets through when [n] names are found:
    [float] accepts its number tokens and, if the line is labelled, its
    numbers make groups of three, at most one for each name found so far
    and one for its own. *)
Definition ng86_line_ok (n : nat) (line : string) : bool :=
  match floats (Re.findall float_re line) with
  | Raise _ => false
  | Ok fl =>
      match Re.match1 matrix_row_re line with
      | None => true
      | Some _ =>
          Nat.eqb (length fl `mod` 3) 0 && Nat.leb (length fl / 3) (n + 1)
      end
  end.

Fixpoint ng86_ok (n : nat) (lines : list string) : bool :=
  match lines with
  | [] => true
  | line :: lines' =>
      ng86_line_ok n line
      && ng86_ok (if Re.match1 matrix_row_re line then S n else n) lines'
  end.

(** The states in which the groups of a row run: the list of names is
    [names], and every name has an entry in the table. *)
Definition row_state (names : list string) (s : state) : Prop :=
  sequences s = names ∧ ∀ a, a ∈ names → is_Some (results s !! a).

(** * Properties *)

#[local] Set Warnings "-inexact-float,-clear-no-such-hyp".
Local Open Scope list_scope.

(** ** The store *)

Lemma setitem_fresh h m t s k v :
  setitem (length h) k v (State (h ++ [m]) t s) = State (h ++ [<[k:=v]> m]) t s.
Proof.
  unfold setitem, set_heap; simpl. f_equal.
  replace (length h) with (length h + 0) by lia.
  by rewrite alter_app_r.
Qed.

Lemma lookup_fresh (h : list MethodStats) m : (h ++ [m]) !! length h = Some m.
Proof. by rewrite lookup_app_r, Nat.sub_diag by lia. Qed.

(** Writing [results[a][b][label] = d] where the pair entry exists. *)
Lemma set_method_ok a b label d h t s row pair :
  t !! a = Some row → row !! b = Some pair →
  set_method a b label d (State h t s)
  = Ok (State h (<[a := <[b := <[label := d]> pair]> row]> t) s).
Proof.
  intros Ha Hb. unfold set_method, getkey; simpl. by rewrite Ha; simpl; rewrite Hb.
Qed.

Lemma for_each_app {X S} (body : X → S → result S) xs ys s :
  for_each body (xs ++ ys) s = (s' ← for_each body xs s; for_each body ys s').
Proof.
  revert s; induction xs as [|x xs IH]; intros s; simpl; [done|].
  destruct (body x s); simpl; [apply IH | done].
Qed.

(** ** The indexed table: one row *)

Lemma yn00_full_floats :
  floats (Re.findall float_re yn00_row_full)
  = Ok [67.3; 154.7; 0.0136; 3.6564; 0; -0; 0; 0.0150; 0.0151]%float.
Proof. vm_compute. reflexivity. Qed.

Lemma yn00_short_floats :
  floats (Re.findall float_re yn00_row_short)
  = Ok [67.3; 154.7; 0.0136; 3.6564; 0; -0; 0; 0.0150]%float.
Proof. vm_compute. reflexivity. Qed.

Lemma yn00_full_match : Re.match2 row_re yn00_row_full = Some ("2", "1").
Proof. vm_compute. reflexivity. Qed.

Lemma yn00_short_match : Re.match2 row_re yn00_row_short = Some ("2", "1").
Proof. vm_compute. reflexivity. Qed.

(** With eight numbers on the row, [line_floats[8]] is out of range,
    whatever the store and the table hold. *)
Lemma yn00_short_raises h t :
  parse_yn00 [yn00_row_short] (State h t ["A"; "B"]) = Raise IndexError.
Proof.
  unfold parse_yn00, for_each, yn00_line.
  rewrite yn00_short_floats, yn00_short_match.
  reflexivity.
Qed.

(** C1, as stated, fails: the row of the claim carries eight numbers
    ([dS SE] is missing), and the parser raises [IndexError] on it
    instead of producing any field. *)
Lemma C1_short_row_raises :
  parse_yn00 [yn00_row_short] (State [] (pair_table "A" "B") ["A"; "B"])
  = Raise IndexError
  ∧ ¬ ∃ st', parse_yn00 [yn00_row_short] (State [] (pair_table "A" "B") ["A"; "B"])
             = Ok st'.
Proof.
  rewrite yn00_short_raises. split; [done|]. by intros [st' ?].
Qed.

(** C1 (amended): with SequenceList [["A"; "B"]] and a table that has
    pair entries for A and B, the row with all nine numbers on one line
    is parsed, and [results["B"]["A"]["YN00"]] holds S=67.3, N=154.7,
    t=0.0136, kappa=3.6564, omega=0.0, dN=-0.0, "dN SE"=0.0 (and dS=0.015,
    "dS SE"=0.0151); it is the object at [results["A"]["B"]["YN00"]] too.
    The row of eight numbers raises [IndexError]. *)
Theorem C1_yn00_row h t rowA rowB pAB pBA :
  t !! "A" = Some rowA → rowA !! "B" = Some pAB →
  t !! "B" = Some rowB → rowB !! "A" = Some pBA →
  (∃ st', parse_yn00 [yn00_row_full] (State h t ["A"; "B"]) = Ok st'
     ∧ method_stats st' "B" "A" "YN00"
       = Some {[ "S" := VFloat 67.3; "N" := VFloat 154.7;
                 "t" := VFloat 0.0136; "kappa" := VFloat 3.6564;
                 "omega" := VFloat 0; "dN" := VFloat (-0);
                 "dN SE" := VFloat 0; "dS" := VFloat 0.0150;
                 "dS SE" := VFloat 0.0151 ]}
     ∧ method_ref st' "A" "B" "YN00" = method_ref st' "B" "A" "YN00")
  ∧ parse_yn00 [yn00_row_short] (State h t ["A"; "B"]) = Raise IndexError.
Proof.
  intros HA HAB HB HBA. split; [|apply yn00_short_raises].
  unfold parse_yn00, for_each, yn00_line.
  rewrite yn00_full_floats, yn00_full_match.
  change (PyStr.int "2" - 1)%Z with 1%Z. change (PyStr.int "1" - 1)%Z with 0%Z.
  cbn [mbind result_bind getitem_int getitem]. simpl.
  unfold set_heap; simpl. rewrite !setitem_fresh.
  rewrite (set_method_ok _ _ _ _ _ _ _ _ _ HB HBA). simpl.
  erewrite set_method_ok;
    [|by rewrite lookup_insert_ne, HA|exact HAB].
  eexists; split; [reflexivity|].
  unfold method_stats, method_ref; simpl.
  rewrite lookup_insert_ne by done.
  rewrite !lookup_insert_eq; simpl. rewrite !lookup_insert_eq; simpl.
  rewrite !lookup_insert_eq; simpl.
  rewrite lookup_fresh. split; reflexivity.
Qed.

Lemma C1_yn00_row_witness :
  ∃ st', parse_yn00 [yn00_row_full] (State [] (pair_table "A" "B") ["A"; "B"])
         = Ok st'
    ∧ method_ref st' "A" "B" "YN00" = method_ref st' "B" "A" "YN00".
Proof.
  destruct (C1_yn00_row [] (pair_table "A" "B") {[ "B" := ∅ ]} {[ "A" := ∅ ]} ∅ ∅)
    as [(st' & Hst' & _ & Hsym) _]; [reflexivity..|].
  exists st'. split; [exact Hst' | exact Hsym].
Defined.


(** ** Writing a method entry *)

Lemma set_method_inv a b label d st st' :
  set_method a b label d st = Ok st' →
  heap st' = heap st ∧ sequences st' = sequences st
  ∧ dom (results st') = dom (results st)
  ∧ (∀ x y, is_Some (pair_at st' x y) ↔ is_Some (pair_at st x y))
  ∧ (∀ x y l, method_ref st' x y l
              = if decide (x = a ∧ y = b ∧ l = label) then Some d
                else method_ref st x y l).
Proof.
  unfold set_method, getkey.
  destruct (results st !! a) as [row|] eqn:Ha; simpl; [|done].
  destruct (row !! b) as [pair|] eqn:Hb; simpl; [|done].
  intros [= <-]; simpl. split_and!; [done|done|..].
  - rewrite dom_insert_L. apply (elem_of_dom_2 (D:=gset string)) in Ha. set_solver.
  - intros x y. unfold pair_at; simpl.
    destruct (decide (x = a)) as [->|Hx].
    + rewrite lookup_insert_eq, Ha; simpl.
      destruct (decide (y = b)) as [->|Hy].
      * rewrite lookup_insert_eq, Hb. split; eauto.
      * by rewrite lookup_insert_ne.
    + by rewrite lookup_insert_ne.
  - intros x y l. unfold method_ref; simpl.
    destruct (decide (x = a)) as [->|Hx].
    + rewrite lookup_insert_eq, Ha; simpl.
      destruct (decide (y = b)) as [->|Hy].
      * rewrite lookup_insert_eq, Hb; simpl.
        destruct (decide (l = label)) as [->|Hl].
        -- rewrite lookup_insert_eq. by rewrite decide_True.
        -- rewrite lookup_insert_ne by done. rewrite decide_False; [done|naive_solver].
      * rewrite lookup_insert_ne by done. rewrite decide_False; [done|naive_solver].
    + rewrite lookup_insert_ne by done. rewrite decide_False; [done|naive_solver].
Qed.

Lemma set_method_some a b label d st :
  is_Some (pair_at st a b) → ∃ st', set_method a b label d st = Ok st'.
Proof.
  unfold pair_at, set_method, getkey.
  destruct (results st !! a) as [row|]; simpl; [|by intros [? ?]].
  destruct (row !! b); simpl; [eauto | by intros [? ?]].
Qed.

(** Both directions of a pair, one after the other. *)
Lemma set_both_inv a b label d st st1 st' :
  set_method a b label d st = Ok st1 →
  set_method b a label d st1 = Ok st' →
  heap st' = heap st ∧ sequences st' = sequences st
  ∧ dom (results st') = dom (results st)
  ∧ (∀ x y, is_Some (pair_at st' x y) ↔ is_Some (pair_at st x y))
  ∧ (∀ x y l, method_ref st' x y l
              = if decide (l = label ∧ ((x = a ∧ y = b) ∨ (x = b ∧ y = a)))
                then Some d else method_ref st x y l).
Proof.
  intros (Hh1 & Hs1 & Hd1 & Hp1 & Hm1)%set_method_inv
         (Hh2 & Hs2 & Hd2 & Hp2 & Hm2)%set_method_inv.
  split_and!; [congruence|congruence|congruence|..].
  - intros x y. by rewrite Hp2, Hp1.
  - intros x y l. rewrite Hm2, Hm1.
    repeat case_decide; try done; naive_solver.
Qed.

Lemma set_both_some a b label d st :
  is_Some (pair_at st a b) → is_Some (pair_at st b a) →
  ∃ st1 st', set_method a b label d st = Ok st1
             ∧ set_method b a label d st1 = Ok st'.
Proof.
  intros Hab Hba.
  destruct (set_method_some a b label d st Hab) as [st1 H1].
  pose proof (set_method_inv _ _ _ _ _ _ H1) as (_ & _ & _ & Hp & _).
  destruct (set_method_some b a label d st1) as [st' H2]; [by apply Hp|].
  eauto.
Qed.

Lemma others_store_inv line a b d st st' :
  others_store line a b d st = Ok st' →
  heap st' = heap st ∧ sequences st' = sequences st
  ∧ dom (results st') = dom (results st)
  ∧ (∀ x y, is_Some (pair_at st' x y) ↔ is_Some (pair_at st x y))
  ∧ (∀ x y l, method_ref st' x y l
              = if decide (method_label line = Some l
                           ∧ ((x = a ∧ y = b) ∨ (x = b ∧ y = a)))
                then Some d else method_ref st x y l).
Proof.
  unfold others_store, method_label.
  assert (Hboth : ∀ label,
    (st1 ← set_method a b label d st; set_method b a label d st1) = Ok st' →
    heap st' = heap st ∧ sequences st' = sequences st
    ∧ dom (results st') = dom (results st)
    ∧ (∀ x y, is_Some (pair_at st' x y) ↔ is_Some (pair_at st x y))
    ∧ (∀ x y l, method_ref st' x y l
              = if decide (Some label = Some l
                           ∧ ((x = a ∧ y = b) ∨ (x = b ∧ y = a)))
                then Some d else method_ref st x y l)).
  { intros label H.
    destruct (set_method a b label d st) as [st1|] eqn:H1; simpl in H; [|done].
    destruct (set_both_inv _ _ _ _ _ _ _ H1 H) as (?&?&?&?&Hm).
    split_and!; try done. intros x y l. rewrite Hm.
    repeat case_decide; try done; naive_solver. }
  destruct (PyStr.contains "LWL85:" line); [apply Hboth|].
  destruct (PyStr.contains "LWL85m" line); [apply Hboth|].
  destruct (PyStr.contains "LPB93" line); [apply Hboth|].
  intros [= <-]. split_and!; try done.
Qed.

Lemma others_store_some line a b d st :
  is_Some (pair_at st a b) → is_Some (pair_at st b a) →
  ∃ st', others_store line a b d st = Ok st'.
Proof.
  intros Hab Hba. unfold others_store.
  assert (Hboth : ∀ label, ∃ st',
    (st1 ← set_method a b label d st; set_method b a label d st1) = Ok st').
  { intros label.
    destruct (set_both_some a b label d st Hab Hba) as (st1 & st' & H1 & H2).
    exists st'. by rewrite H1. }
  destruct (PyStr.contains "LWL85:" line); [apply Hboth|].
  destruct (PyStr.contains "LWL85m" line); [apply Hboth|].
  destruct (PyStr.contains "LPB93" line); [apply Hboth|].
  eauto.
Qed.

(** ** The statistics line *)

Lemma range3_step n : range3 (S (S (S n))) = 0 :: ((λ i, 3 + i) <$> range3 n).
Proof.
  unfold range3.
  replace (S (S (S n)) + 2) with (1 * 3 + (n + 2)) by lia.
  rewrite Nat.div_add_l by lia. simpl.
  f_equal. rewrite <- fmap_S_seq, <- !list_fmap_compose.
  apply list_fmap_ext; intros _ j _; simpl; lia.
Qed.

Lemma for_each_fmap {X Y S} (f : X → Y) (body : Y → S → result S) xs s :
  for_each body (f <$> xs) s = for_each (λ x, body (f x)) xs s.
Proof.
  revert s; induction xs as [|x xs IH]; intros s; simpl; [done|].
  destruct (body (f x) s); simpl; [apply IH | done].
Qed.

Lemma for_each_ext {X S} (body1 body2 : X → S → result S) xs s :
  (∀ x s, body1 x s = body2 x s) →
  for_each body1 xs s = for_each body2 xs s.
Proof.
  intros H. revert s; induction xs as [|x xs IH]; intros s; simpl; [done|].
  rewrite H. destruct (body2 x s); simpl; [apply IH | done].
Qed.

Lemma lookup_group_key (pre suf : list string) k :
  (pre ++ k :: suf) !! (length pre + 0) = Some k.
Proof. rewrite Nat.add_0_r. by apply list_lookup_middle. Qed.

Lemma lookup_group_value (pre suf : list string) k e :
  (pre ++ k :: e :: suf) !! (length pre + 0 + 2) = suf !! 0.
Proof.
  rewrite lookup_app_r by lia.
  by replace (length pre + 0 + 2 - length pre) with 2 by lia.
Qed.

Lemma lookup_group_short (pre : list string) k :
  (pre ++ [k]) !! (length pre + 0 + 2) = None.
Proof. apply lookup_ge_None_2. rewrite length_app; simpl; lia. Qed.

Lemma others_stat_step line d toks i st k v :
  toks !! i = Some k → toks !! (i + 2) = Some v →
  others_stat line d toks i st = Ok (setitem d (stat_key k) (stat_value v) st).
Proof.
  intros Hk Hv. unfold others_stat, getitem, stat_key, stat_value.
  rewrite Hk, Hv; simpl. by destruct (PyFloat.float_of_string _).
Qed.

Lemma others_stat_short line d toks i st k :
  toks !! i = Some k → toks !! (i + 2) = None →
  others_stat line d toks i st
  = Raise (ValueError ("Problem with stats line: " +:+ PyStr.repr line)).
Proof.
  intros Hk Hv. unfold others_stat, getitem. by rewrite Hk, Hv.
Qed.

(** The loop over the groups of [stats_split], run on a dictionary
    that was just created, is [stats_run]. *)
Lemma stats_loop line h t s (n : nat) : ∀ pre suf m,
  (length suf ≤ n)%nat →
  for_each (λ i, others_stat line (length h) (pre ++ suf) (length pre + i))
           (range3 (length suf)) (State (h ++ [m]) t s)
  = (m' ← stats_run line suf m; Ok (State (h ++ [m']) t s)).
Proof.
  induction n as [|n IH]; intros pre suf m Hn.
  { destruct suf; [done | simpl in Hn; lia]. }
  destruct suf as [|k [|e [|v suf]]].
  - done.
  - change (range3 (length [k])) with [0]. cbn [for_each]. cbv beta.
    by rewrite (others_stat_short _ _ _ _ _ k)
      by auto using lookup_group_key, lookup_group_short.
  - change (range3 (length [k; e])) with [0]. cbn [for_each]. cbv beta.
    by rewrite (others_stat_short _ _ _ _ _ k)
      by (try apply lookup_group_key; by rewrite lookup_group_value).
  - change (length (k :: e :: v :: suf)) with (S (S (S (length suf)))).
    rewrite range3_step. cbn [for_each]. cbv beta.
    rewrite (others_stat_step _ _ _ _ _ k v)
      by (try apply lookup_group_key; by rewrite lookup_group_value).
    rewrite setitem_fresh. cbn [mbind result_bind].
    rewrite for_each_fmap.
    specialize (IH (pre ++ [k; e; v]) suf (<[stat_key k := stat_value v]> m)).
    cbn [stats_run]. rewrite <- IH by (simpl in Hn; lia).
    apply for_each_ext; intros i st.
    rewrite <- app_assoc; simpl. f_equal. rewrite length_app; simpl. lia.
Qed.

Lemma stats_loop_all line h t s toks m :
  for_each (others_stat line (length h) toks) (range3 (length toks))
           (State (h ++ [m]) t s)
  = (m' ← stats_run line toks m; Ok (State (h ++ [m']) t s)).
Proof.
  rewrite <- (stats_loop line h t s (length toks) [] toks m) by done.
  by apply for_each_ext.
Qed.

Lemma others_stats_line_eq line a b st part :
  PyStr.split_char ":" line !! 1 = Some part →
  others_stats_line line a b st
  = (m ← stats_run line (stats_tokens part) ∅;
     others_store line a b (length (heap st))
       (State (heap st ++ [m]) (results st) (sequences st))).
Proof.
  intros Hpart. unfold others_stats_line, new_dict, getitem.
  rewrite Hpart. cbn [mbind result_bind]. fold (stats_tokens part).
  unfold set_heap; cbn [heap results sequences].
  rewrite stats_loop_all.
  by destruct (stats_run line (stats_tokens part) ∅).
Qed.

Lemma others_stats_line_no_part line a b st :
  PyStr.split_char ":" line !! 1 = None →
  others_stats_line line a b st = Raise IndexError.
Proof.
  intros Hpart. unfold others_stats_line, new_dict, getitem. by rewrite Hpart.
Qed.

(** A statistics line under an active pair: what [others_line] does
    when the statistics parse to [m] and the pair has its entries. *)
Lemma others_line_stats line a b st part m :
  Re.match2 comp_re line = None →
  PyStr.contains "dS =" line = true →
  PyStr.split_char ":" line !! 1 = Some part →
  stats_run line (stats_tokens part) ∅ = Ok m →
  is_Some (pair_at st a b) → is_Some (pair_at st b a) →
  ∃ st', others_line line (Others (Some a) (Some b) st)
         = Ok (Others (Some a) (Some b) st')
    ∧ heap st' = heap st ++ [m]
    ∧ sequences st' = sequences st
    ∧ dom (results st') = dom (results st)
    ∧ (∀ x y, is_Some (pair_at st' x y) ↔ is_Some (pair_at st x y))
    ∧ (∀ x y l, method_ref st' x y l
                = if decide (method_label line = Some l
                             ∧ ((x = a ∧ y = b) ∨ (x = b ∧ y = a)))
                  then Some (length (heap st)) else method_ref st x y l).
Proof.
  intros Hhdr Hds Hpart Hrun Hab Hba.
  unfold others_line. rewrite Hhdr; simpl. rewrite Hds.
  rewrite (others_stats_line_eq _ _ _ _ _ Hpart), Hrun; simpl.
  set (st1 := State (heap st ++ [m]) (results st) (sequences st)).
  destruct (others_store_some line a b (length (heap st)) st1) as [st' Hst'];
    [done..|].
  rewrite Hst'; simpl. exists st'. split; [done|].
  by apply others_store_inv in Hst'.
Qed.

Lemma mod3_step n : (3 + n) `mod` 3 = n `mod` 3.
Proof. replace (3 + n) with (n + 1 * 3) by lia. apply Nat.Div0.mod_add. Qed.

Lemma stats_run_complete line (n : nat) : ∀ toks m0,
  (length toks ≤ n)%nat → length toks `mod` 3 = 0 →
  ∃ m, stats_run line toks m0 = Ok m
    ∧ (∀ k v, m !! k = Some v →
         m0 !! k = Some v ∨ ∃ tok, tok ∈ value_tokens toks ∧ v = stat_value tok)
    ∧ (∀ k, is_Some (m0 !! k) → is_Some (m !! k)).
Proof.
  induction n as [|n IH]; intros toks m0 Hn Hmod.
  { destruct toks; [|simpl in Hn; lia]. exists m0. simpl; eauto. }
  destruct toks as [|k [|e [|v toks]]]; [exists m0; simpl; eauto|done|done|].
  cbn [stats_run value_tokens].
  destruct (IH toks (<[stat_key k := stat_value v]> m0)) as (m & Hm & Hval & Hdom).
  { simpl in Hn; lia. }
  { change (length (k :: e :: v :: toks)) with (3 + length toks) in Hmod.
    by rewrite mod3_step in Hmod. }
  exists m. split_and!; [done|..].
  - intros k' v' Hk'. destruct (Hval k' v' Hk') as [Hin|(tok & Htok & ->)].
    + destruct (decide (k' = stat_key k)) as [->|Hne].
      * rewrite lookup_insert_eq in Hin. injection Hin as <-.
        right. exists v. split; [left|done].
      * rewrite lookup_insert_ne in Hin by done. by left.
    + right. exists tok. split; [by right|done].
  - intros k' Hk'. apply Hdom.
    destruct (decide (k' = stat_key k)) as [->|Hne].
    + rewrite lookup_insert_eq. eauto.
    + by rewrite lookup_insert_ne.
Qed.

Lemma stats_run_truncated line (n : nat) : ∀ toks m0,
  (length toks ≤ n)%nat → length toks `mod` 3 ≠ 0 →
  stats_run line toks m0
  = Raise (ValueError ("Problem with stats line: " +:+ PyStr.repr line)).
Proof.
  induction n as [|n IH]; intros toks m0 Hn Hmod.
  { destruct toks; [done | simpl in Hn; lia]. }
  destruct toks as [|k [|e [|v toks]]]; [done..|].
  cbn [stats_run]. apply IH; [simpl in Hn; lia|].
  change (length (k :: e :: v :: toks)) with (3 + length toks) in Hmod.
  by rewrite mod3_step in Hmod.
Qed.

(** ** The grouped methods: concrete lines *)

Lemma others_header_match :
  Re.match2 comp_re others_header = Some ("Pan_troglo", "Homo_sapie").
Proof. vm_compute. reflexivity. Qed.

Lemma others_LWL85_facts :
  Re.match2 comp_re others_LWL85 = None
  ∧ PyStr.contains "dS =" others_LWL85 = true
  ∧ PyStr.split_char ":" others_LWL85 !! 1
    = Some "  dS =  0.0227 dN =  0.0000 w = 0.0000 S =   45.0 N =  177.0"
  ∧ stats_run others_LWL85
      (stats_tokens "  dS =  0.0227 dN =  0.0000 w = 0.0000 S =   45.0 N =  177.0") ∅
    = Ok {[ "dS" := VFloat 0.0227; "dN" := VFloat 0; "omega" := VFloat 0;
            "S" := VFloat 45; "N" := VFloat 177 ]}
  ∧ method_label others_LWL85 = Some "LWL85".
Proof. split_and!; vm_compute; reflexivity. Qed.

Lemma others_LWL85m_facts :
  Re.match2 comp_re others_LWL85m = None
  ∧ PyStr.contains "dS =" others_LWL85m = true
  ∧ PyStr.split_char ":" others_LWL85m !! 1
    = Some " dS =    -nan dN =    -nan w =   -nan S =   -nan N =   -nan (rho = -nan)"
  ∧ stats_run others_LWL85m
      (stats_tokens " dS =    -nan dN =    -nan w =   -nan S =   -nan N =   -nan (rho = -nan)") ∅
    = Ok {[ "dS" := VFloat nan; "dN" := VFloat nan; "omega" := VFloat nan;
            "S" := VFloat nan; "N" := VFloat nan; "rho" := VFloat nan ]}
  ∧ method_label others_LWL85m = Some "LWL85m".
Proof. split_and!; vm_compute; reflexivity. Qed.

Lemma others_LWL85m_values :
  value_tokens
    (stats_tokens " dS =    -nan dN =    -nan w =   -nan S =   -nan N =   -nan (rho = -nan)")
  = ["-nan"; "-nan"; "-nan"; "-nan"; "-nan"; "-nan)"].
Proof. vm_compute. reflexivity. Qed.

Lemma others_LWL85m_keys :
  stat_key <$> key_tokens
    (stats_tokens " dS =    -nan dN =    -nan w =   -nan S =   -nan N =   -nan (rho = -nan)")
  = ["dS"; "dN"; "omega"; "S"; "N"; "rho"].
Proof. vm_compute. reflexivity. Qed.

Lemma others_mixed_facts :
  Re.match2 comp_re others_mixed = None
  ∧ PyStr.contains "dS =" others_mixed = true
  ∧ PyStr.split_char ":" others_mixed !! 1 = Some " dS = 0.1 dN = 0.2 w = 0.5"
  ∧ stats_run others_mixed (stats_tokens " dS = 0.1 dN = 0.2 w = 0.5") ∅
    = Ok {[ "dS" := VFloat 0.1; "dN" := VFloat 0.2; "omega" := VFloat 0.5 ]}
  ∧ method_label others_mixed = Some "LWL85"
  ∧ PyStr.contains "LWL85m" others_mixed = true.
Proof. split_and!; vm_compute; reflexivity. Qed.

Lemma pair_table_entries h s a b :
  is_Some (pair_at (State h (pair_table a b) s) a b)
  ∧ is_Some (pair_at (State h (pair_table a b) s) b a).
Proof.
  unfold pair_at, pair_table; simpl.
  rewrite lookup_insert_eq; simpl. rewrite lookup_singleton_eq.
  split; [eauto|].
  destruct (decide (a = b)) as [->|Hne].
  - rewrite lookup_insert_eq; simpl. rewrite lookup_singleton_eq. eauto.
  - rewrite lookup_insert_ne, lookup_singleton_eq by done; simpl.
    rewrite lookup_singleton_eq. eauto.
Qed.

Lemma others_line_header line os g1 g2 :
  Re.match2 comp_re line = Some (g1, g2) →
  others_line line os = Ok (Others (Some g1) (Some g2) (objects os)).
Proof. intros H. unfold others_line. by rewrite H. Qed.

(** A header line and then one statistics line. *)
Lemma others_header_then_line line st part m :
  Re.match2 comp_re line = None →
  PyStr.contains "dS =" line = true →
  PyStr.split_char ":" line !! 1 = Some part →
  stats_run line (stats_tokens part) ∅ = Ok m →
  is_Some (pair_at st "Pan_troglo" "Homo_sapie") →
  is_Some (pair_at st "Homo_sapie" "Pan_troglo") →
  ∃ st', parse_others [others_header; line] st = Ok st'
    ∧ heap st' = heap st ++ [m]
    ∧ (∀ x y l, method_ref st' x y l
          = if decide (method_label line = Some l
                       ∧ ((x = "Pan_troglo" ∧ y = "Homo_sapie")
                          ∨ (x = "Homo_sapie" ∧ y = "Pan_troglo")))
            then Some (length (heap st)) else method_ref st x y l).
Proof.
  intros Hhdr Hds Hpart Hrun Hab Hba.
  destruct (others_line_stats line _ _ st part m Hhdr Hds Hpart Hrun Hab Hba)
    as (st' & Hline & Hheap & _ & _ & _ & Href).
  exists st'. split_and!; [|done..].
  unfold parse_others. cbn [for_each].
  rewrite (others_line_header _ _ _ _ others_header_match).
  cbn [mbind result_bind objects]. by rewrite Hline.
Qed.

(** C6: in a table with pair entries for Pan_troglo and Homo_sapie, the
    header ["2 (Pan_troglo) vs. 1 (Homo_sapie)"] followed by the LWL85
    line gives [results["Pan_troglo"]["Homo_sapie"]["LWL85"]] equal to
    {dS: 0.0227, dN: 0.0, omega: 0.0, S: 45.0, N: 177.0} (key [w]
    renamed to [omega]), and [results["Homo_sapie"]["Pan_troglo"]["LWL85"]]
    is the same object. *)
Theorem C6_others_LWL85 st :
  is_Some (pair_at st "Pan_troglo" "Homo_sapie") →
  is_Some (pair_at st "Homo_sapie" "Pan_troglo") →
  ∃ st', parse_others [others_header; others_LWL85] st = Ok st'
    ∧ method_stats st' "Pan_troglo" "Homo_sapie" "LWL85"
      = Some {[ "dS" := VFloat 0.0227; "dN" := VFloat 0; "omega" := VFloat 0;
                "S" := VFloat 45; "N" := VFloat 177 ]}
    ∧ method_ref st' "Homo_sapie" "Pan_troglo" "LWL85"
      = method_ref st' "Pan_troglo" "Homo_sapie" "LWL85"
    ∧ method_stats st' "Homo_sapie" "Pan_troglo" "LWL85"
      = method_stats st' "Pan_troglo" "Homo_sapie" "LWL85".
Proof.
  intros Hab Hba.
  destruct others_LWL85_facts as (Hhdr & Hds & Hpart & Hrun & Hlabel).
  destruct (others_header_then_line _ st _ _ Hhdr Hds Hpart Hrun Hab Hba)
    as (st' & Hst' & Hheap & Href).
  exists st'. split; [done|].
  assert (H1 : method_ref st' "Pan_troglo" "Homo_sapie" "LWL85"
               = Some (length (heap st))).
  { rewrite Href, decide_True; [reflexivity|].
    split; [exact Hlabel|]. left; split; reflexivity. }
  assert (H2 : method_ref st' "Homo_sapie" "Pan_troglo" "LWL85"
               = Some (length (heap st))).
  { rewrite Href, decide_True; [reflexivity|].
    split; [exact Hlabel|]. right; split; reflexivity. }
  unfold method_stats. rewrite H1, H2. cbn [mbind option_bind].
  rewrite Hheap, lookup_fresh. split_and!; reflexivity.
Qed.

Lemma C6_others_LWL85_witness :
  ∃ st', parse_others [others_header; others_LWL85]
           (State [] (pair_table "Pan_troglo" "Homo_sapie") []) = Ok st'
    ∧ method_stats st' "Pan_troglo" "Homo_sapie" "LWL85"
      = Some {[ "dS" := VFloat 0.0227; "dN" := VFloat 0; "omega" := VFloat 0;
                "S" := VFloat 45; "N" := VFloat 177 ]}.
Proof.
  destruct (C6_others_LWL85 (State [] (pair_table "Pan_troglo" "Homo_sapie") []))
    as (st' & Hst' & Hstats & _).
  - apply pair_table_entries.
  - apply pair_table_entries.
  - exists st'. split; assumption.
Defined.

(** C2, as stated, fails: on the LWL85m line of the claim every value
    token is [-nan], which [float] accepts, so every key is mapped to
    the float NaN and none to the undefined marker [None]. *)
Lemma C2_nan_is_a_float :
  ∃ st' stats,
    parse_others [others_header; others_LWL85m]
      (State [] (pair_table "Pan_troglo" "Homo_sapie") []) = Ok st'
    ∧ method_stats st' "Pan_troglo" "Homo_sapie" "LWL85m" = Some stats
    ∧ stats !! "dS" = Some (VFloat nan)
    ∧ ¬ (∀ k v, stats !! k = Some v → v = VNone).
Proof.
  destruct others_LWL85m_facts as (Hhdr & Hds & Hpart & Hrun & Hlabel).
  destruct (others_header_then_line _
              (State [] (pair_table "Pan_troglo" "Homo_sapie") []) _ _
              Hhdr Hds Hpart Hrun) as (st' & Hst' & Hheap & Href);
    [apply pair_table_entries..|].
  exists st'. eexists. split; [done|].
  unfold method_stats.
  rewrite Href, decide_True by (split; [exact Hlabel|left; split; reflexivity]).
  cbn [mbind option_bind]. rewrite Hheap. cbn [heap app length].
  split; [reflexivity|]. split; [vm_compute; reflexivity|].
  intros H. specialize (H "dS" (VFloat nan)).
  assert (HF : VFloat nan = VNone) by (apply H; vm_compute; reflexivity).
  discriminate HF.
Qed.

Lemma others_line_active line os a b :
  Re.match2 comp_re line = None →
  seq_name1 os = Some a → seq_name2 os = Some b →
  PyStr.contains "dS =" line = true →
  others_line line os
  = (st ← others_stats_line line a b (objects os);
     Ok (Others (Some a) (Some b) st)).
Proof. intros Hhdr Ha Hb Hds. unfold others_line. by rewrite Hhdr, Ha, Hb, Hds. Qed.

Lemma others_line_seeking line os :
  Re.match2 comp_re line = None → seq_name1 os = None →
  others_line line os = Ok os.
Proof. intros Hhdr Ha. unfold others_line. by rewrite Hhdr, Ha. Qed.

(** C4, as stated, fails: the line below contains [LWL85m], yet the
    parser tests for ["LWL85:"] first, finds it, and files the statistics
    under [LWL85]; nothing is stored under [LWL85m]. *)
Lemma C4_mixed_line_goes_to_LWL85 :
  PyStr.contains "LWL85m" others_mixed = true
  ∧ ∃ st', parse_others [others_header; others_mixed]
             (State [] (pair_table "Pan_troglo" "Homo_sapie") []) = Ok st'
      ∧ method_ref st' "Pan_troglo" "Homo_sapie" "LWL85" = Some 0
      ∧ method_ref st' "Pan_troglo" "Homo_sapie" "LWL85m" = None.
Proof.
  destruct others_mixed_facts as (Hhdr & Hds & Hpart & Hrun & Hlabel & Hm).
  split; [exact Hm|].
  destruct (others_header_then_line _
              (State [] (pair_table "Pan_troglo" "Homo_sapie") []) _ _
              Hhdr Hds Hpart Hrun) as (st' & Hst' & Hheap & Href);
    [apply pair_table_entries..|].
  exists st'. split; [exact Hst'|]. split.
  - rewrite Href, decide_True; [reflexivity|].
    split; [exact Hlabel|left; split; reflexivity].
  - rewrite Href, decide_False; [vm_compute; reflexivity|].
    rewrite Hlabel. intros [[=] _].
Qed.

(** C4 (amended): a statistics line that contains ["LWL85:"] has its
    MethodStats stored under [LWL85], in both pair directions, whether or
    not it contains [LWL85m]; one that contains [LWL85m] and not
    ["LWL85:"] is stored under [LWL85m] and not under [LWL85]; one that
    contains [LPB93] and neither of the two is stored under [LPB93]. *)
Theorem C4_method_labels line a b st part :
  Re.match2 comp_re line = None →
  PyStr.contains "dS =" line = true →
  PyStr.split_char ":" line !! 1 = Some part →
  length (stats_tokens part) `mod` 3 = 0 →
  is_Some (pair_at st a b) → is_Some (pair_at st b a) →
  ∃ st',
    others_line line (Others (Some a) (Some b) st)
    = Ok (Others (Some a) (Some b) st')
    ∧ let stats := length (heap st) in
      (PyStr.contains "LWL85:" line = true →
         method_ref st' a b "LWL85" = Some stats
         ∧ method_ref st' b a "LWL85" = Some stats
         ∧ method_ref st' a b "LWL85m" = method_ref st a b "LWL85m"
         ∧ method_ref st' b a "LWL85m" = method_ref st b a "LWL85m")
      ∧ (PyStr.contains "LWL85:" line = false →
         PyStr.contains "LWL85m" line = true →
         method_ref st' a b "LWL85m" = Some stats
         ∧ method_ref st' b a "LWL85m" = Some stats
         ∧ method_ref st' a b "LWL85" = method_ref st a b "LWL85"
         ∧ method_ref st' b a "LWL85" = method_ref st b a "LWL85")
      ∧ (PyStr.contains "LWL85:" line = false →
         PyStr.contains "LWL85m" line = false →
         PyStr.contains "LPB93" line = true →
         method_ref st' a b "LPB93" = Some stats
         ∧ method_ref st' b a "LPB93" = Some stats).
Proof.
  intros Hhdr Hds Hpart Hmod Hab Hba.
  destruct (stats_run_complete line _ (stats_tokens part) ∅ (le_n _) Hmod)
    as (m & Hrun & _).
  destruct (others_line_stats line a b st part m Hhdr Hds Hpart Hrun Hab Hba)
    as (st' & Hline & _ & _ & _ & _ & Href).
  exists st'. split; [done|]. cbv zeta. unfold method_label in Href.
  split_and!.
  - intros H1. rewrite !Href, H1.
    rewrite !decide_True by (split; [reflexivity|tauto]).
    rewrite !decide_False by (intros [[=] _]). done.
  - intros H1 H2. rewrite !Href, H1, H2.
    rewrite !decide_True by (split; [reflexivity|tauto]).
    rewrite !decide_False by (intros [[=] _]). done.
  - intros H1 H2 H3. rewrite !Href, H1, H2, H3.
    rewrite !decide_True by (split; [reflexivity|tauto]). done.
Qed.

Lemma C4_method_labels_witness :
  ∃ st',
    others_line others_LWL85m
      (Others (Some "Pan_troglo") (Some "Homo_sapie")
              (State [] (pair_table "Pan_troglo" "Homo_sapie") []))
    = Ok (Others (Some "Pan_troglo") (Some "Homo_sapie") st')
    ∧ method_ref st' "Pan_troglo" "Homo_sapie" "LWL85m" = Some 0
    ∧ method_ref st' "Homo_sapie" "Pan_troglo" "LWL85m" = Some 0.
Proof.
  destruct (C4_method_labels others_LWL85m "Pan_troglo" "Homo_sapie"
              (State [] (pair_table "Pan_troglo" "Homo_sapie") [])
              " dS =    -nan dN =    -nan w =   -nan S =   -nan N =   -nan (rho = -nan)")
    as (st' & Hline & _ & Hm & _).
  - vm_compute; reflexivity.
  - vm_compute; reflexivity.
  - vm_compute; reflexivity.
  - vm_compute; reflexivity.
  - apply pair_table_entries.
  - apply pair_table_entries.
  - exists st'. split; [exact Hline|].
    destruct Hm as (H1 & H2 & _); [vm_compute; reflexivity..|].
    split; [exact H1 | exact H2].
Defined.

(** C8, as stated, fails in two ways. The parser reads only the text
    between the first colon and the next: in the first line below the
    text after the first colon has a fourth token, a key without a
    value, yet no error is raised and the statistics before the second
    colon are stored. And a line without a colon raises [IndexError]
    from [line.split(":")[1]], which is outside the [try]: the error
    does not report the line. *)
Lemma C8_truncation_not_reported :
  "LWL85: dS = 0.5 :dN" = "LWL85" +:+ ":" +:+ " dS = 0.5 :dN"
  ∧ PyStr.contains ":" "LWL85" = false
  ∧ PyStr.split_ws " dS = 0.5 :dN" = ["dS"; "="; "0.5"; ":dN"]
  ∧ (∃ st', parse_others [others_header; "LWL85: dS = 0.5 :dN"]
              (State [] (pair_table "Pan_troglo" "Homo_sapie") []) = Ok st'
       ∧ method_stats st' "Pan_troglo" "Homo_sapie" "LWL85"
         = Some {[ "dS" := VFloat 0.5 ]})
  ∧ PyStr.split_ws "dS = 0.0227 dN =" = ["dS"; "="; "0.0227"; "dN"; "="]
  ∧ parse_others [others_header; "dS = 0.0227 dN ="]
      (State [] (pair_table "Pan_troglo" "Homo_sapie") []) = Raise IndexError.
Proof.
  split_and!; try (vm_compute; reflexivity).
  destruct (others_header_then_line "LWL85: dS = 0.5 :dN"
              (State [] (pair_table "Pan_troglo" "Homo_sapie") [])
              " dS = 0.5 " {[ "dS" := VFloat 0.5 ]})
    as (st' & Hst' & Hheap & Href);
    [vm_compute; reflexivity..|apply pair_table_entries|apply pair_table_entries|].
  exists st'. split; [exact Hst'|].
  unfold method_stats.
  rewrite Href, decide_True
    by (split; [vm_compute; reflexivity|left; split; reflexivity]).
  cbn [mbind option_bind]. rewrite Hheap. reflexivity.
Qed.

(** C8 (amended): under an active pair, a line with the [dS =] marker
    and a colon, in which the text between the first colon and the next
    does not make complete groups of three tokens, makes the parser
    raise [ValueError] with a message that quotes the line ([%r]);
    without a colon the line makes it raise [IndexError]; in both cases
    whatever lines follow are not read. *)
Theorem C8_truncated_line_is_fatal pre line post st0 os a b :
  for_each others_line pre (Others None None st0) = Ok os →
  seq_name1 os = Some a → seq_name2 os = Some b →
  Re.match2 comp_re line = None →
  PyStr.contains "dS =" line = true →
  (∀ part, PyStr.split_char ":" line !! 1 = Some part →
     length (stats_tokens part) `mod` 3 ≠ 0 →
     parse_others (pre ++ line :: post) st0
     = Raise (ValueError ("Problem with stats line: " +:+ PyStr.repr line)))
  ∧ (PyStr.split_char ":" line !! 1 = None →
     parse_others (pre ++ line :: post) st0 = Raise IndexError).
Proof.
  intros Hpre Ha Hb Hhdr Hds.
  assert (Hstep : parse_others (pre ++ line :: post) st0
                  = (os' ← (st ← others_stats_line line a b (objects os);
                            Ok (Others (Some a) (Some b) st));
                     os'' ← for_each others_line post os'; Ok (objects os''))).
  { unfold parse_others. rewrite for_each_app, Hpre.
    cbn [mbind result_bind for_each].
    rewrite (others_line_active _ _ _ _ Hhdr Ha Hb Hds).
    by destruct (others_stats_line line a b (objects os)). }
  split.
  - intros part Hpart Hmod. rewrite Hstep.
    rewrite (others_stats_line_eq _ _ _ _ _ Hpart).
    by rewrite (stats_run_truncated line _ _ _ (le_n _) Hmod).
  - intros Hpart. rewrite Hstep.
    by rewrite (others_stats_line_no_part _ _ _ _ Hpart).
Qed.

Lemma C8_truncated_line_is_fatal_witness :
  parse_others ([others_header] ++ others_truncated :: [others_LWL85m])
    (State [] (pair_table "Pan_troglo" "Homo_sapie") [])
  = Raise (ValueError
      "Problem with stats line: 'LWL85:  dS =  0.0227 dN =  0.0000 w ='").
Proof.
  destruct (C8_truncated_line_is_fatal [others_header] others_truncated
           [others_LWL85m] (State [] (pair_table "Pan_troglo" "Homo_sapie") [])
           (Others (Some "Pan_troglo") (Some "Homo_sapie")
                   (State [] (pair_table "Pan_troglo" "Homo_sapie") []))
           "Pan_troglo" "Homo_sapie") as [Hvalue _].
  - vm_compute; reflexivity.
  - reflexivity.
  - reflexivity.
  - vm_compute; reflexivity.
  - vm_compute; reflexivity.
  - apply (Hvalue "  dS =  0.0227 dN =  0.0000 w =").
    + vm_compute; reflexivity.
    + vm_compute. discriminate.
Defined.

(** C10: the lines before the first header line, among them lines with
    the [dS =] marker, are skipped: no error is raised and the objects
    are left as they were, so the parse is that of the remaining lines. *)
Theorem C10_lines_before_header_skipped pre rest st :
  Forall (λ line, Re.match2 comp_re line = None) pre →
  parse_others pre st = Ok st
  ∧ parse_others (pre ++ rest) st = parse_others rest st.
Proof.
  intros Hpre.
  assert (Hskip : for_each others_line pre (Others None None st)
                  = Ok (Others None None st)).
  { induction Hpre as [|line pre Hline _ IH]; [done|].
    cbn [for_each]. rewrite (others_line_seeking _ (Others None None st) Hline eq_refl).
    exact IH. }
  unfold parse_others. rewrite for_each_app, Hskip. done.
Qed.

Lemma C10_lines_before_header_skipped_witness :
  parse_others [others_LWL85; "dS = 1.0"]
    (State [] (pair_table "Pan_troglo" "Homo_sapie") [])
  = Ok (State [] (pair_table "Pan_troglo" "Homo_sapie") []).
Proof.
  apply (C10_lines_before_header_skipped [others_LWL85; "dS = 1.0"] []).
  repeat (apply Forall_cons_2; [vm_compute; reflexivity|]). apply Forall_nil_2.
Defined.

(** ** Loops and binds *)

Lemma bind_Ok {A B} (m : result A) (f : A → result B) b :
  m ≫= f = Ok b → ∃ a, m = Ok a ∧ f a = Ok b.
Proof. destruct m as [a|e]; simpl; [eauto | done]. Qed.

(** A property of the state that every iteration keeps is kept by the
    loop. *)
Lemma for_each_inv {X S} (P : S → Prop) (body : X → S → result S) xs s s' :
  (∀ x s1 s2, P s1 → body x s1 = Ok s2 → P s2) →
  P s → for_each body xs s = Ok s' → P s'.
Proof.
  intros Hbody. revert s; induction xs as [|x xs IH]; intros s Hs; simpl.
  - by intros [= <-].
  - intros (s1 & H1 & H2)%bind_Ok. eauto.
Qed.

(** ** parse_ng86: one group *)

Lemma setitem_from_inv d key l i st st' :
  setitem_from d key l i st = Ok st' →
  ∃ x, l !! i = Some x ∧ st' = setitem d key (VFloat x) st.
Proof.
  unfold setitem_from, getitem. destruct (l !! i); simpl; [|done].
  intros [= <-]. eauto.
Qed.

Lemma set_pair_inv a b label d st st' :
  set_pair a b label d st = Ok st' →
  heap st' = heap st ∧ sequences st' = sequences st
  ∧ dom (results st') = dom (results st)
  ∧ (∀ x, x ≠ a → results st' !! x = results st !! x)
  ∧ (∀ x y, pair_at st' x y
            = if decide (x = a ∧ y = b) then Some {[label := d]}
              else pair_at st x y).
Proof.
  unfold set_pair, getkey.
  destruct (results st !! a) as [row|] eqn:Ha; simpl; [|done].
  intros [= <-]; simpl. split_and!; [done|done|..].
  - rewrite dom_insert_L. apply (elem_of_dom_2 (D:=gset string)) in Ha. set_solver.
  - intros x Hx. by rewrite lookup_insert_ne.
  - intros x y. unfold pair_at; simpl.
    destruct (decide (x = a)) as [->|Hx].
    + rewrite lookup_insert_eq, Ha; simpl.
      destruct (decide (y = b)) as [->|Hy].
      * rewrite lookup_insert_eq. by rewrite decide_True.
      * rewrite lookup_insert_ne by done. rewrite decide_False; [done|tauto].
    + rewrite lookup_insert_ne by done. rewrite decide_False; [done|tauto].
Qed.

Lemma ng86_stats_built x y z :
  <["dS" := VFloat z]> (<["dN" := VFloat y]> (<["omega" := VFloat x]> ∅))
  = ng86_stats x y z.
Proof.
  unfold ng86_stats. apply map_eq; intros k.
  destruct (decide (k = "dS")) as [->|H1]; [reflexivity|].
  destruct (decide (k = "dN")) as [->|H2]; [reflexivity|].
  destruct (decide (k = "omega")) as [->|H3]; [reflexivity|].
  rewrite !lookup_insert_ne by done. rewrite lookup_singleton_ne by done.
  by rewrite lookup_empty.
Qed.

(** What one iteration over a group of three numbers does. *)
Lemma ng86_group_inv seq_name fl i st st' :
  ng86_group seq_name fl i st = Ok st' →
  ∃ x y z c,
    fl !! i = Some x ∧ fl !! (i + 1) = Some y ∧ fl !! (i + 2) = Some z
    ∧ sequences st !! (i / 3) = Some c
    ∧ heap st' = heap st ++ [ng86_stats x y z]
    ∧ sequences st' = sequences st
    ∧ dom (results st') = dom (results st)
    ∧ (∀ a, a ≠ seq_name → a ≠ c → results st' !! a = results st !! a)
    ∧ (∀ a b, pair_at st' a b
              = if decide ((a = seq_name ∧ b = c) ∨ (a = c ∧ b = seq_name))
                then Some {[ "NG86" := length (heap st) ]}
                else pair_at st a b).
Proof.
  unfold ng86_group, new_dict.
  intros (s1 & (x & Hx & ->)%setitem_from_inv & H)%bind_Ok.
  apply bind_Ok in H as (s2 & (y & Hy & ->)%setitem_from_inv & H).
  apply bind_Ok in H as (s3 & (z & Hz & ->)%setitem_from_inv & H).
  apply bind_Ok in H as (row & _ & H).
  apply bind_Ok in H as (c & Hc & H).
  apply bind_Ok in H as (s4 & H4 & H).
  apply bind_Ok in H as (c' & Hc' & H).
  destruct st as [h t s]. unfold set_heap in *; cbn [heap results sequences] in *.
  rewrite !setitem_fresh in H4. rewrite ng86_stats_built in H4.
  unfold getitem in Hc. cbn [sequences setitem set_heap] in Hc.
  destruct (s !! (i / 3)) as [c0|] eqn:Hs; [|done]. injection Hc as <-.
  apply set_pair_inv in H4 as (Hh4 & Hs4 & Hd4 & Ho4 & Hp4).
  cbn [heap results sequences] in *.
  unfold getitem in Hc'. rewrite Hs4, Hs in Hc'. injection Hc' as <-.
  apply set_pair_inv in H as (Hh & Hs' & Hd & Ho & Hp).
  exists x, y, z, c0. split_and!; try done.
  - congruence.
  - congruence.
  - congruence.
  - intros a Ha1 Ha2. rewrite Ho, Ho4 by done. done.
  - intros a b. rewrite Hp, Hp4. unfold pair_at; simpl.
    repeat case_decide; try done; tauto.
Qed.

(** ** parse_ng86: the invariant *)

Lemma ng86_group_keeps_inv h0 t0 seq_name fl i st st' :
  seq_name ∈ sequences st →
  ng86_inv h0 t0 st →
  ng86_group seq_name fl i st = Ok st' →
  ng86_inv h0 t0 st' ∧ sequences st' = sequences st.
Proof.
  intros Hin (Hpre & Hdom & Hout & Hpairs)
    (x & y & z & c & _ & _ & _ & Hc & Hh & Hs & Hd & Ho & Hp)%ng86_group_inv.
  assert (Hcin : c ∈ sequences st) by (by eapply list_elem_of_lookup_2).
  split; [|done]. unfold ng86_inv. rewrite Hs, Hd, Hh. split_and!.
  - by apply prefix_app_r.
  - done.
  - intros a Ha. rewrite Ho; [by apply Hout|..]; intros ->; done.
  - intros a b p Ha. rewrite Hp. case_decide as Hcase.
    + intros [= <-]. split; [destruct Hcase as [[_ ->]|[_ ->]]; done|].
      exists (length (heap st)), x, y, z. split_and!; [done|..].
      * by apply prefix_length.
      * apply lookup_fresh.
    + intros Hab. destruct (Hpairs a b p Ha Hab) as (Hb & r & x' & y' & z' & -> & Hr & Hst).
      split; [done|]. exists r, x', y', z'. split_and!; [done|done|].
      by apply lookup_app_l_Some.
Qed.

Lemma ng86_groups_keep_inv h0 t0 seq_name fl idx st st' :
  seq_name ∈ sequences st →
  ng86_inv h0 t0 st →
  for_each (ng86_group seq_name fl) idx st = Ok st' →
  ng86_inv h0 t0 st' ∧ sequences st' = sequences st.
Proof.
  intros Hin Hinv.
  apply (for_each_inv
           (λ s, ng86_inv h0 t0 s ∧ sequences s = sequences st)); [|done].
  intros i s1 s2 [H1 Hs1] Hg.
  destruct (ng86_group_keeps_inv h0 t0 seq_name fl i s1 s2) as [H2 Hs2];
    [by rewrite Hs1|done|done|].
  split; [done|congruence].
Qed.

(** Appending the row's name and setting [results[seq_name] = {}]. *)
Lemma ng86_new_row_keeps_inv h0 t0 seq_name st :
  ng86_inv h0 t0 st →
  ng86_inv h0 t0
    (set_results (<[seq_name := ∅]> (results st))
       (set_sequences (sequences st ++ [seq_name]) st)).
Proof.
  intros (Hpre & Hdom & Hout & Hpairs). unfold ng86_inv; simpl. split_and!.
  - done.
  - rewrite dom_insert_L, Hdom, list_to_set_app_L. simpl. set_solver.
  - intros a Ha. rewrite elem_of_app, list_elem_of_singleton in Ha.
    rewrite lookup_insert_ne by (intros ->; tauto). apply Hout. tauto.
  - intros a b p Ha. unfold pair_at; simpl.
    destruct (decide (a = seq_name)) as [->|Hne].
    + rewrite lookup_insert_eq; simpl. by rewrite lookup_empty.
    + rewrite lookup_insert_ne by done. intros Hab.
      rewrite elem_of_app, list_elem_of_singleton in Ha.
      destruct Ha as [Ha|Ha]; [|done].
      destruct (Hpairs a b p Ha Hab) as (Hb & Hrest).
      split; [|done]. rewrite elem_of_app. by left.
Qed.

Lemma ng86_line_keeps_inv h0 t0 line st st' :
  ng86_inv h0 t0 st →
  ng86_line line st = Ok st' →
  ng86_inv h0 t0 st'
  ∧ sequences st' = sequences st ++ row_labels [line].
Proof.
  intros Hinv. unfold ng86_line, row_labels, row_label; simpl.
  intros (fl & _ & H)%bind_Ok.
  destruct (Re.match1 matrix_row_re line) as [g1|]; simpl.
  - apply ng86_groups_keep_inv with (h0 := h0) (t0 := t0) in H.
    + done.
    + simpl. rewrite elem_of_app, list_elem_of_singleton. by right.
    + by apply ng86_new_row_keeps_inv.
  - injection H as <-. by rewrite app_nil_r.
Qed.

Lemma ng86_lines_keep_inv h0 t0 lines : ∀ st st',
  ng86_inv h0 t0 st →
  for_each ng86_line lines st = Ok st' →
  ng86_inv h0 t0 st'
  ∧ sequences st' = sequences st ++ row_labels lines.
Proof.
  induction lines as [|line lines IH]; intros st st' Hinv; simpl.
  - intros [= <-]. by rewrite app_nil_r.
  - intros (s1 & H1 & H2)%bind_Ok.
    destruct (ng86_line_keeps_inv h0 t0 line st s1 Hinv H1) as [Hinv1 Hs1].
    destruct (IH s1 st' Hinv1 H2) as [Hinv' Hs'].
    split; [done|]. rewrite Hs', Hs1, <- app_assoc. f_equal.
    unfold row_labels; simpl. by destruct (row_label line).
Qed.

Lemma ng86_inv_start st :
  ng86_inv (heap st) (results st) (set_sequences [] st).
Proof.
  unfold ng86_inv; simpl. split_and!; [done|set_solver|done|].
  intros a b p Ha. by apply elem_of_nil in Ha.
Qed.

(** The invariant holds of what [parse_ng86] returns, and the list
    returned is that of the row labels. *)
Lemma parse_ng86_inv lines st st' :
  parse_ng86 lines st = Ok st' →
  ng86_inv (heap st) (results st) st' ∧ sequences st' = row_labels lines.
Proof.
  intros H. apply (ng86_lines_keep_inv _ _ _ _ _ (ng86_inv_start st)) in H.
  done.
Qed.

(** ** parse_yn00 and parse_others keep the shape of the table *)

Lemma same_shape_refl st : same_shape st st.
Proof. by unfold same_shape. Qed.

Lemma same_shape_trans st1 st2 st3 :
  same_shape st1 st2 → same_shape st2 st3 → same_shape st1 st3.
Proof.
  intros (Hs1 & Hd1 & Hp1 & Hh1) (Hs2 & Hd2 & Hp2 & Hh2).
  unfold same_shape. split_and!; [congruence|congruence|..].
  - intros x y. by rewrite Hp2, Hp1.
  - by etrans.
Qed.

Lemma set_both_same_shape a b label d st st1 st' :
  set_method a b label d st = Ok st1 →
  set_method b a label d st1 = Ok st' →
  same_shape st st'.
Proof.
  intros H1 H2.
  destruct (set_both_inv _ _ _ _ _ _ _ H1 H2) as (Hh & Hs & Hd & Hp & _).
  unfold same_shape. by rewrite Hh.
Qed.

Lemma yn00_line_same_shape line st st' :
  yn00_line line st = Ok st' → same_shape st st'.
Proof.
  unfold yn00_line. intros (fl & _ & H)%bind_Ok.
  destruct (Re.match2 row_re line) as [[g1 g2]|];
    [|injection H as <-; apply same_shape_refl].
  apply bind_Ok in H as (n1 & _ & H). apply bind_Ok in H as (n2 & _ & H).
  unfold new_dict in H.
  apply bind_Ok in H as (s1 & (x1 & _ & ->)%setitem_from_inv & H).
  apply bind_Ok in H as (s2 & (x2 & _ & ->)%setitem_from_inv & H).
  apply bind_Ok in H as (s3 & (x3 & _ & ->)%setitem_from_inv & H).
  apply bind_Ok in H as (s4 & (x4 & _ & ->)%setitem_from_inv & H).
  apply bind_Ok in H as (s5 & (x5 & _ & ->)%setitem_from_inv & H).
  apply bind_Ok in H as (s6 & (x6 & _ & ->)%setitem_from_inv & H).
  apply bind_Ok in H as (s7 & (x7 & _ & ->)%setitem_from_inv & H).
  apply bind_Ok in H as (s8 & (x8 & _ & ->)%setitem_from_inv & H).
  apply bind_Ok in H as (s9 & (x9 & _ & ->)%setitem_from_inv & H).
  apply bind_Ok in H as (s10 & H1 & H2).
  destruct (set_both_inv _ _ _ _ _ _ _ H1 H2) as (Hh & Hs & Hd & Hp & _).
  destruct st as [h t s]. unfold set_heap in *; cbn [heap results sequences] in *.
  rewrite !setitem_fresh in Hh, Hs, Hd, Hp.
  unfold same_shape; cbn [heap results sequences] in *. rewrite Hh.
  split_and!; [done|done|..].
  - intros x y. rewrite Hp. by unfold pair_at.
  - by apply prefix_app_r.
Qed.

Lemma parse_yn00_same_shape lines st st' :
  parse_yn00 lines st = Ok st' → same_shape st st'.
Proof.
  apply (for_each_inv (same_shape st)); [|apply same_shape_refl].
  intros line s1 s2 H1 H2. eapply same_shape_trans; [done|].
  by apply (yn00_line_same_shape line).
Qed.

Lemma others_stat_inv line d toks i st st' :
  others_stat line d toks i st = Ok st' →
  ∃ k v, st' = setitem d k v st.
Proof.
  unfold others_stat. intros (tok & _ & H)%bind_Ok.
  apply bind_Ok in H as (v & _ & H).
  destruct (PyFloat.float_of_string v); injection H as <-; eauto.
Qed.

Lemma others_stats_same_shape line toks idx h0 t s m st' :
  for_each (others_stat line (length h0) toks) idx (State (h0 ++ [m]) t s)
  = Ok st' →
  ∃ m', st' = State (h0 ++ [m']) t s.
Proof.
  apply (for_each_inv (λ st, ∃ m', st = State (h0 ++ [m']) t s)); [|eauto].
  intros i s1 s2 [m1 ->] (k & v & ->)%others_stat_inv.
  rewrite setitem_fresh. eauto.
Qed.

Lemma others_line_same_shape line os os' :
  others_line line os = Ok os' → same_shape (objects os) (objects os').
Proof.
  unfold others_line.
  destruct (Re.match2 comp_re line) as [[g1 g2]|];
    [intros [= <-]; apply same_shape_refl|].
  destruct (seq_name1 os) as [a|]; [|intros [= <-]; apply same_shape_refl].
  destruct (seq_name2 os) as [b|]; [|intros [= <-]; apply same_shape_refl].
  destruct (PyStr.contains "dS =" line); [|intros [= <-]; apply same_shape_refl].
  intros (st1 & H & [= <-])%bind_Ok. cbn [objects].
  unfold others_stats_line, new_dict in H.
  apply bind_Ok in H as (part & _ & H).
  apply bind_Ok in H as (st2 & H2 & H).
  destruct (objects os) as [h t s]. unfold set_heap in H2; cbn [heap results sequences] in *.
  apply others_stats_same_shape in H2 as [m' ->].
  apply others_store_inv in H as (Hh & Hs & Hd & Hp & _).
  cbn [heap results sequences] in *.
  unfold same_shape; cbn [heap results sequences]. rewrite Hh.
  split_and!; [done|done|..].
  - intros x y. rewrite Hp. by unfold pair_at.
  - by apply prefix_app_r.
Qed.

Lemma parse_others_same_shape lines st st' :
  parse_others lines st = Ok st' → same_shape st st'.
Proof.
  unfold parse_others. intros (os & H & [= <-])%bind_Ok.
  revert H.
  apply (for_each_inv (λ o, same_shape st (objects o))); [|apply same_shape_refl].
  intros line o1 o2 H1 H2. eapply same_shape_trans; [done|].
  by apply (others_line_same_shape line).
Qed.

(** ** The matrix section: what the pass keeps and what it resets *)

Lemma method_ref_pair st a b l :
  method_ref st a b l = (pair ← pair_at st a b; pair !! l).
Proof. unfold method_ref, pair_at. by destruct (results st !! a). Qed.

Lemma method_ref_single st a b r :
  pair_at st a b = Some {[ "NG86" := r ]} →
  method_ref st a b "NG86" = Some r.
Proof.
  intros H. rewrite method_ref_pair, H; simpl. apply lookup_singleton_eq.
Qed.




(** ** When the row pattern matches *)

Lemma str_length_app (a b : string) :
  String.length (a +:+ b) = String.length a + String.length b.
Proof. induction a as [|c a IH]; simpl; [done|by rewrite IH]. Qed.

Lemma str_app_assoc (a b c : string) : (a +:+ b) +:+ c = a +:+ (b +:+ c).
Proof.
  induction a as [|x a IH]; [done|].
  change (String x ((a +:+ b) +:+ c) = String x (a +:+ (b +:+ c))).
  by rewrite IH.
Qed.

Lemma all_in_app cls (a b : string) :
  Re.all_in cls (a +:+ b) = Re.all_in cls a && Re.all_in cls b.
Proof.
  induction a as [|c a IH]; simpl; [done|]. by rewrite IH, andb_assoc.
Qed.

Lemma rep_complete {A} cls p : ∀ rest lo hi (k : string → option A),
  Re.all_in cls p = true → (lo ≤ String.length p)%nat →
  Re.within (String.length p) hi →
  is_Some (k rest) →
  is_Some (Re.rep cls lo hi (p +:+ rest) k).
Proof.
  induction p as [|c p IH]; intros rest lo hi k Hall Hlo Hhi Hk.
  - simpl in Hlo. assert (lo = 0) as -> by lia.
    destruct rest as [|c rest]; simpl; [done|].
    destruct (cls c && Re.may_take hi); [|done].
    by destruct (Re.rep cls 0 (Init.Nat.pred <$> hi) rest k).
  - simpl in Hall. apply andb_true_iff in Hall as [Hc Hall].
    change (String c p +:+ rest) with (String c (p +:+ rest)).
    cbn [Re.rep]. rewrite Hc.
    assert (Hm : Re.may_take hi = true).
    { destruct hi as [[|h]|]; simpl in *; [lia|done|done]. }
    rewrite Hm. cbn [andb].
    destruct (IH rest (Init.Nat.pred lo) (Init.Nat.pred <$> hi) k) as [a Ha];
      [done|simpl in Hlo; lia| |done|].
    + destruct hi as [h|]; simpl in *; [lia|done].
    + by rewrite Ha.
Qed.

Lemma rep_sound {A} cls : ∀ s lo hi (k : string → option A) a,
  Re.rep cls lo hi s k = Some a →
  ∃ p rest, s = p +:+ rest ∧ Re.all_in cls p = true
    ∧ (lo ≤ String.length p)%nat ∧ Re.within (String.length p) hi
    ∧ k rest = Some a.
Proof.
  assert (Hstop : ∀ s lo hi (k : string → option A) a,
    match lo with 0 => k s | S _ => None end = Some a →
    ∃ p rest, s = p +:+ rest ∧ Re.all_in cls p = true
      ∧ (lo ≤ String.length p)%nat ∧ Re.within (String.length p) hi
      ∧ k rest = Some a).
  { intros s lo hi k a H. destruct lo; [|done].
    exists EmptyString, s. split_and!; try done.
    destruct hi; simpl; [lia|done]. }
  induction s as [|c s IH]; intros lo hi k a; cbn [Re.rep]; [apply Hstop|].
  destruct (cls c && Re.may_take hi) eqn:Hc; [|apply Hstop].
  destruct (Re.rep cls (Init.Nat.pred lo) (Init.Nat.pred <$> hi) s k)
    as [a'|] eqn:Hrec; [|apply Hstop].
  intros [= ->]. apply andb_true_iff in Hc as [Hc Hm].
  destruct (IH _ _ _ _ Hrec) as (p & rest & -> & Hall & Hlo & Hhi & Hk).
  exists (String c p), rest. simpl. rewrite Hc, Hall.
  split_and!; [done|done|lia| |done].
  destruct hi as [[|h]|]; simpl in *; [done|lia|done].
Qed.

(** [matrix_row_re] matches a line exactly when the line starts with
    one or more characters other than a newline that are followed by a
    run of 5 to 15 blanks. *)
Lemma matrix_row_matches line :
  is_Some (Re.match1 matrix_row_re line)
  ↔ ∃ p w rest, line = p +:+ w +:+ rest
      ∧ p ≠ EmptyString ∧ Re.all_in PyStr.is_dot p = true
      ∧ Re.all_in PyStr.is_space w = true
      ∧ (5 ≤ String.length w ≤ 15)%nat.
Proof.
  unfold Re.match1, Re.match_groups, matrix_row_re, Re.seq_of, Re.plus,
    Re.between. cbn [foldr Re.run].
  split.
  - intros [g Hg].
    destruct (Re.rep PyStr.is_dot 1 None line _) as [caps|] eqn:H; [|done].
    apply rep_sound in H as (p & rest1 & -> & Hp & Hlen & _ & H).
    apply rep_sound in H as (w & rest & -> & Hw & Hlo & Hhi & _).
    exists p, w, rest. split_and!; try done.
    intros ->. simpl in Hlen. lia.
  - intros (p & w & rest & -> & Hne & Hp & Hw & Hlo & Hhi).
    destruct (rep_complete PyStr.is_dot p (w +:+ rest) 1 None
      (λ rest0, Re.rep PyStr.is_space 5 (Some 15) rest0
         (λ rest1, Some (([] ++ [Re.consumed (p +:+ w +:+ rest) rest0])%list))))
      as [caps Hcaps]; [done| |done| |].
    + destruct p; [done|simpl; lia].
    + by apply rep_complete.
    + rewrite Hcaps. simpl.
      apply rep_sound in Hcaps as (p' & rest1 & _ & _ & _ & _ & H).
      apply rep_sound in H as (w' & rest' & _ & _ & _ & _ & [= <-]).
      by eexists.
Qed.

Lemma str_split_at (n : nat) : ∀ w : string,
  (n ≤ String.length w)%nat →
  ∃ w1 w2, w = w1 +:+ w2 ∧ String.length w1 = n.
Proof.
  induction n as [|n IH]; intros w Hn.
  - by exists EmptyString, w.
  - destruct w as [|c w]; [simpl in Hn; lia|].
    destruct (IH w) as (w1 & w2 & -> & Hlen); [simpl in Hn; lia|].
    exists (String c w1), w2. split; [done|]. simpl. by rewrite Hlen.
Qed.

(** The upper bound of the pattern does not restrict the lines that
    match: what follows the run is free, so a run of more than 15
    blanks matches with its first five; and the text before the run may
    itself be made of blanks. *)
Lemma matrix_row_run line :
  is_Some (Re.match1 matrix_row_re line)
  ↔ ∃ p w rest, line = p +:+ w +:+ rest
      ∧ p ≠ EmptyString ∧ Re.all_in PyStr.is_dot p = true
      ∧ Re.all_in PyStr.is_space w = true
      ∧ (5 ≤ String.length w)%nat.
Proof.
  rewrite matrix_row_matches. split.
  - intros (p & w & rest & Hline & Hne & Hp & Hw & Hlo & _). by exists p, w, rest.
  - intros (p & w & rest & -> & Hne & Hp & Hw & Hlo).
    destruct (str_split_at 5 w Hlo) as (w1 & w2 & -> & Hlen).
    rewrite all_in_app in Hw. apply andb_true_iff in Hw as [Hw1 _].
    exists p, w1, (w2 +:+ rest). rewrite str_app_assoc.
    split_and!; [done|done|done|done|lia|lia].
Qed.

Lemma row_labels_length lines :
  length (row_labels lines) = length (row_lines lines).
Proof.
  unfold row_labels, row_lines, row_label.
  induction lines as [|line lines IH]; [done|].
  rewrite filter_cons. cbn [omap list_omap].
  destruct (Re.match1 matrix_row_re line) as [g|].
  - rewrite decide_True by eauto. cbn [fmap option_fmap option_map length].
    by rewrite IH.
  - rewrite decide_False by (by intros [? ?]). done.
Qed.

(** C9, as stated, fails: a line of six blanks has no text before its
    run of blanks, yet the pattern matches it (a blank is a character
    for [.+]) and the parser lists the empty name for it; and a label
    followed by twenty blanks, a run longer than 15, is listed as
    well. *)
Lemma C9_blank_line_is_listed :
  Re.all_in PyStr.is_space "      " = true
  ∧ (∃ st', parse_ng86 ["      "] (State [] ∅ []) = Ok st'
            ∧ sequences st' = [""])
  ∧ Re.all_in PyStr.is_space "                    " = true
  ∧ String.length "                    " = 20
  ∧ (∃ st', parse_ng86 ["A" +:+ "                    "] (State [] ∅ []) = Ok st'
            ∧ sequences st' = ["A"]).
Proof.
  split_and!; try (vm_compute; reflexivity).
  - eexists. split; vm_compute; reflexivity.
  - eexists. split; vm_compute; reflexivity.
Qed.

(** C9 (amended): the list that [parse_ng86] returns is the list of the
    labels of the lines that the row pattern matches, in the order of
    the lines, one for each such line; the pattern matches a line
    exactly when the line starts with one or more characters other than
    a newline, blanks among them, followed by five or more blanks; and
    [parse_yn00] leaves the list as it is. *)
Theorem C9_sequence_list lines lines2 st st' st2 :
  parse_ng86 lines st = Ok st' →
  parse_yn00 lines2 st' = Ok st2 →
  sequences st' = row_labels lines
  ∧ length (sequences st') = length (row_lines lines)
  ∧ (∀ line, line ∈ row_lines lines
       ↔ line ∈ lines
         ∧ ∃ p w rest, line = p +:+ w +:+ rest
             ∧ p ≠ EmptyString ∧ Re.all_in PyStr.is_dot p = true
             ∧ Re.all_in PyStr.is_space w = true
             ∧ (5 ≤ String.length w)%nat)
  ∧ sequences st2 = sequences st'.
Proof.
  intros [_ Hseq]%parse_ng86_inv (Hs2 & _)%parse_yn00_same_shape.
  split_and!; [done| | |done].
  - rewrite Hseq. apply row_labels_length.
  - intros line. unfold row_lines.
    rewrite list_elem_of_filter, matrix_row_run. tauto.
Qed.

Lemma C9_sequence_list_witness :
  ∃ st' st2,
    parse_ng86 ng86_rows (State [] ∅ []) = Ok st'
    ∧ parse_yn00 [yn00_row_full] st' = Ok st2
    ∧ sequences st' = ["Homo_sapie"; "Pan_troglo"; "Gorilla_go"]
    ∧ sequences st2 = sequences st'.
Proof.
  destruct (parse_ng86 ng86_rows (State [] ∅ [])) as [st'|e] eqn:H1;
    [|vm_compute in H1; discriminate H1].
  destruct (parse_yn00 [yn00_row_full] st') as [st2|e] eqn:H2.
  - exists st', st2. split; [reflexivity|]. split; [exact H2|].
    destruct (C9_sequence_list _ _ _ _ _ H1 H2) as (Hseq & _ & _ & Hsame).
    split; [|exact Hsame]. rewrite Hseq. vm_compute. reflexivity.
  - exfalso. vm_compute in H1. injection H1 as <-.
    vm_compute in H2. discriminate H2.
Defined.

(** C7: when the three parsers are run in order from an empty table,
    every top-level key of the final table, and every key of every
    entry, is a name in the list that [parse_ng86] returned; and, on any
    table, [parse_yn00] and [parse_others] leave the set of top-level
    keys as it was. *)
Theorem C7_names_come_from_matrix l1 l2 l3 h s0 st1 st2 st3 :
  parse_ng86 l1 (State h ∅ s0) = Ok st1 →
  parse_yn00 l2 st1 = Ok st2 →
  parse_others l3 st2 = Ok st3 →
  (∀ a, a ∈ dom (results st3) → a ∈ sequences st1)
  ∧ (∀ a b, is_Some (pair_at st3 a b) →
       a ∈ sequences st1 ∧ b ∈ sequences st1)
  ∧ sequences st3 = sequences st1
  ∧ (∀ lines st st', parse_yn00 lines st = Ok st' →
       dom (results st') = dom (results st))
  ∧ (∀ lines st st', parse_others lines st = Ok st' →
       dom (results st') = dom (results st)).
Proof.
  intros [(_ & Hdom & _ & Hpairs) _]%parse_ng86_inv
         (Hs2 & Hd2 & Hp2 & _)%parse_yn00_same_shape
         (Hs3 & Hd3 & Hp3 & _)%parse_others_same_shape.
  cbn [heap results] in Hdom.
  assert (Htop : ∀ a, a ∈ dom (results st1) → a ∈ sequences st1).
  { intros a. rewrite Hdom, dom_empty_L, elem_of_union, elem_of_list_to_set.
    intros [Ha|Ha]; [by apply elem_of_empty in Ha | done]. }
  split_and!.
  - intros a. rewrite Hd3, Hd2. apply Htop.
  - intros a b. rewrite Hp3, Hp2. intros [p Hp].
    assert (Ha : a ∈ sequences st1).
    { apply Htop, elem_of_dom. unfold pair_at in Hp.
      destruct (results st1 !! a); [eauto | done]. }
    split; [done|]. by destruct (Hpairs a b p Ha Hp).
  - congruence.
  - intros lines st st' (_ & Hd & _)%parse_yn00_same_shape. done.
  - intros lines st st' (_ & Hd & _)%parse_others_same_shape. done.
Qed.

Lemma C7_names_come_from_matrix_witness :
  ∃ st1 st2 st3,
    parse_ng86 ng86_rows (State [] ∅ []) = Ok st1
    ∧ parse_yn00 [yn00_row_full] st1 = Ok st2
    ∧ parse_others [others_header; others_LWL85] st2 = Ok st3
    ∧ ∀ a, a ∈ dom (results st3) → a ∈ sequences st1.
Proof.
  destruct (parse_ng86 ng86_rows (State [] ∅ [])) as [st1|e] eqn:H1;
    [|vm_compute in H1; discriminate H1].
  destruct (parse_yn00 [yn00_row_full] st1) as [st2|e] eqn:H2.
  - destruct (parse_others [others_header; others_LWL85] st2) as [st3|e] eqn:H3.
    + exists st1, st2, st3.
      split; [reflexivity|]. split; [exact H2|]. split; [exact H3|].
      destruct (C7_names_come_from_matrix _ _ _ _ _ _ _ _ H1 H2 H3) as (Htop & _).
      exact Htop.
    + exfalso. vm_compute in H1. injection H1 as <-.
      vm_compute in H2. injection H2 as <-.
      vm_compute in H3. discriminate H3.
  - exfalso. vm_compute in H1. injection H1 as <-.
    vm_compute in H2. discriminate H2.
Defined.

(** ** The matrix section: the two directions of a pair *)

(** The groups of one row, in order: group [i] is filed against the
    [i]-th name of the list, in both directions, as the same object. *)
Lemma ng86_groups_positions seq_name fl (k : nat) : ∀ st st',
  NoDup (sequences st) →
  for_each (ng86_group seq_name fl) ((λ j, 3 * j) <$> seq 0 k) st = Ok st' →
  length (heap st') = length (heap st) + k
  ∧ sequences st' = sequences st
  ∧ heap st `prefix_of` heap st'
  ∧ ∀ i, (i < k)%nat →
      ∃ x y z c,
        fl !! (3 * i) = Some x ∧ fl !! (3 * i + 1) = Some y
        ∧ fl !! (3 * i + 2) = Some z
        ∧ sequences st !! i = Some c
        ∧ pair_at st' seq_name c = Some {[ "NG86" := length (heap st) + i ]}
        ∧ pair_at st' c seq_name = Some {[ "NG86" := length (heap st) + i ]}
        ∧ heap st' !! (length (heap st) + i) = Some (ng86_stats x y z).
Proof.
  induction k as [|k IH]; intros st st' Hnd.
  - simpl. intros [= <-]. split_and!; [lia|done|done|intros i Hi; lia].
  - rewrite seq_S, fmap_app, for_each_app.
    cbn [fmap list_fmap for_each Nat.add].
    intros (sk & Hk & H)%bind_Ok.
    apply bind_Ok in H as (s' & Hg & [= <-]).
    destruct (IH st sk Hnd Hk) as (Hlen & Hseq & Hpre & Hpos).
    apply ng86_group_inv in Hg
      as (x & y & z & c & Hx & Hy & Hz & Hc & Hh & Hs & _ & _ & Hp).
    replace (3 * k / 3) with k in Hc
      by (by rewrite Nat.mul_comm, Nat.div_mul).
    rewrite Hseq in Hc.
    split_and!.
    + rewrite Hh, length_app. simpl. lia.
    + congruence.
    + rewrite Hh. by apply prefix_app_r.
    + intros i Hi. destruct (decide (i = k)) as [->|Hne].
      * exists x, y, z, c. rewrite !Hp, Hlen.
        rewrite !decide_True by tauto. split_and!; try done.
        rewrite Hh, <- Hlen. apply lookup_fresh.
      * destruct (Hpos i ltac:(lia))
          as (xi & yi & zi & ci & Hxi & Hyi & Hzi & Hci & Hp1 & Hp2 & Hst).
        exists xi, yi, zi, ci.
        assert (Hcc : ci ≠ c).
        { intros ->. apply Hne. by eapply NoDup_lookup. }
        rewrite !Hp. rewrite !decide_False by (intros [[? ?]|[? ?]]; congruence).
        split_and!; try done.
        rewrite Hh. by apply lookup_app_l_Some.
Qed.

Lemma range3_seq n : range3 n = (λ j, 3 * j) <$> seq 0 ((n + 2) / 3).
Proof. done. Qed.

(** The rows after a pair's rows leave the pair as it is, when their
    labels are new names. *)
Lemma ng86_line_preserves (names : list string) line st st' :
  (∀ r, row_label line = Some r → r ∉ names) →
  ng86_line line st = Ok st' →
  heap st `prefix_of` heap st'
  ∧ ∀ a b, a ∈ names → b ∈ names → pair_at st' a b = pair_at st a b.
Proof.
  intros Hnew. unfold ng86_line, row_label in *.
  intros (fl & _ & H)%bind_Ok.
  destruct (Re.match1 matrix_row_re line) as [g1|]; simpl in Hnew;
    [|by injection H as <-].
  specialize (Hnew _ eq_refl).
  revert H. apply (for_each_inv (λ s,
    heap st `prefix_of` heap s
    ∧ ∀ a b, a ∈ names → b ∈ names → pair_at s a b = pair_at st a b)).
  - intros i s1 s2 [Hpre Hsame]
      (x & y & z & c & _ & _ & _ & _ & Hh & _ & _ & _ & Hp)%ng86_group_inv.
    split.
    + rewrite Hh. by apply prefix_app_r.
    + intros a b Ha Hb. rewrite Hp, decide_False; [by apply Hsame|].
      intros [[-> _]|[_ ->]]; done.
  - split; [done|]. intros a b Ha Hb. unfold pair_at; simpl.
    rewrite lookup_insert_ne; [done|]. by intros <-.
Qed.

Lemma ng86_lines_preserve (names : list string) lines : ∀ st st',
  (∀ r, r ∈ row_labels lines → r ∉ names) →
  for_each ng86_line lines st = Ok st' →
  heap st `prefix_of` heap st'
  ∧ ∀ a b, a ∈ names → b ∈ names → pair_at st' a b = pair_at st a b.
Proof.
  induction lines as [|line lines IH]; intros st st' Hnew; simpl.
  - by intros [= <-].
  - intros (s1 & H1 & H2)%bind_Ok.
    destruct (ng86_line_preserves names line st s1) as [Hpre1 Hsame1]; [|done|].
    { intros r Hr. apply Hnew. unfold row_labels; simpl. rewrite Hr. by left. }
    destruct (IH s1 st') as [Hpre2 Hsame2]; [|done|].
    { intros r Hr. apply Hnew. unfold row_labels; simpl.
      destruct (row_label line); [by right|done]. }
    split; [by etrans|].
    intros a b Ha Hb. by rewrite Hsame2, Hsame1.
Qed.

Lemma row_labels_app l1 l2 :
  row_labels (l1 ++ l2) = row_labels l1 ++ row_labels l2.
Proof. unfold row_labels. apply omap_app. Qed.

Lemma row_labels_cons line lines :
  row_labels (line :: lines) = row_labels [line] ++ row_labels lines.
Proof. apply (row_labels_app [line] lines). Qed.

(** Within the names found, [results[a][b]] and [results[b][a]] are
    equal; a row with a new label keeps it so. *)
Lemma ng86_line_sym h0 t0 line st st' :
  ng86_inv h0 t0 st →
  (∀ a b, a ∈ sequences st → b ∈ sequences st →
          pair_at st a b = pair_at st b a) →
  (∀ r, row_label line = Some r → r ∉ sequences st) →
  ng86_line line st = Ok st' →
  ∀ a b, a ∈ sequences st' → b ∈ sequences st' →
         pair_at st' a b = pair_at st' b a.
Proof.
  intros (_ & _ & _ & Hpairs) Hsym Hnew.
  unfold ng86_line, row_label in *.
  intros (fl & _ & H)%bind_Ok.
  destruct (Re.match1 matrix_row_re line) as [g1|]; simpl in Hnew;
    [|by injection H as <-].
  specialize (Hnew _ eq_refl).
  set (r := PyStr.strip g1) in *.
  set (st1 := set_results (<[r := ∅]> (results st))
                (set_sequences (sequences st ++ [r]) st)) in *.
  assert (Hnone : ∀ b, b ∈ sequences st → pair_at st b r = None).
  { intros b Hb. destruct (pair_at st b r) as [p|] eqn:Hp; [|done].
    by destruct (Hpairs b r p Hb Hp). }
  assert (Hsym1 : ∀ a b, a ∈ sequences st1 → b ∈ sequences st1 →
                         pair_at st1 a b = pair_at st1 b a).
  { intros a b. unfold st1; cbn [sequences set_results set_sequences].
    rewrite !elem_of_app, !list_elem_of_singleton. unfold pair_at; simpl.
    intros Ha Hb.
    destruct (decide (a = r)) as [->|Har], (decide (b = r)) as [->|Hbr].
    - done.
    - rewrite lookup_insert_eq, lookup_insert_ne by done; simpl.
      rewrite lookup_empty. symmetry. apply Hnone. tauto.
    - rewrite lookup_insert_eq, lookup_insert_ne by done; simpl.
      rewrite lookup_empty. apply Hnone. tauto.
    - rewrite !lookup_insert_ne by done. apply Hsym; tauto. }
  cut (sequences st' = sequences st1
       ∧ ∀ a b, a ∈ sequences st1 → b ∈ sequences st1 →
                pair_at st' a b = pair_at st' b a).
  { intros [Hs Hsame]. rewrite Hs. exact Hsame. }
  revert H. apply (for_each_inv (λ s,
    sequences s = sequences st1
    ∧ ∀ a b, a ∈ sequences st1 → b ∈ sequences st1 →
             pair_at s a b = pair_at s b a)); [|done].
  intros i s1 s2 [Hs1 Hsame]
    (x & y & z & c & _ & _ & _ & _ & _ & Hs & _ & _ & Hp)%ng86_group_inv.
  split; [congruence|].
  intros a b Ha Hb. rewrite !Hp.
  destruct (decide ((a = r ∧ b = c) ∨ (a = c ∧ b = r))) as [Hc|Hc].
  - rewrite decide_True by tauto. done.
  - rewrite decide_False by tauto. by apply Hsame.
Qed.

Lemma ng86_lines_sym h0 t0 lines : ∀ st st',
  ng86_inv h0 t0 st →
  (∀ a b, a ∈ sequences st → b ∈ sequences st →
          pair_at st a b = pair_at st b a) →
  NoDup (sequences st ++ row_labels lines) →
  for_each ng86_line lines st = Ok st' →
  ∀ a b, a ∈ sequences st' → b ∈ sequences st' →
         pair_at st' a b = pair_at st' b a.
Proof.
  induction lines as [|line lines IH]; intros st st' Hinv Hsym Hnd; simpl.
  - by intros [= <-].
  - intros (s1 & H1 & H2)%bind_Ok.
    rewrite row_labels_cons, app_assoc in Hnd.
    destruct (ng86_line_keeps_inv h0 t0 line st s1 Hinv H1) as [Hinv1 Hs1].
    apply (IH s1 st' Hinv1); [|by rewrite Hs1|done].
    apply (ng86_line_sym h0 t0 line st s1); [done|done| |done].
    intros r Hr.
    apply NoDup_app in Hnd as [Hnd _]. apply NoDup_app in Hnd as (_ & Hnd & _).
    intros Hin. apply (Hnd r Hin). unfold row_labels; simpl. rewrite Hr. by left.
Qed.

(** Group [i] of a labelled row, once the whole section is parsed. *)
Lemma ng86_row_group pre line post st st' seq_name fl i x y z :
  parse_ng86 (pre ++ line :: post) st = Ok st' →
  NoDup (row_labels (pre ++ line :: post)) →
  row_label line = Some seq_name →
  floats (Re.findall float_re line) = Ok fl →
  fl !! (3 * i) = Some x → fl !! (3 * i + 1) = Some y →
  fl !! (3 * i + 2) = Some z →
  ∃ c r, sequences st' !! i = Some c
    ∧ pair_at st' seq_name c = Some {[ "NG86" := r ]}
    ∧ pair_at st' c seq_name = Some {[ "NG86" := r ]}
    ∧ heap st' !! r = Some (ng86_stats x y z).
Proof.
  intros Hparse Hnd Hlabel Hfl Hx Hy Hz.
  pose proof (parse_ng86_inv _ _ _ Hparse) as [_ Hseq'].
  unfold parse_ng86 in Hparse. rewrite for_each_app in Hparse.
  apply bind_Ok in Hparse as (s1 & Hpre & Hrest). cbn [for_each] in Hrest.
  apply bind_Ok in Hrest as (s2 & Hline & Hpost).
  destruct (ng86_lines_keep_inv _ _ _ _ _ (ng86_inv_start st) Hpre)
    as [_ Hs1]. cbn [sequences set_sequences app] in Hs1.
  rewrite row_labels_app, row_labels_cons in Hnd, Hseq'.
  assert (Hl1 : row_labels [line] = [seq_name])
    by (unfold row_labels; simpl; by rewrite Hlabel).
  rewrite Hl1 in Hnd, Hseq'.
  unfold ng86_line in Hline. rewrite Hfl in Hline. cbn [mbind result_bind] in Hline.
  unfold row_label in Hlabel.
  destruct (Re.match1 matrix_row_re line) as [g1|]; [|done].
  injection Hlabel as Hlabel. rewrite Hlabel in Hline.
  rewrite range3_seq in Hline.
  apply ng86_groups_positions in Hline as (_ & Hs2 & _ & Hpos).
  2:{ cbn [sequences set_results set_sequences]. rewrite Hs1.
      rewrite app_assoc in Hnd. by apply NoDup_app in Hnd as [Hnd _]. }
  cbn [sequences heap set_results set_sequences] in Hs2, Hpos.
  destruct (Hpos i) as (x' & y' & z' & c & Hx' & Hy' & Hz' & Hc & Hp1 & Hp2 & Hst).
  { apply lookup_lt_Some in Hz.
    assert (i + 1 ≤ (length fl + 2) / 3)%nat; [|lia].
    apply Nat.div_le_lower_bound; lia. }
  assert (x' = x) as -> by congruence.
  assert (y' = y) as -> by congruence.
  assert (z' = z) as -> by congruence.
  destruct (ng86_lines_preserve (sequences s2) post s2 st') as [Hpre2 Hsame];
    [|done|].
  { intros r Hr. rewrite Hs2, Hs1. intros Hin.
    rewrite app_assoc in Hnd. apply NoDup_app in Hnd as (_ & Hnd & _).
    by apply (Hnd r). }
  assert (Hcin : c ∈ sequences s2)
    by (rewrite Hs2; by eapply list_elem_of_lookup_2).
  assert (Hrin : seq_name ∈ sequences s2).
  { rewrite Hs2, elem_of_app, list_elem_of_singleton. by right. }
  exists c, (length (heap s1) + i).
  rewrite !Hsame by done. split_and!; [|done|done|].
  - rewrite Hseq', app_assoc. apply lookup_app_l_Some. by rewrite <- Hs1.
  - by eapply prefix_lookup_Some.
Qed.

(** C5, as stated, fails: when a label comes twice, the second row
    resets the entry of that name, and a pair stays on one side only. *)
Lemma C5_repeated_label_breaks_symmetry :
  ∃ st', parse_ng86 dup_rows (State [] ∅ []) = Ok st'
    ∧ "A" ∈ sequences st' ∧ "B" ∈ sequences st'
    ∧ method_ref st' "B" "A" "NG86" = Some 0
    ∧ method_ref st' "A" "B" "NG86" = None.
Proof.
  eexists. split; [vm_compute; reflexivity|].
  cbn [sequences]. split_and!.
  - by left.
  - right; by left.
  - vm_compute; reflexivity.
  - vm_compute; reflexivity.
Qed.

(** C5 (amended): after the matrix section is parsed, its row labels
    being pairwise distinct, [results[a][b]["NG86"]] and
    [results[b][a]["NG86"]] are the same object for every pair of names
    found (or are both absent), a MethodStats with exactly the keys
    omega, dN, dS; and the [i]-th group of three numbers of a labelled
    row (omega, dN, dS in that order) is stored against the [i]-th name
    of the list, in both directions. *)
Theorem C5_ng86_symmetric lines st st' :
  parse_ng86 lines st = Ok st' →
  NoDup (row_labels lines) →
  (∀ a b, a ∈ sequences st' → b ∈ sequences st' →
     method_ref st' a b "NG86" = method_ref st' b a "NG86"
     ∧ method_stats st' a b "NG86" = method_stats st' b a "NG86")
  ∧ (∀ a b m, a ∈ sequences st' → method_stats st' a b "NG86" = Some m →
       ∃ x y z, m = {[ "omega" := VFloat x; "dN" := VFloat y;
                       "dS" := VFloat z ]})
  ∧ (∀ pre line post seq_name fl i x y z,
       lines = pre ++ line :: post →
       row_label line = Some seq_name →
       floats (Re.findall float_re line) = Ok fl →
       fl !! (3 * i) = Some x → fl !! (3 * i + 1) = Some y →
       fl !! (3 * i + 2) = Some z →
       ∃ c, sequences st' !! i = Some c
         ∧ method_stats st' seq_name c "NG86" = Some (ng86_stats x y z)
         ∧ method_stats st' c seq_name "NG86" = Some (ng86_stats x y z)).
Proof.
  intros Hparse Hnd.
  pose proof (parse_ng86_inv _ _ _ Hparse) as [(_ & _ & _ & Hpairs) Hseq].
  assert (Hsym : ∀ a b, a ∈ sequences st' → b ∈ sequences st' →
                        pair_at st' a b = pair_at st' b a).
  { apply (ng86_lines_sym (heap st) (results st) lines (set_sequences [] st));
      [apply ng86_inv_start| |done|done].
    intros a b Ha. by apply elem_of_nil in Ha. }
  split_and!.
  - intros a b Ha Hb. unfold method_stats.
    rewrite !method_ref_pair, (Hsym a b Ha Hb). done.
  - intros a b m Ha. unfold method_stats. rewrite method_ref_pair.
    destruct (pair_at st' a b) as [p|] eqn:Hp; [|done].
    destruct (Hpairs a b p Ha Hp) as (_ & r & x & y & z & -> & _ & Hr).
    cbn [mbind option_bind]. rewrite lookup_singleton_eq. cbn [mbind option_bind].
    rewrite Hr. intros [= <-]. by exists x, y, z.
  - intros pre line post seq_name fl i x y z -> Hlabel Hfl Hx Hy Hz.
    destruct (ng86_row_group _ _ _ _ _ _ _ _ _ _ _ Hparse Hnd Hlabel Hfl Hx Hy Hz)
      as (c & r & Hc & Hp1 & Hp2 & Hr).
    exists c. split; [done|]. unfold method_stats.
    rewrite (method_ref_single _ _ _ _ Hp1), (method_ref_single _ _ _ _ Hp2).
    done.
Qed.

Lemma C5_ng86_symmetric_witness :
  ∃ st', parse_ng86 ng86_rows (State [] ∅ []) = Ok st'
    ∧ method_ref st' "Gorilla_go" "Pan_troglo" "NG86"
      = method_ref st' "Pan_troglo" "Gorilla_go" "NG86".
Proof.
  destruct (parse_ng86 ng86_rows (State [] ∅ [])) as [st'|e] eqn:H;
    [|vm_compute in H; discriminate H].
  exists st'. split; [reflexivity|].
  destruct (C5_ng86_symmetric _ _ _ H) as (Hsym & _).
  - apply (bool_decide_unpack _). vm_compute. exact I.
  - pose proof (parse_ng86_inv _ _ _ H) as [_ Hseq].
    assert (Hs : sequences st' = ["Homo_sapie"; "Pan_troglo"; "Gorilla_go"])
      by (rewrite Hseq; vm_compute; reflexivity).
    apply Hsym; rewrite Hs.
    + right; right; left.
    + right; left.
Defined.

(** * Further properties of the three parsers *)

(** ** parse_yn00: one row *)

Lemma yn00_stats_built f0 f1 f2 f3 f4 f5 f6 f7 f8 :
  <["dS SE" := VFloat f8]> (<["dS" := VFloat f7]> (<["dN SE" := VFloat f6]>
    (<["dN" := VFloat f5]> (<["omega" := VFloat f4]> (<["kappa" := VFloat f3]>
      (<["t" := VFloat f2]> (<["N" := VFloat f1]> (<["S" := VFloat f0]> ∅))))))))
  = yn00_stats f0 f1 f2 f3 f4 f5 f6 f7 f8.
Proof.
  unfold yn00_stats. apply map_eq; intros k.
  destruct (decide (k = "dS SE")) as [->|?]; [reflexivity|].
  destruct (decide (k = "dS")) as [->|?]; [reflexivity|].
  destruct (decide (k = "dN SE")) as [->|?]; [reflexivity|].
  destruct (decide (k = "dN")) as [->|?]; [reflexivity|].
  destruct (decide (k = "omega")) as [->|?]; [reflexivity|].
  destruct (decide (k = "kappa")) as [->|?]; [reflexivity|].
  destruct (decide (k = "t")) as [->|?]; [reflexivity|].
  destruct (decide (k = "N")) as [->|?]; [reflexivity|].
  destruct (decide (k = "S")) as [->|?]; [reflexivity|].
  rewrite !lookup_insert_ne by done. rewrite lookup_singleton_ne by done.
  by rewrite lookup_empty.
Qed.

(** The nine assignments [YN00[key] = line_floats[i]] on a row with at
    least nine numbers. *)
Lemma yn00_fill h t s f0 f1 f2 f3 f4 f5 f6 f7 f8 rest
    (k : state → result state) :
  let fl := f0 :: f1 :: f2 :: f3 :: f4 :: f5 :: f6 :: f7 :: f8 :: rest in
  (st ← setitem_from (length h) "S" fl 0 (State (h ++ [∅]) t s);
   st ← setitem_from (length h) "N" fl 1 st;
   st ← setitem_from (length h) "t" fl 2 st;
   st ← setitem_from (length h) "kappa" fl 3 st;
   st ← setitem_from (length h) "omega" fl 4 st;
   st ← setitem_from (length h) "dN" fl 5 st;
   st ← setitem_from (length h) "dN SE" fl 6 st;
   st ← setitem_from (length h) "dS" fl 7 st;
   st ← setitem_from (length h) "dS SE" fl 8 st;
   k st)
  = k (State (h ++ [yn00_stats f0 f1 f2 f3 f4 f5 f6 f7 f8]) t s).
Proof.
  cbv zeta. unfold setitem_from, getitem.
  cbn [lookup list_lookup mbind result_bind].
  rewrite !setitem_fresh. by rewrite yn00_stats_built.
Qed.

(** A row with fewer than nine numbers. *)
Lemma yn00_fill_short h t s fl (k : state → result state) :
  (length fl < 9)%nat →
  (st ← setitem_from (length h) "S" fl 0 (State (h ++ [∅]) t s);
   st ← setitem_from (length h) "N" fl 1 st;
   st ← setitem_from (length h) "t" fl 2 st;
   st ← setitem_from (length h) "kappa" fl 3 st;
   st ← setitem_from (length h) "omega" fl 4 st;
   st ← setitem_from (length h) "dN" fl 5 st;
   st ← setitem_from (length h) "dN SE" fl 6 st;
   st ← setitem_from (length h) "dS" fl 7 st;
   st ← setitem_from (length h) "dS SE" fl 8 st;
   k st)
  = Raise IndexError.
Proof.
  intros Hlen. unfold setitem_from, getitem.
  do 9 (destruct fl as [|? fl]; [reflexivity|]).
  simpl in Hlen. lia.
Qed.

Lemma getitem_int_cases {A} (l : list A) i :
  (∃ a, getitem_int l i = Ok a) ∨ getitem_int l i = Raise IndexError.
Proof.
  unfold getitem_int, getitem.
  destruct (_ <? 0)%Z; [by right|].
  destruct (l !! _); [left; eauto | by right].
Qed.

(** What [yn00_line] is on a line that the row pattern matches. *)
Lemma yn00_line_row line st fl g1 g2 :
  floats (Re.findall float_re line) = Ok fl →
  Re.match2 row_re line = Some (g1, g2) →
  yn00_line line st
  = (let YN00 := length (heap st) in
     seq_name1 ← getitem_int (sequences st) (PyStr.int g1 - 1);
     seq_name2 ← getitem_int (sequences st) (PyStr.int g2 - 1);
     s ← setitem_from YN00 "S" fl 0
            (State (heap st ++ [∅]) (results st) (sequences st));
     s ← setitem_from YN00 "N" fl 1 s;
     s ← setitem_from YN00 "t" fl 2 s;
     s ← setitem_from YN00 "kappa" fl 3 s;
     s ← setitem_from YN00 "omega" fl 4 s;
     s ← setitem_from YN00 "dN" fl 5 s;
     s ← setitem_from YN00 "dN SE" fl 6 s;
     s ← setitem_from YN00 "dS" fl 7 s;
     s ← setitem_from YN00 "dS SE" fl 8 s;
     s ← set_method seq_name1 seq_name2 "YN00" YN00 s;
     set_method seq_name2 seq_name1 "YN00" YN00 s).
Proof.
  intros Hfl Hm. unfold yn00_line. rewrite Hfl, Hm. reflexivity.
Qed.

Lemma set_method_raise a b label d st e :
  set_method a b label d st = Raise e →
  pair_at st a b = None ∧ (e = KeyError a ∨ e = KeyError b).
Proof.
  unfold set_method, getkey, pair_at.
  destruct (results st !! a) as [row|]; simpl; [|intros [= <-]; auto].
  destruct (row !! b); simpl; [done|intros [= <-]; auto].
Qed.

Lemma set_method_none a b label d st :
  pair_at st a b = None →
  ∃ k, (k = a ∨ k = b) ∧ set_method a b label d st = Raise (KeyError k).
Proof.
  unfold set_method, getkey, pair_at.
  destruct (results st !! a) as [row|]; simpl; [|eauto].
  destruct (row !! b); simpl; [done|eauto].
Qed.

(** A row whose numbers are read as [f0], ..., [f8] and more, whose
    indices denote names [a] and [b] with pair entries: the iteration
    stores one new dictionary under [YN00] in both directions. *)
Lemma yn00_row_effect line st g1 g2 a b f0 f1 f2 f3 f4 f5 f6 f7 f8 rest :
  floats (Re.findall float_re line)
  = Ok (f0 :: f1 :: f2 :: f3 :: f4 :: f5 :: f6 :: f7 :: f8 :: rest) →
  Re.match2 row_re line = Some (g1, g2) →
  getitem_int (sequences st) (PyStr.int g1 - 1) = Ok a →
  getitem_int (sequences st) (PyStr.int g2 - 1) = Ok b →
  is_Some (pair_at st a b) → is_Some (pair_at st b a) →
  ∃ st', yn00_line line st = Ok st'
    ∧ method_stats st' a b "YN00"
      = Some (yn00_stats f0 f1 f2 f3 f4 f5 f6 f7 f8)
    ∧ method_ref st' b a "YN00" = method_ref st' a b "YN00"
    ∧ sequences st' = sequences st
    ∧ (∀ x y l, ¬ (l = "YN00" ∧ ((x = a ∧ y = b) ∨ (x = b ∧ y = a))) →
         method_ref st' x y l = method_ref st x y l)
    ∧ method_ref st' a b "YN00" = Some (length (heap st)).
Proof.
  intros Hfl Hm Ha Hb Hab Hba.
  rewrite (yn00_line_row _ _ _ _ _ Hfl Hm). cbv zeta.
  rewrite Ha, Hb. cbn [mbind result_bind].
  rewrite (yn00_fill (heap st) (results st) (sequences st)). 
  set (st1 := State (heap st ++ [yn00_stats f0 f1 f2 f3 f4 f5 f6 f7 f8])
                (results st) (sequences st)).
  destruct (set_both_some a b "YN00" (length (heap st)) st1)
    as (s2 & st' & H1 & H2); [done..|].
  rewrite H1. cbn [mbind result_bind]. rewrite H2.
  destruct (set_both_inv _ _ _ _ _ _ _ H1 H2) as (Hh & Hs & _ & _ & Href).
  exists st'. split; [done|].
  assert (R1 : method_ref st' a b "YN00" = Some (length (heap st))).
  { rewrite Href, decide_True; [done|]. split; [done|]. by left. }
  assert (R2 : method_ref st' b a "YN00" = Some (length (heap st))).
  { rewrite Href, decide_True; [done|]. split; [done|]. by right. }
  split_and!.
  - unfold method_stats. rewrite R1. cbn [mbind option_bind].
    rewrite Hh. apply lookup_fresh.
  - by rewrite R1, R2.
  - done.
  - intros x y l Hne. rewrite Href, decide_False by done. done.
  - done.
Qed.

(** A row whose numbers are read as fewer than nine floats. *)
Lemma yn00_short_row line st fl g1 g2 :
  floats (Re.findall float_re line) = Ok fl →
  Re.match2 row_re line = Some (g1, g2) →
  (length fl < 9)%nat →
  yn00_line line st = Raise IndexError.
Proof.
  intros Hfl Hm Hlen.
  rewrite (yn00_line_row _ _ _ _ _ Hfl Hm). cbv zeta.
  destruct (getitem_int_cases (sequences st) (PyStr.int g1 - 1)) as [[a ->]| ->];
    [|done].
  destruct (getitem_int_cases (sequences st) (PyStr.int g2 - 1)) as [[b ->]| ->];
    [|done].
  cbn [mbind result_bind].
  by rewrite (yn00_fill_short (heap st) (results st) (sequences st)).
Qed.

Lemma getitem_int_beyond {A} (l : list A) (n : Z) :
  (Z.of_nat (length l) < n)%Z → getitem_int l (n - 1) = Raise IndexError.
Proof.
  intros Hn. unfold getitem_int, getitem.
  destruct (n - 1 <? 0)%Z eqn:H1; [lia|]. rewrite H1.
  rewrite lookup_ge_None_2; [done|lia].
Qed.

(** A row with an index larger than the number of names. *)
Lemma yn00_index_beyond line st fl g1 g2 :
  floats (Re.findall float_re line) = Ok fl →
  Re.match2 row_re line = Some (g1, g2) →
  (Z.of_nat (length (sequences st)) < PyStr.int g1
   ∨ Z.of_nat (length (sequences st)) < PyStr.int g2)%Z →
  yn00_line line st = Raise IndexError.
Proof.
  intros Hfl Hm Hbig.
  rewrite (yn00_line_row _ _ _ _ _ Hfl Hm). cbv zeta.
  destruct Hbig as [H1|H2].
  - by rewrite (getitem_int_beyond _ _ H1).
  - destruct (getitem_int_cases (sequences st) (PyStr.int g1 - 1))
      as [[a ->]| ->]; [|done].
    cbn [mbind result_bind]. by rewrite (getitem_int_beyond _ _ H2).
Qed.

Lemma getitem_int_minus_one {A} (l : list A) (z : A) :
  getitem_int (l ++ [z]) (0 - 1) = Ok z.
Proof.
  unfold getitem_int, getitem.
  change (0 - 1 <? 0)%Z with true. cbv iota.
  assert (Hj : (0 - 1 + Z.of_nat (length (l ++ [z])))%Z = Z.of_nat (length l))
    by (rewrite length_app; simpl; lia).
  rewrite Hj.
  destruct (Z.of_nat (length l) <? 0)%Z eqn:H; [lia|].
  rewrite Nat2Z.id. by rewrite list_lookup_middle.
Qed.

(** X4: index 0 raises nothing: [sequences[0 - 1]] is the last name of
    the list, and the row is stored for it. *)
Theorem yn00_index_zero_is_last line st g1 g2 names z b
    f0 f1 f2 f3 f4 f5 f6 f7 f8 rest :
  floats (Re.findall float_re line)
  = Ok (f0 :: f1 :: f2 :: f3 :: f4 :: f5 :: f6 :: f7 :: f8 :: rest) →
  Re.match2 row_re line = Some (g1, g2) →
  PyStr.int g1 = 0%Z →
  sequences st = names ++ [z] →
  getitem_int (sequences st) (PyStr.int g2 - 1) = Ok b →
  is_Some (pair_at st z b) → is_Some (pair_at st b z) →
  ∃ st', yn00_line line st = Ok st'
    ∧ method_stats st' z b "YN00"
      = Some (yn00_stats f0 f1 f2 f3 f4 f5 f6 f7 f8).
Proof.
  intros Hfl Hm H0 Hseq Hb Hzb Hbz.
  destruct (yn00_row_effect line st g1 g2 z b f0 f1 f2 f3 f4 f5 f6 f7 f8 rest)
    as (st' & Hst' & Hstats & _); try done.
  - rewrite H0, Hseq. apply getitem_int_minus_one.
  - eauto.
Qed.

Lemma yn00_index_zero_is_last_witness :
  ∃ st', yn00_line yn00_row_zero (State [] (pair_table "A" "B") ["A"; "B"])
         = Ok st'
    ∧ method_stats st' "B" "A" "YN00"
      = Some (yn00_stats 67.3 154.7 0.0136 3.6564 0 (-0) 0 0.0150 0.0151).
Proof.
  apply (yn00_index_zero_is_last yn00_row_zero
           (State [] (pair_table "A" "B") ["A"; "B"]) "0" "1" ["A"] "B" "A"
           67.3 154.7 0.0136 3.6564 0 (-0) 0 0.0150 0.0151 []).
  - vm_compute; reflexivity.
  - vm_compute; reflexivity.
  - reflexivity.
  - reflexivity.
  - reflexivity.
  - apply pair_table_entries.
  - apply pair_table_entries.
Defined.

(** X5: [parse_yn00] makes no pair entry: where [results[a][b]] or
    [results[b][a]] is missing for the names of the row, the iteration
    raises [KeyError] on one of the two names. *)
Theorem yn00_missing_pair_raises line st g1 g2 a b
    f0 f1 f2 f3 f4 f5 f6 f7 f8 rest :
  floats (Re.findall float_re line)
  = Ok (f0 :: f1 :: f2 :: f3 :: f4 :: f5 :: f6 :: f7 :: f8 :: rest) →
  Re.match2 row_re line = Some (g1, g2) →
  getitem_int (sequences st) (PyStr.int g1 - 1) = Ok a →
  getitem_int (sequences st) (PyStr.int g2 - 1) = Ok b →
  pair_at st a b = None ∨ pair_at st b a = None →
  ∃ k, (k = a ∨ k = b) ∧ yn00_line line st = Raise (KeyError k).
Proof.
  intros Hfl Hm Ha Hb Hmiss.
  rewrite (yn00_line_row _ _ _ _ _ Hfl Hm). cbv zeta.
  rewrite Ha, Hb. cbn [mbind result_bind].
  rewrite (yn00_fill (heap st) (results st) (sequences st)).
  set (st1 := State (heap st ++ [yn00_stats f0 f1 f2 f3 f4 f5 f6 f7 f8])
                (results st) (sequences st)).
  destruct (set_method a b "YN00" (length (heap st)) st1) as [s2|e] eqn:H1.
  - cbn [mbind result_bind].
    pose proof (set_method_inv _ _ _ _ _ _ H1) as (_ & _ & _ & Hp & _).
    assert (Hnone : pair_at s2 b a = None).
    { destruct Hmiss as [Hab|Hba].
      - unfold set_method, getkey in H1. unfold pair_at in Hab.
        change (results st1) with (results st) in H1.
        destruct (results st !! a) as [row|]; [|done]. simpl in *.
        by rewrite Hab in H1.
      - apply eq_None_not_Some. rewrite Hp.
        change (pair_at st1 b a) with (pair_at st b a). by rewrite Hba;
          intros [? ?]. }
    destruct (set_method_none b a "YN00" (length (heap st)) s2 Hnone)
      as (k & Hk & ->).
    exists k. split; [tauto|done].
  - apply set_method_raise in H1 as [_ [-> | ->]]; eauto.
Qed.

Lemma yn00_missing_pair_raises_witness :
  ∃ k, yn00_line yn00_row_full (State [] ∅ ["A"; "B"]) = Raise (KeyError k).
Proof.
  destruct (yn00_missing_pair_raises yn00_row_full (State [] ∅ ["A"; "B"])
              "2" "1" "B" "A"
              67.3 154.7 0.0136 3.6564 0 (-0) 0 0.0150 0.0151 [])
    as (k & _ & Hk).
  - vm_compute; reflexivity.
  - vm_compute; reflexivity.
  - reflexivity.
  - reflexivity.
  - left. reflexivity.
  - exists k. exact Hk.
Defined.

(** ** Methods do not overwrite each other *)

Lemma yn00_line_methods line st st' :
  yn00_line line st = Ok st' →
  heap st `prefix_of` heap st'
  ∧ ∀ x y l, l ≠ "YN00" → method_ref st' x y l = method_ref st x y l.
Proof.
  unfold yn00_line. intros (fl & _ & H)%bind_Ok.
  destruct (Re.match2 row_re line) as [[g1 g2]|];
    [|by injection H as <-].
  apply bind_Ok in H as (n1 & _ & H). apply bind_Ok in H as (n2 & _ & H).
  unfold new_dict in H.
  apply bind_Ok in H as (s1 & (x1 & _ & ->)%setitem_from_inv & H).
  apply bind_Ok in H as (s2 & (x2 & _ & ->)%setitem_from_inv & H).
  apply bind_Ok in H as (s3 & (x3 & _ & ->)%setitem_from_inv & H).
  apply bind_Ok in H as (s4 & (x4 & _ & ->)%setitem_from_inv & H).
  apply bind_Ok in H as (s5 & (x5 & _ & ->)%setitem_from_inv & H).
  apply bind_Ok in H as (s6 & (x6 & _ & ->)%setitem_from_inv & H).
  apply bind_Ok in H as (s7 & (x7 & _ & ->)%setitem_from_inv & H).
  apply bind_Ok in H as (s8 & (x8 & _ & ->)%setitem_from_inv & H).
  apply bind_Ok in H as (s9 & (x9 & _ & ->)%setitem_from_inv & H).
  apply bind_Ok in H as (s10 & H1 & H2).
  destruct (set_both_inv _ _ _ _ _ _ _ H1 H2) as (Hh & _ & _ & _ & Hm).
  destruct st as [h t s]. unfold set_heap in *; cbn [heap results sequences] in *.
  rewrite !setitem_fresh in Hh, Hm. cbn [heap] in Hh. rewrite Hh.
  split; [by apply prefix_app_r|].
  intros x y l Hl. rewrite Hm, decide_False by (intros [? _]; done).
  by unfold method_ref.
Qed.

(** X6: [parse_yn00] writes under the label [YN00] only: every entry
    under another method label, and every statistics object, is after
    the call what it was before. *)
Theorem parse_yn00_keeps_other_methods lines st st' :
  parse_yn00 lines st = Ok st' →
  (∀ x y l, l ≠ "YN00" → method_ref st' x y l = method_ref st x y l)
  ∧ (∀ r m, heap st !! r = Some m → heap st' !! r = Some m)
  ∧ (∀ x y l, l ≠ "YN00" → method_stats st x y l ≠ None →
       method_stats st' x y l = method_stats st x y l).
Proof.
  intros H.
  assert (Hinv : heap st `prefix_of` heap st'
    ∧ ∀ x y l, l ≠ "YN00" → method_ref st' x y l = method_ref st x y l).
  { revert H. apply (for_each_inv (λ s,
      heap st `prefix_of` heap s
      ∧ ∀ x y l, l ≠ "YN00" → method_ref s x y l = method_ref st x y l));
      [|done].
    intros line s1 s2 [Hp1 Hm1] [Hp2 Hm2]%yn00_line_methods.
    split; [by etrans|]. intros x y l Hl. by rewrite Hm2, Hm1. }
  destruct Hinv as [Hpre Hm]. split_and!; [done| |].
  - intros r m Hr. by eapply prefix_lookup_Some.
  - intros x y l Hl. unfold method_stats. rewrite (Hm x y l Hl).
    destruct (method_ref st x y l) as [r|]; [|done]. cbn [mbind option_bind].
    destruct (heap st !! r) as [m|] eqn:Hr; [|done].
    intros _. by apply prefix_lookup_Some with (heap st).
Qed.

Lemma parse_yn00_keeps_other_methods_witness :
  ∃ st1 st2,
    parse_ng86 ng86_rows (State [] ∅ []) = Ok st1
    ∧ parse_yn00 [yn00_row_full] st1 = Ok st2
    ∧ method_ref st2 "Pan_troglo" "Homo_sapie" "NG86"
      = method_ref st1 "Pan_troglo" "Homo_sapie" "NG86".
Proof.
  destruct (parse_ng86 ng86_rows (State [] ∅ [])) as [st1|e] eqn:H1;
    [|vm_compute in H1; discriminate H1].
  destruct (parse_yn00 [yn00_row_full] st1) as [st2|e] eqn:H2.
  - exists st1, st2. split; [reflexivity|]. split; [exact H2|].
    destruct (parse_yn00_keeps_other_methods _ _ _ H2) as (Hm & _).
    apply Hm. discriminate.
  - exfalso. vm_compute in H1. injection H1 as <-.
    vm_compute in H2. discriminate H2.
Defined.

Lemma others_line_methods line os os' :
  others_line line os = Ok os' →
  heap (objects os) `prefix_of` heap (objects os')
  ∧ ∀ x y l, l ≠ "LWL85" → l ≠ "LWL85m" → l ≠ "LPB93" →
      method_ref (objects os') x y l = method_ref (objects os) x y l.
Proof.
  unfold others_line.
  destruct (Re.match2 comp_re line) as [[g1 g2]|]; [by intros [= <-]|].
  destruct (seq_name1 os) as [a|]; [|by intros [= <-]].
  destruct (seq_name2 os) as [b|]; [|by intros [= <-]].
  destruct (PyStr.contains "dS =" line); [|by intros [= <-]].
  intros (st1 & H & [= <-])%bind_Ok. cbn [objects].
  unfold others_stats_line, new_dict in H.
  apply bind_Ok in H as (part & _ & H).
  apply bind_Ok in H as (st2 & H2 & H).
  destruct (objects os) as [h t s]. unfold set_heap in H2; cbn [heap results sequences] in *.
  apply others_stats_same_shape in H2 as [m' ->].
  apply others_store_inv in H as (Hh & _ & _ & _ & Hm).
  cbn [heap results sequences] in *. rewrite Hh.
  split; [by apply prefix_app_r|].
  intros x y l L1 L2 L3. rewrite Hm, decide_False; [by unfold method_ref|].
  unfold method_label. intros [Hl _].
  destruct (PyStr.contains "LWL85:" line); [congruence|].
  destruct (PyStr.contains "LWL85m" line); [congruence|].
  destruct (PyStr.contains "LPB93" line); [congruence|done].
Qed.

(** X7: [parse_others] writes under the labels [LWL85], [LWL85m] and
    [LPB93] only: every entry under another method label, and every
    statistics object, is after the call what it was before. *)
Theorem parse_others_keeps_other_methods lines st st' :
  parse_others lines st = Ok st' →
  (∀ x y l, l ≠ "LWL85" → l ≠ "LWL85m" → l ≠ "LPB93" →
     method_ref st' x y l = method_ref st x y l)
  ∧ (∀ r m, heap st !! r = Some m → heap st' !! r = Some m).
Proof.
  unfold parse_others. intros (os & H & [= <-])%bind_Ok.
  assert (Hinv : heap st `prefix_of` heap (objects os)
    ∧ ∀ x y l, l ≠ "LWL85" → l ≠ "LWL85m" → l ≠ "LPB93" →
        method_ref (objects os) x y l = method_ref st x y l).
  { revert H. apply (for_each_inv (λ o,
      heap st `prefix_of` heap (objects o)
      ∧ ∀ x y l, l ≠ "LWL85" → l ≠ "LWL85m" → l ≠ "LPB93" →
          method_ref (objects o) x y l = method_ref st x y l)); [|done].
    intros line o1 o2 [Hp1 Hm1] [Hp2 Hm2]%others_line_methods.
    split; [by etrans|]. intros x y l L1 L2 L3. by rewrite Hm2, Hm1. }
  destruct Hinv as [Hpre Hm]. split; [done|].
  intros r m Hr. by eapply prefix_lookup_Some.
Qed.

Lemma parse_others_keeps_other_methods_witness :
  ∃ st1 st2,
    parse_ng86 ng86_rows (State [] ∅ []) = Ok st1
    ∧ parse_others [others_header; others_LWL85] st1 = Ok st2
    ∧ method_ref st2 "Pan_troglo" "Homo_sapie" "NG86"
      = method_ref st1 "Pan_troglo" "Homo_sapie" "NG86".
Proof.
  destruct (parse_ng86 ng86_rows (State [] ∅ [])) as [st1|e] eqn:H1;
    [|vm_compute in H1; discriminate H1].
  destruct (parse_others [others_header; others_LWL85] st1) as [st2|e] eqn:H2.
  - exists st1, st2. split; [reflexivity|]. split; [exact H2|].
    destruct (parse_others_keeps_other_methods _ _ _ H2) as (Hm & _).
    apply Hm; discriminate.
  - exfalso. vm_compute in H1. injection H1 as <-.
    vm_compute in H2. discriminate H2.
Defined.

(** X8: [parse_ng86] replaces the whole dictionary of a pair: when it
    returns, the pairs of every name it found hold nothing under a label
    other than [NG86], whatever the table held before. *)
Theorem parse_ng86_drops_other_methods lines st st' :
  parse_ng86 lines st = Ok st' →
  ∀ a b l, a ∈ sequences st' → l ≠ "NG86" → method_ref st' a b l = None.
Proof.
  intros [(_ & _ & _ & Hpairs) _]%parse_ng86_inv a b l Ha Hl.
  rewrite method_ref_pair.
  destruct (pair_at st' a b) as [p|] eqn:Hp; [|done].
  destruct (Hpairs a b p Ha Hp) as (_ & r & x & y & z & -> & _).
  cbn [mbind option_bind]. by rewrite lookup_singleton_ne.
Qed.

Lemma parse_ng86_drops_other_methods_witness :
  ∃ st1 st2 st3,
    parse_ng86 ng86_rows (State [] ∅ []) = Ok st1
    ∧ parse_yn00 [yn00_row_full] st1 = Ok st2
    ∧ parse_ng86 ng86_rows st2 = Ok st3
    ∧ method_ref st3 "Pan_troglo" "Homo_sapie" "YN00" = None
    ∧ method_ref st2 "Pan_troglo" "Homo_sapie" "YN00" = Some 3.
Proof.
  destruct (parse_ng86 ng86_rows (State [] ∅ [])) as [st1|e] eqn:H1;
    [|vm_compute in H1; discriminate H1].
  destruct (parse_yn00 [yn00_row_full] st1) as [st2|e] eqn:H2.
  - destruct (parse_ng86 ng86_rows st2) as [st3|e] eqn:H3.
    + exists st1, st2, st3.
      split; [reflexivity|]. split; [exact H2|]. split; [exact H3|]. split.
      * apply (parse_ng86_drops_other_methods _ _ _ H3); [|discriminate].
        pose proof (parse_ng86_inv _ _ _ H3) as [_ Hseq]. rewrite Hseq.
        vm_compute. right; left.
      * vm_compute in H1. injection H1 as <-.
        vm_compute in H2. injection H2 as <-.
        vm_compute. reflexivity.
    + exfalso. vm_compute in H1. injection H1 as <-.
      vm_compute in H2. injection H2 as <-.
      vm_compute in H3. discriminate H3.
  - exfalso. vm_compute in H1. injection H1 as <-.
    vm_compute in H2. discriminate H2.
Defined.

(** ** What the parsers raise *)

Lemma bind_Raise {A B} (m : result A) (f : A → result B) e :
  m ≫= f = Raise e → m = Raise e ∨ ∃ a, m = Ok a ∧ f a = Raise e.
Proof. destruct m as [a|e']; simpl; [eauto | intros [= ->]; auto]. Qed.

(** A loop that raises: some iteration raised, in a state that the
    iterations before it kept within [P]. *)
Lemma for_each_raise {X S} (P : S → Prop) (body : X → S → result S) xs s e :
  (∀ x s1 s2, P s1 → body x s1 = Ok s2 → P s2) →
  P s → for_each body xs s = Raise e →
  ∃ x s1, x ∈ xs ∧ P s1 ∧ body x s1 = Raise e.
Proof.
  intros Hbody. revert s; induction xs as [|x xs IH]; intros s Hs; simpl; [done|].
  intros [H|(s1 & H1 & H2)]%bind_Raise.
  - exists x, s. split_and!; [by left|done|done].
  - destruct (IH s1 (Hbody _ _ _ Hs H1) H2) as (x' & s' & Hin & Hp & Hr).
    exists x', s'. split_and!; [by right|done|done].
Qed.

Lemma getitem_raise {A} (l : list A) i e : getitem l i = Raise e → e = IndexError.
Proof. unfold getitem. destruct (l !! i); [done|by intros [= <-]]. Qed.

Lemma setitem_from_raise d key l i st e :
  setitem_from d key l i st = Raise e → e = IndexError.
Proof.
  unfold setitem_from. intros [H|(a & _ & H)]%bind_Raise; [|done].
  by apply getitem_raise in H.
Qed.

Lemma others_stat_raise line d toks i st e :
  others_stat line d toks i st = Raise e →
  e = IndexError
  ∨ e = ValueError ("Problem with stats line: " +:+ PyStr.repr line).
Proof.
  unfold others_stat. intros [H|(tok & _ & H)]%bind_Raise.
  - left. by apply getitem_raise in H.
  - apply bind_Raise in H as [H|(v & _ & H)].
    + right. destruct (toks !! (i + 2)); [done|by injection H as <-].
    + by destruct (PyFloat.float_of_string v).
Qed.

Lemma others_store_raise line a b d st e :
  others_store line a b d st = Raise e → e = KeyError a ∨ e = KeyError b.
Proof.
  unfold others_store.
  assert (Hboth : ∀ label,
    (st1 ← set_method a b label d st; set_method b a label d st1) = Raise e →
    e = KeyError a ∨ e = KeyError b).
  { intros label [H|(s1 & _ & H)]%bind_Raise.
    - by apply set_method_raise in H as [_ ?].
    - apply set_method_raise in H as [_ ?]. tauto. }
  destruct (PyStr.contains "LWL85:" line); [apply Hboth|].
  destruct (PyStr.contains "LWL85m" line); [apply Hboth|].
  destruct (PyStr.contains "LPB93" line); [apply Hboth|done].
Qed.

Lemma others_line_raise line os e :
  others_line line os = Raise e →
  e = IndexError ∨ (∃ k, e = KeyError k)
  ∨ e = ValueError ("Problem with stats line: " +:+ PyStr.repr line).
Proof.
  unfold others_line.
  destruct (Re.match2 comp_re line) as [[g1 g2]|]; [done|].
  destruct (seq_name1 os) as [a|]; [|done].
  destruct (seq_name2 os) as [b|]; [|done].
  destruct (PyStr.contains "dS =" line); [|done].
  intros [H|(s1 & _ & H)]%bind_Raise; [|done].
  unfold others_stats_line, new_dict in H.
  apply bind_Raise in H as [H|(part & _ & H)];
    [left; by apply getitem_raise in H|].
  apply bind_Raise in H as [H|(s2 & _ & H)].
  - apply (for_each_raise (λ _, True)) in H as (i & s1 & _ & _ & H); [|done..].
    apply others_stat_raise in H as [->| ->]; auto.
  - apply others_store_raise in H as [->| ->]; eauto.
Qed.

(** X9: [parse_others] raises only [IndexError], [KeyError], or the
    [ValueError] of the source, whose message quotes a line of the
    input; a value that [float] rejects never makes it raise. *)
Theorem parse_others_raises lines st e :
  parse_others lines st = Raise e →
  e = IndexError ∨ (∃ k, e = KeyError k)
  ∨ ∃ line, line ∈ lines
      ∧ e = ValueError ("Problem with stats line: " +:+ PyStr.repr line).
Proof.
  unfold parse_others. intros [H|(os & _ & H)]%bind_Raise; [|done].
  apply (for_each_raise (λ _, True)) in H as (line & o1 & Hin & _ & H);
    [|done..].
  apply others_line_raise in H as [->|[[k ->]| ->]]; eauto.
Qed.

Lemma parse_others_raises_witness :
  ∃ line, line ∈ [others_header; others_truncated]
    ∧ parse_others [others_header; others_truncated]
        (State [] (pair_table "Pan_troglo" "Homo_sapie") [])
      = Raise (ValueError ("Problem with stats line: " +:+ PyStr.repr line)).
Proof.
  destruct (parse_others [others_header; others_truncated]
              (State [] (pair_table "Pan_troglo" "Homo_sapie") []))
    as [st'|e] eqn:H; [vm_compute in H; discriminate H|].
  destruct (parse_others_raises _ _ _ H) as [->|[[k ->]|(line & Hin & ->)]].
  - vm_compute in H. discriminate H.
  - vm_compute in H. discriminate H.
  - exists line. split; [exact Hin | reflexivity].
Defined.

Lemma floats_raise l e :
  floats l = Raise e → ∃ tok, tok ∈ l ∧ e = FloatError tok.
Proof.
  induction l as [|val l IH]; simpl; [done|].
  intros [H|(f & _ & H)]%bind_Raise.
  - unfold py_float in H. destruct (PyFloat.float_of_string val); [done|].
    injection H as <-. exists val. split; [by left|done].
  - apply bind_Raise in H as [H|(fs & _ & H)]; [|done].
    destruct (IH H) as (tok & Hin & ->). exists tok. split; [by right|done].
Qed.

Lemma ng86_inv_has_row h0 t0 st a :
  ng86_inv h0 t0 st → a ∈ sequences st → is_Some (results st !! a).
Proof.
  intros (_ & Hdom & _) Ha. apply elem_of_dom. rewrite Hdom.
  apply elem_of_union_r. by apply elem_of_list_to_set.
Qed.

Lemma set_pair_raise a b label d st e :
  set_pair a b label d st = Raise e → results st !! a = None.
Proof.
  unfold set_pair, getkey. by destruct (results st !! a).
Qed.

(** Under the invariant, a group raises nothing but [IndexError]. *)
Lemma ng86_group_raise h0 t0 seq_name fl i st e :
  ng86_inv h0 t0 st → seq_name ∈ sequences st →
  ng86_group seq_name fl i st = Raise e → e = IndexError.
Proof.
  intros Hinv Hin. unfold ng86_group, new_dict.
  pose proof (ng86_inv_has_row _ _ _ _ Hinv Hin) as [row Hrow].
  intros [H|(s1 & (x & _ & ->)%setitem_from_inv & H)]%bind_Raise;
    [by apply setitem_from_raise in H|].
  apply bind_Raise in H as [H|(s2 & (y & _ & ->)%setitem_from_inv & H)];
    [by apply setitem_from_raise in H|].
  apply bind_Raise in H as [H|(s3 & (z & _ & ->)%setitem_from_inv & H)];
    [by apply setitem_from_raise in H|].
  cbn [results sequences setitem set_heap] in H.
  unfold getkey in H at 1. rewrite Hrow in H. cbn [mbind result_bind] in H.
  apply bind_Raise in H as [H|(c & Hc & H)]; [by apply getitem_raise in H|].
  assert (Hcin : c ∈ sequences st).
  { unfold getitem in Hc. destruct (sequences st !! (i / 3)) eqn:Hl; [|done].
    injection Hc as <-. by eapply list_elem_of_lookup_2. }
  apply bind_Raise in H as [H|(s4 & H4 & H)].
  { apply set_pair_raise in H. cbn [results setitem set_heap] in H. congruence. }
  apply bind_Raise in H as [H|(c' & Hc' & H)]; [by apply getitem_raise in H|].
  apply set_pair_inv in H4 as (_ & Hs4 & Hd4 & _).
  cbn [results sequences setitem set_heap] in Hs4, Hd4.
  assert (Hc'in : c' ∈ sequences st).
  { unfold getitem in Hc'. rewrite Hs4 in Hc'.
    destruct (sequences st !! (i / 3)) eqn:Hl; [|done].
    injection Hc' as <-. by eapply list_elem_of_lookup_2. }
  apply set_pair_raise in H.
  pose proof (ng86_inv_has_row _ _ _ _ Hinv Hc'in) as Hsome.
  apply elem_of_dom in Hsome. rewrite <- Hd4 in Hsome.
  apply elem_of_dom in Hsome as [? Hsome]. congruence.
Qed.

Lemma ng86_line_raise h0 t0 line st e :
  ng86_inv h0 t0 st →
  ng86_line line st = Raise e →
  e = IndexError ∨ ∃ tok, e = FloatError tok.
Proof.
  intros Hinv. unfold ng86_line.
  intros [H|(fl & _ & H)]%bind_Raise.
  { right. apply floats_raise in H as (tok & _ & ->). eauto. }
  destruct (Re.match1 matrix_row_re line) as [g1|]; [|done].
  left.
  apply (for_each_raise (λ s,
    ng86_inv h0 t0 s ∧ PyStr.strip g1 ∈ sequences s)) in H
    as (i & s1 & _ & [Hi1 Hi2] & H).
  - by apply (ng86_group_raise h0 t0) in H.
  - intros i s1 s2 [Hi1 Hi2] Hg.
    destruct (ng86_group_keeps_inv h0 t0 _ _ _ _ _ Hi2 Hi1 Hg) as [? Hs].
    split; [done|by rewrite Hs].
  - split; [exact (ng86_new_row_keeps_inv h0 t0 (PyStr.strip g1) st Hinv)|].
    cbn [sequences set_results set_sequences].
    rewrite elem_of_app, list_elem_of_singleton. by right.
Qed.

(** X10: [parse_ng86] never raises [KeyError], whatever table it is
    given: when it raises, the exception is the [IndexError] of a row
    whose numbers do not fill groups of three for names already found, or
    the [ValueError] of [float] on a number token. *)
Theorem parse_ng86_raises lines st e :
  parse_ng86 lines st = Raise e →
  e = IndexError ∨ ∃ tok, e = FloatError tok.
Proof.
  unfold parse_ng86. intros H.
  apply (for_each_raise (ng86_inv (heap st) (results st))) in H
    as (line & s1 & _ & Hinv & H).
  - by apply (ng86_line_raise _ _ _ _ _ Hinv) in H.
  - intros line s1 s2 Hinv Hl.
    by destruct (ng86_line_keeps_inv _ _ _ _ _ Hinv Hl).
  - apply ng86_inv_start.
Qed.

Lemma parse_ng86_raises_witness :
  parse_ng86 ["A          0.1 0.2"] (State [] ∅ []) = Raise IndexError.
Proof.
  destruct (parse_ng86 ["A          0.1 0.2"] (State [] ∅ []))
    as [st'|e] eqn:H; [vm_compute in H; discriminate H|].
  destruct (parse_ng86_raises _ _ _ H) as [->|[tok ->]]; [reflexivity|].
  vm_compute in H. discriminate H.
Defined.

(** ** parse_others: pairs not in the table, lines without a colon *)

Lemma others_store_label line a b d st :
  others_store line a b d st
  = match method_label line with
    | Some l => st1 ← set_method a b l d st; set_method b a l d st1
    | None => Ok st
    end.
Proof.
  unfold others_store, method_label.
  destruct (PyStr.contains "LWL85:" line); [done|].
  destruct (PyStr.contains "LWL85m" line); [done|].
  by destruct (PyStr.contains "LPB93" line).
Qed.

(** X11: [parse_others] makes no pair entry either.  A statistics line
    with one of the three labels, for an active pair whose entry is
    missing in the table, raises [KeyError] on one of the two names; a
    statistics line with none of the labels is parsed and dropped, the
    table left as it was, whether the pair is known or not. *)
Theorem others_unknown_pair line a b st part :
  Re.match2 comp_re line = None →
  PyStr.contains "dS =" line = true →
  PyStr.split_char ":" line !! 1 = Some part →
  length (stats_tokens part) `mod` 3 = 0 →
  (pair_at st a b = None ∨ pair_at st b a = None →
   method_label line ≠ None →
   ∃ k, (k = a ∨ k = b)
     ∧ others_line line (Others (Some a) (Some b) st) = Raise (KeyError k))
  ∧ (method_label line = None →
     ∃ st', others_line line (Others (Some a) (Some b) st)
            = Ok (Others (Some a) (Some b) st')
       ∧ results st' = results st).
Proof.
  intros Hhdr Hds Hpart Hmod.
  destruct (stats_run_complete line _ (stats_tokens part) ∅ (le_n _) Hmod)
    as (m & Hrun & _).
  rewrite (others_line_active line (Others (Some a) (Some b) st) a b Hhdr
             eq_refl eq_refl Hds). cbn [objects].
  rewrite (others_stats_line_eq _ _ _ _ _ Hpart), Hrun.
  cbn [mbind result_bind]. rewrite others_store_label.
  set (st1 := State (heap st ++ [m]) (results st) (sequences st)).
  split.
  - intros Hmiss Hlabel.
    destruct (method_label line) as [l|]; [|done].
    destruct (set_method a b l (length (heap st)) st1) as [s2|e] eqn:H1.
    + cbn [mbind result_bind].
      pose proof (set_method_inv _ _ _ _ _ _ H1) as (_ & _ & _ & Hp & _).
      assert (Hnone : pair_at s2 b a = None).
      { destruct Hmiss as [Hab|Hba].
        - unfold set_method, getkey in H1. unfold pair_at in Hab.
          change (results st1) with (results st) in H1.
          destruct (results st !! a) as [row|]; [|done]. simpl in *.
          by rewrite Hab in H1.
        - apply eq_None_not_Some. rewrite Hp.
          change (pair_at st1 b a) with (pair_at st b a).
          rewrite Hba. by intros [? ?]. }
      destruct (set_method_none b a l (length (heap st)) s2 Hnone)
        as (k & Hk & ->).
      exists k. split; [tauto|done].
    + apply set_method_raise in H1 as [_ [-> | ->]]; eauto.
  - intros ->. cbn [mbind result_bind]. by exists st1.
Qed.

Lemma others_unknown_pair_witness :
  ∃ k, others_line others_LWL85
         (Others (Some "Pan_troglo") (Some "Homo_sapie") (State [] ∅ []))
       = Raise (KeyError k).
Proof.
  destruct (others_unknown_pair others_LWL85 "Pan_troglo" "Homo_sapie"
              (State [] ∅ [])
              "  dS =  0.0227 dN =  0.0000 w = 0.0000 S =   45.0 N =  177.0")
    as [Hraise _].
  - vm_compute; reflexivity.
  - vm_compute; reflexivity.
  - vm_compute; reflexivity.
  - vm_compute; reflexivity.
  - destruct Hraise as (k & _ & Hk).
    + left. reflexivity.
    + vm_compute. discriminate.
    + exists k. exact Hk.
Defined.

Lemma split_char_no_sep sep s :
  PyStr.contains (String sep EmptyString) s = false →
  PyStr.split_char sep s = [s].
Proof.
  induction s as [|c s IH]; [done|].
  cbn [PyStr.contains String.prefix].
  unfold PyStr.is_char. cbn [PyStr.split_char]. unfold PyStr.is_char.
  destruct (ascii_dec sep c) as [->|Hne].
  - by destruct s.
  - intros H. rewrite (proj2 (Ascii.eqb_neq sep c) Hne).
    by rewrite (IH H).
Qed.

(** X12: under an active pair, a line with the [dS =] marker and no
    colon raises [IndexError]: [line.split(":")[1]] is outside the
    [try] that turns a missing token into the [ValueError]. *)
Theorem others_no_colon_raises line a b st :
  Re.match2 comp_re line = None →
  PyStr.contains "dS =" line = true →
  PyStr.contains ":" line = false →
  others_line line (Others (Some a) (Some b) st) = Raise IndexError.
Proof.
  intros Hhdr Hds Hcolon.
  rewrite (others_line_active line (Others (Some a) (Some b) st) a b Hhdr
             eq_refl eq_refl Hds). cbn [objects].
  rewrite others_stats_line_no_part; [done|].
  by rewrite (split_char_no_sep _ _ Hcolon).
Qed.

Lemma others_no_colon_raises_witness :
  others_line "dS = 0.5 dN = 0.1"
    (Others (Some "Pan_troglo") (Some "Homo_sapie")
            (State [] (pair_table "Pan_troglo" "Homo_sapie") []))
  = Raise IndexError.
Proof.
  apply others_no_colon_raises; vm_compute; reflexivity.
Defined.

(** ** The statistics line: its keys and its values *)

Lemma stat_key_not_w tok : stat_key tok ≠ "w".
Proof.
  unfold stat_key.
  destruct (String.eqb (PyStr.strip_chars "()" tok) "w") eqn:H; [done|].
  by apply String.eqb_neq.
Qed.

Lemma stats_run_keys line (n : nat) : ∀ toks m0 m,
  (length toks ≤ n)%nat →
  stats_run line toks m0 = Ok m →
  dom m = dom m0 ∪ list_to_set (stat_key <$> key_tokens toks).
Proof.
  induction n as [|n IH]; intros toks m0 m Hn.
  { destruct toks; [|simpl in Hn; lia]. simpl. intros [= <-]. set_solver. }
  destruct toks as [|k [|e [|v toks]]]; [|done|done|].
  { simpl. intros [= <-]. set_solver. }
  cbn [stats_run key_tokens fmap list_fmap list_to_set].
  intros H. apply IH in H; [|simpl in Hn; lia].
  rewrite H, dom_insert_L.
  change (list_to_set (stat_key k :: (stat_key <$> key_tokens toks)))
    with ({[stat_key k]} ∪ list_to_set (C:=gset string)
                             (stat_key <$> key_tokens toks)).
  set_solver.
Qed.

(** C2 (amended): a statistics line under an active pair, in which the
    text between the first colon and the next makes complete groups of
    three tokens, raises no error; the MethodStats made for it has as
    keys exactly the key tokens of the line and is filed under the label
    of the line in both directions; every one of these keys is mapped to
    the float NaN when [float] reads every value token as NaN (as it
    does [-nan]), and to the undefined marker [None] when [float]
    rejects every value token. *)
Theorem C2_undefined_values line a b st part :
  Re.match2 comp_re line = None →
  PyStr.contains "dS =" line = true →
  PyStr.split_char ":" line !! 1 = Some part →
  length (stats_tokens part) `mod` 3 = 0 →
  is_Some (pair_at st a b) → is_Some (pair_at st b a) →
  ∃ st' m,
    others_line line (Others (Some a) (Some b) st)
    = Ok (Others (Some a) (Some b) st')
    ∧ heap st' !! length (heap st) = Some m
    ∧ (∀ l, method_label line = Some l →
            method_stats st' a b l = Some m ∧ method_stats st' b a l = Some m)
    ∧ dom m = list_to_set (stat_key <$> key_tokens (stats_tokens part))
    ∧ (Forall (λ tok, PyFloat.float_of_string (PyStr.strip_chars "()" tok)
                      = Some nan) (value_tokens (stats_tokens part)) →
       ∀ k, k ∈ stat_key <$> key_tokens (stats_tokens part) →
            m !! k = Some (VFloat nan))
    ∧ (Forall (λ tok, PyFloat.float_of_string (PyStr.strip_chars "()" tok)
                      = None) (value_tokens (stats_tokens part)) →
       ∀ k, k ∈ stat_key <$> key_tokens (stats_tokens part) →
            m !! k = Some VNone).
Proof.
  intros Hhdr Hds Hpart Hmod Hab Hba.
  destruct (stats_run_complete line _ (stats_tokens part) ∅ (le_n _) Hmod)
    as (m & Hrun & Hval & _).
  destruct (others_line_stats line a b st part m Hhdr Hds Hpart Hrun Hab Hba)
    as (st' & Hline & Hheap & _ & _ & _ & Href).
  pose proof (stats_run_keys line _ _ _ _ (le_n _) Hrun) as Hdom.
  rewrite dom_empty_L, (left_id_L ∅ (∪)) in Hdom.
  exists st', m. split; [done|].
  assert (Hm : heap st' !! length (heap st) = Some m)
    by (by rewrite Hheap, lookup_fresh).
  assert (Hkey : ∀ k, k ∈ stat_key <$> key_tokens (stats_tokens part) →
                      ∃ tok, tok ∈ value_tokens (stats_tokens part)
                             ∧ m !! k = Some (stat_value tok)).
  { intros k Hk.
    assert (Hin : k ∈ dom m) by (by rewrite Hdom, elem_of_list_to_set).
    apply elem_of_dom in Hin as [v Hv].
    destruct (Hval k v Hv) as [H0|(tok & Htok & ->)];
      [by rewrite lookup_empty in H0|eauto]. }
  split; [done|]. split_and!.
  - intros l Hl. unfold method_stats.
    rewrite !Href, !decide_True by naive_solver. done.
  - done.
  - intros Hall k Hk. destruct (Hkey k Hk) as (tok & Htok & ->).
    rewrite Forall_forall in Hall. unfold stat_value. by rewrite (Hall tok Htok).
  - intros Hall k Hk. destruct (Hkey k Hk) as (tok & Htok & ->).
    rewrite Forall_forall in Hall. unfold stat_value. by rewrite (Hall tok Htok).
Qed.

Lemma C2_undefined_values_witness :
  ∃ st' m,
    others_line others_LWL85m
      (Others (Some "Pan_troglo") (Some "Homo_sapie")
              (State [] (pair_table "Pan_troglo" "Homo_sapie") []))
    = Ok (Others (Some "Pan_troglo") (Some "Homo_sapie") st')
    ∧ heap st' !! 0 = Some m
    ∧ dom m = list_to_set ["dS"; "dN"; "omega"; "S"; "N"; "rho"]
    ∧ ∀ k, k ∈ ["dS"; "dN"; "omega"; "S"; "N"; "rho"] →
           m !! k = Some (VFloat nan).
Proof.
  destruct (C2_undefined_values others_LWL85m "Pan_troglo" "Homo_sapie"
              (State [] (pair_table "Pan_troglo" "Homo_sapie") [])
              " dS =    -nan dN =    -nan w =   -nan S =   -nan N =   -nan (rho = -nan)")
    as (st' & m & Hline & Hm & _ & Hdom & Hnan & _).
  - vm_compute; reflexivity.
  - vm_compute; reflexivity.
  - vm_compute; reflexivity.
  - vm_compute; reflexivity.
  - apply pair_table_entries.
  - apply pair_table_entries.
  - exists st', m. split; [exact Hline|]. split; [exact Hm|].
    rewrite others_LWL85m_keys in Hdom, Hnan.
    split; [exact Hdom|].
    apply Hnan. rewrite others_LWL85m_values.
    repeat (apply Forall_cons_2; [vm_compute; reflexivity|]). apply Forall_nil_2.
Defined.

(** X13: the MethodStats stored for a statistics line has as keys the
    key tokens of the line, parentheses stripped and [w] renamed, so
    [w] itself is never a key; each value is what [float] gives for a
    value token of the line, or [None]. *)
Theorem others_stats_keys line a b st part :
  Re.match2 comp_re line = None →
  PyStr.contains "dS =" line = true →
  PyStr.split_char ":" line !! 1 = Some part →
  length (stats_tokens part) `mod` 3 = 0 →
  is_Some (pair_at st a b) → is_Some (pair_at st b a) →
  ∃ st' m,
    others_line line (Others (Some a) (Some b) st)
    = Ok (Others (Some a) (Some b) st')
    ∧ heap st' !! length (heap st) = Some m
    ∧ dom m = list_to_set (stat_key <$> key_tokens (stats_tokens part))
    ∧ m !! "w" = None
    ∧ (∀ k v, m !! k = Some v →
         ∃ tok, tok ∈ value_tokens (stats_tokens part) ∧ v = stat_value tok).
Proof.
  intros Hhdr Hds Hpart Hmod Hab Hba.
  destruct (stats_run_complete line _ (stats_tokens part) ∅ (le_n _) Hmod)
    as (m & Hrun & Hval & _).
  destruct (others_line_stats line a b st part m Hhdr Hds Hpart Hrun Hab Hba)
    as (st' & Hline & Hheap & _).
  pose proof (stats_run_keys line _ _ _ _ (le_n _) Hrun) as Hdom.
  rewrite dom_empty_L, (left_id_L ∅ (∪)) in Hdom.
  exists st', m. split_and!; [done| |done| |].
  - by rewrite Hheap, lookup_fresh.
  - apply not_elem_of_dom. rewrite Hdom, elem_of_list_to_set, list_elem_of_fmap.
    intros (tok & Heq & _). by apply (stat_key_not_w tok).
  - intros k v Hk. destruct (Hval k v Hk) as [Hin|?]; [|done].
    by rewrite lookup_empty in Hin.
Qed.

Lemma others_stats_keys_witness :
  ∃ st' m,
    others_line others_LWL85
      (Others (Some "Pan_troglo") (Some "Homo_sapie")
              (State [] (pair_table "Pan_troglo" "Homo_sapie") []))
    = Ok (Others (Some "Pan_troglo") (Some "Homo_sapie") st')
    ∧ heap st' !! 0 = Some m
    ∧ m !! "w" = None.
Proof.
  destruct (others_stats_keys others_LWL85 "Pan_troglo" "Homo_sapie"
              (State [] (pair_table "Pan_troglo" "Homo_sapie") [])
              "  dS =  0.0227 dN =  0.0000 w = 0.0000 S =   45.0 N =  177.0")
    as (st' & m & Hline & Hm & _ & Hw & _).
  - vm_compute; reflexivity.
  - vm_compute; reflexivity.
  - vm_compute; reflexivity.
  - vm_compute; reflexivity.
  - apply pair_table_entries.
  - apply pair_table_entries.
  - exists st', m. split; [exact Hline|]. split; [exact Hm | exact Hw].
Defined.

(** ** When parse_ng86 returns *)

Ltac div3 a :=
  pose proof (Nat.div_mod_eq a 3);
  pose proof (Nat.mod_upper_bound a 3 ltac:(lia)).

(** A loop returns when every iteration does, in the states that the
    iterations before it leave; and if it returns, every iteration did. *)
Lemma for_each_returns {X S} (P : S → Prop) (body : X → S → result S) xs s :
  (∀ x s1, x ∈ xs → P s1 → ∃ s2, body x s1 = Ok s2 ∧ P s2) →
  P s → ∃ s', for_each body xs s = Ok s' ∧ P s'.
Proof.
  revert s; induction xs as [|x xs IH]; intros s Hbody Hs; simpl; [eauto|].
  destruct (Hbody x s) as (s1 & H1 & Hs1); [by left|done|].
  rewrite H1. cbn [mbind result_bind]. apply IH; [|done].
  intros x' s' Hin. apply Hbody. by right.
Qed.

Lemma for_each_returned {X S} (P : S → Prop) (body : X → S → result S) xs s s' :
  (∀ x s1 s2, P s1 → body x s1 = Ok s2 → P s2) →
  P s → for_each body xs s = Ok s' →
  ∀ x, x ∈ xs → ∃ s1 s2, P s1 ∧ body x s1 = Ok s2.
Proof.
  intros Hbody. revert s; induction xs as [|x xs IH]; intros s Hs; simpl.
  - intros _ x Hx. by apply elem_of_nil in Hx.
  - intros (s1 & H1 & H2)%bind_Ok x' [->|Hin]%elem_of_cons; [eauto|].
    by apply (IH s1 (Hbody _ _ _ Hs H1) H2).
Qed.

Lemma ng86_group_row_state names seq_name fl i s1 s2 :
  row_state names s1 → ng86_group seq_name fl i s1 = Ok s2 →
  row_state names s2.
Proof.
  intros [Hs Hrows]
    (x & y & z & c & _ & _ & _ & _ & _ & Hs2 & Hd & _)%ng86_group_inv.
  split; [congruence|].
  intros a Ha. apply elem_of_dom. rewrite Hd. apply elem_of_dom. by apply Hrows.
Qed.

Lemma getitem_Some {A} (l : list A) i a : l !! i = Some a → getitem l i = Ok a.
Proof. intros H. unfold getitem. by rewrite H. Qed.

Lemma getkey_Some {V} (m : gmap string V) k v :
  m !! k = Some v → getkey m k = Ok v.
Proof. intros H. unfold getkey. by rewrite H. Qed.

Lemma set_pair_some a b label d st :
  is_Some (results st !! a) → ∃ st', set_pair a b label d st = Ok st'.
Proof.
  intros [row Hrow]. unfold set_pair, getkey. rewrite Hrow. simpl. eauto.
Qed.

(** One group returns when its three numbers and its name are there. *)
Lemma ng86_group_returns names seq_name fl i s1 :
  row_state names s1 → seq_name ∈ names →
  (i + 2 < length fl)%nat → (i / 3 < length names)%nat →
  ∃ s2, ng86_group seq_name fl i s1 = Ok s2.
Proof.
  intros [Hs Hrows] Hin Hfl Hnames.
  destruct (lookup_lt_is_Some_2 fl i) as [x Hx]; [lia|].
  destruct (lookup_lt_is_Some_2 fl (i + 1)) as [y Hy]; [lia|].
  destruct (lookup_lt_is_Some_2 fl (i + 2)) as [z Hz]; [lia|].
  destruct (lookup_lt_is_Some_2 names (i / 3)) as [c Hc]; [lia|].
  assert (Hcin : c ∈ names) by (by eapply list_elem_of_lookup_2).
  unfold ng86_group, new_dict.
  set (d := length (heap s1)).
  set (sA := set_heap (heap s1 ++ [∅]) s1).
  assert (E1 : setitem_from d "omega" fl i sA
               = Ok (setitem d "omega" (VFloat x) sA))
    by (unfold setitem_from, getitem; by rewrite Hx).
  rewrite E1. cbn [mbind result_bind].
  set (sB := setitem d "omega" (VFloat x) sA).
  assert (E2 : setitem_from d "dN" fl (i + 1) sB
               = Ok (setitem d "dN" (VFloat y) sB))
    by (unfold setitem_from, getitem; by rewrite Hy).
  rewrite E2. cbn [mbind result_bind].
  set (sC := setitem d "dN" (VFloat y) sB).
  assert (E3 : setitem_from d "dS" fl (i + 2) sC
               = Ok (setitem d "dS" (VFloat z) sC))
    by (unfold setitem_from, getitem; by rewrite Hz).
  rewrite E3. cbn [mbind result_bind].
  set (sD := setitem d "dS" (VFloat z) sC).
  assert (Hres : results sD = results s1) by reflexivity.
  assert (Hseq : sequences sD = names) by exact Hs.
  destruct (Hrows seq_name Hin) as [row Hrow].
  rewrite (getkey_Some (results sD) seq_name row) by (by rewrite Hres).
  cbn [mbind result_bind].
  rewrite (getitem_Some (sequences sD) (i / 3) c) by (by rewrite Hseq).
  cbn [mbind result_bind].
  destruct (set_pair_some seq_name c "NG86" d sD) as [s4 H4];
    [rewrite Hres; eauto|].
  rewrite H4. cbn [mbind result_bind].
  pose proof (set_pair_inv _ _ _ _ _ _ H4) as (_ & Hs4 & Hd4 & _).
  rewrite (getitem_Some (sequences s4) (i / 3) c) by (by rewrite Hs4, Hseq).
  cbn [mbind result_bind].
  apply set_pair_some. apply elem_of_dom. rewrite Hd4, Hres.
  apply elem_of_dom. by apply Hrows.
Qed.

(** The loop over the groups of a row returns exactly when the numbers
    make groups of three, no more than there are names. *)
Lemma ng86_groups_return names seq_name fl s :
  row_state names s → seq_name ∈ names →
  (∃ s', for_each (ng86_group seq_name fl) (range3 (length fl)) s = Ok s')
  ↔ length fl `mod` 3 = 0 ∧ (length fl / 3 ≤ length names)%nat.
Proof.
  intros Hrs Hin. split.
  - intros [s' H].
    destruct (decide (length fl = 0)) as [->|Hpos]; [simpl; split; [done|lia]|].
    set (k := (length fl + 2) / 3).
    assert (Hk : (0 < k)%nat) by (unfold k; div3 (length fl + 2); lia).
    destruct (for_each_returned (row_state names) _ _ _ _
                (ng86_group_row_state names seq_name fl) Hrs H (3 * (k - 1)))
      as (s1 & s2 & [Hs1 _] & Hg).
    { unfold range3. apply list_elem_of_fmap. exists (k - 1).
      split; [done|]. apply elem_of_seq. fold k. lia. }
    apply ng86_group_inv in Hg
      as (x & y & z & c & _ & _ & Hz & Hc & _).
    apply lookup_lt_Some in Hz. apply lookup_lt_Some in Hc.
    rewrite Hs1 in Hc.
    replace (3 * (k - 1) / 3) with (k - 1) in Hc
      by (by rewrite Nat.mul_comm, Nat.div_mul).
    unfold k in *. div3 (length fl + 2). div3 (length fl). lia.
  - intros [Hmod Hle].
    destruct (for_each_returns (row_state names) (ng86_group seq_name fl)
                (range3 (length fl)) s) as (s' & H & _); [|done|eauto].
    intros i s1 Hi Hs1.
    apply list_elem_of_fmap in Hi as (j & -> & Hj). apply elem_of_seq in Hj.
    destruct (ng86_group_returns names seq_name fl (3 * j) s1) as [s2 H2];
      [done|done| | |].
    + div3 (length fl + 2). div3 (length fl). lia.
    + replace (3 * j / 3) with j by (by rewrite Nat.mul_comm, Nat.div_mul).
      div3 (length fl + 2). div3 (length fl). lia.
    + exists s2. split; [done|]. by apply (ng86_group_row_state names) in H2.
Qed.

Lemma ng86_inv_row_state h0 t0 st :
  ng86_inv h0 t0 st → row_state (sequences st) st.
Proof.
  intros Hinv. split; [done|]. intros a. by apply (ng86_inv_has_row h0 t0).
Qed.

(** One line. *)
Lemma ng86_line_returns h0 t0 line st :
  ng86_inv h0 t0 st →
  (∃ st', ng86_line line st = Ok st')
  ↔ ng86_line_ok (length (sequences st)) line = true.
Proof.
  intros Hinv. unfold ng86_line, ng86_line_ok.
  destruct (floats (Re.findall float_re line)) as [fl|e];
    [|split; [by intros [? ?]|done]].
  cbn [mbind result_bind].
  destruct (Re.match1 matrix_row_re line) as [g1|]; [|split; eauto].
  set (r := PyStr.strip g1).
  set (st1 := set_results _ _).
  assert (Hrs : row_state (sequences st ++ [r]) st1).
  { apply (ng86_inv_row_state h0 t0).
    exact (ng86_new_row_keeps_inv h0 t0 r st Hinv). }
  assert (Hin : r ∈ sequences st ++ [r]).
  { rewrite elem_of_app, list_elem_of_singleton. by right. }
  rewrite (ng86_groups_return _ r fl st1 Hrs Hin).
  rewrite length_app. cbn [length].
  rewrite andb_true_iff, Nat.eqb_eq, Nat.leb_le. done.
Qed.

Lemma ng86_lines_return h0 t0 lines : ∀ st,
  ng86_inv h0 t0 st →
  (∃ st', for_each ng86_line lines st = Ok st')
  ↔ ng86_ok (length (sequences st)) lines = true.
Proof.
  induction lines as [|line lines IH]; intros st Hinv; cbn [for_each ng86_ok].
  { split; eauto. }
  rewrite andb_true_iff, <- (ng86_line_returns h0 t0 line st Hinv).
  split.
  - intros [st' (s1 & H1 & H2)%bind_Ok]. split; [eauto|].
    destruct (ng86_line_keeps_inv h0 t0 line st s1 Hinv H1) as [Hinv1 Hs1].
    assert (H2' : ng86_ok (length (sequences s1)) lines = true)
      by (apply (IH s1 Hinv1); eauto).
    revert H2'.
    rewrite Hs1, length_app. unfold row_labels, row_label. cbn [omap list_omap].
    destruct (Re.match1 matrix_row_re line); cbn [fmap option_fmap option_map length];
      intros H2'; [by rewrite Nat.add_1_r in H2'|by rewrite Nat.add_0_r in H2'].
  - intros [[s1 H1] Hok]. rewrite H1. cbn [mbind result_bind].
    destruct (ng86_line_keeps_inv h0 t0 line st s1 Hinv H1) as [Hinv1 Hs1].
    apply (IH s1 Hinv1).
    rewrite Hs1, length_app. unfold row_labels, row_label. cbn [omap list_omap].
    destruct (Re.match1 matrix_row_re line); cbn [fmap option_fmap option_map length];
      [by rewrite Nat.add_1_r|by rewrite Nat.add_0_r].
Qed.

(** X14: [parse_ng86] returns exactly on the sections in which [float]
    accepts every number token and the numbers of every labelled row
    make groups of three, at most as many as names found up to that row,
    its own included; the table it is given plays no part. *)
Theorem parse_ng86_returns lines st :
  (∃ st', parse_ng86 lines st = Ok st') ↔ ng86_ok 0 lines = true.
Proof.
  unfold parse_ng86.
  apply (ng86_lines_return (heap st) (results st) lines (set_sequences [] st)).
  apply ng86_inv_start.
Qed.

Lemma parse_ng86_returns_witness :
  ∃ st', parse_ng86 ng86_rows (State [] ∅ []) = Ok st'.
Proof.
  apply (parse_ng86_returns ng86_rows (State [] ∅ [])).
  vm_compute. reflexivity.
Defined.

(** ** The number tokens that float rejects *)

Lemma str_substring_app (a b : string) :
  substring 0 (String.length a) (a +:+ b) = a.
Proof.
  induction a as [|c a IH]; simpl; [by destruct b|by rewrite IH].
Qed.

Lemma consumed_app (p rest : string) : Re.consumed (p +:+ rest) rest = p.
Proof.
  unfold Re.consumed. rewrite str_length_app.
  replace (String.length p + String.length rest - String.length rest)
    with (String.length p) by lia.
  apply str_substring_app.
Qed.

(** Every string that [findall] returns is the text of a match. *)
Lemma findall_from_elem r tok : ∀ s skip,
  tok ∈ Re.findall_from r skip s → ∃ s', Re.match_text r s' = Some tok.
Proof.
  induction s as [|c s IH]; intros skip; cbn [Re.findall_from].
  - destruct skip; [|by intros ?%elem_of_nil].
    destruct (Re.match_text r EmptyString) as [m|] eqn:Hm;
      [|by intros ?%elem_of_nil].
    intros ->%list_elem_of_singleton. eauto.
  - destruct skip as [|n]; [|apply IH].
    destruct (Re.match_text r (String c s)) as [m|] eqn:Hm; [|apply IH].
    intros [->|Hin]%elem_of_cons; [eauto|by apply IH in Hin].
Qed.

(** The text of a match of [float_re]: minus signs, digits, a point,
    digits. *)
Lemma float_re_text s tok :
  Re.match_text float_re s = Some tok →
  ∃ m d1 d2, tok = m +:+ d1 +:+ String "." d2
    ∧ Re.all_in (PyStr.is_char "-") m = true
    ∧ Re.all_in PyStr.is_digit d1 = true ∧ d1 ≠ EmptyString
    ∧ Re.all_in PyStr.is_digit d2 = true ∧ d2 ≠ EmptyString.
Proof.
  unfold Re.match_text, float_re, Re.seq_of, Re.star, Re.plus.
  cbn [foldr Re.run].
  intros (m & r1 & -> & Hm & _ & _ & H)%rep_sound.
  apply rep_sound in H as (d1 & r2 & -> & Hd1 & Hl1 & _ & H).
  destruct r2 as [|c r3]; [done|].
  destruct (Ascii.eqb "." c) eqn:Hc; [|done].
  apply Ascii.eqb_eq in Hc as <-.
  apply rep_sound in H as (d2 & r4 & -> & Hd2 & Hl2 & _ & [= <-]).
  exists m, d1, d2. split_and!; try done.
  - replace (m +:+ d1 +:+ String "." (d2 +:+ r4))
      with ((m +:+ d1 +:+ String "." d2) +:+ r4).
    + apply consumed_app.
    + rewrite !str_app_assoc. simpl. done.
  - intros ->. simpl in Hl1. lia.
  - intros ->. simpl in Hl2. lia.
Qed.

Lemma digit_cases c :
  PyStr.is_digit c = true →
  c = "0"%char ∨ c = "1"%char ∨ c = "2"%char ∨ c = "3"%char ∨ c = "4"%char
  ∨ c = "5"%char ∨ c = "6"%char ∨ c = "7"%char ∨ c = "8"%char ∨ c = "9"%char.
Proof.
  destruct c as [[] [] [] [] [] [] [] []]; intros H;
    first [ by vm_compute in H
          | repeat (first [ left; reflexivity | right ]); reflexivity ].
Qed.

Lemma minus_char c : PyStr.is_char "-" c = true → c = "-"%char.
Proof. unfold PyStr.is_char. intros H. by apply Ascii.eqb_eq in H. Qed.

Lemma all_in_mono (cls cls' : ascii → bool) s :
  (∀ c, cls c = true → cls' c = true) →
  Re.all_in cls s = true → Re.all_in cls' s = true.
Proof.
  intros Hc. induction s as [|c s IH]; simpl; [done|].
  intros [H1 H2]%andb_true_iff. by rewrite (Hc c H1), (IH H2).
Qed.

Lemma lstrip_none p s : Re.all_in (λ c, negb (p c)) s = true → PyStr.lstrip_by p s = s.
Proof.
  destruct s as [|c s]; simpl; [done|].
  intros [H _]%andb_true_iff. by destruct (p c).
Qed.

Lemma rstrip_none p s : Re.all_in (λ c, negb (p c)) s = true → PyStr.rstrip_by p s = s.
Proof.
  induction s as [|c s IH]; simpl; [done|].
  intros [H1 H2]%andb_true_iff. rewrite (IH H2).
  destruct s; [|done]. by destruct (p c).
Qed.

Lemma strip_none s :
  Re.all_in (λ c, negb (PyStr.is_space c)) s = true → PyStr.strip s = s.
Proof.
  intros H. unfold PyStr.strip. by rewrite (lstrip_none _ _ H), (rstrip_none _ _ H).
Qed.

Lemma digit_not_space c :
  PyStr.is_digit c = true → negb (PyStr.is_space c) = true.
Proof.
  intros H. destruct (digit_cases c H) as [->|[->|[->|[->|[->|[->|[->|[->|[->| ->]]]]]]]]];
    reflexivity.
Qed.

Lemma span_digits_app d rest :
  Re.all_in PyStr.is_digit d = true →
  match rest with String c _ => PyStr.is_digit c = false | EmptyString => True end →
  PyFloat.span_digits (d +:+ rest) = (d, rest).
Proof.
  intros Hd Hrest. induction d as [|c d IH].
  - destruct rest as [|c rest]; [done|]. simpl. by rewrite Hrest.
  - simpl in Hd. apply andb_true_iff in Hd as [Hc Hd].
    change (String c d +:+ rest) with (String c (d +:+ rest)).
    cbn [PyFloat.span_digits]. by rewrite Hc, (IH Hd).
Qed.

Lemma str_app_nil (s : string) : s +:+ EmptyString = s.
Proof.
  induction s as [|c s IH]; [done|].
  change (String c (s +:+ EmptyString) = String c s). by rewrite IH.
Qed.

(** Digits, a point, digits: a decimal numeral. *)
Lemma decimal_digits d1 d2 :
  Re.all_in PyStr.is_digit d1 = true → d1 ≠ EmptyString →
  Re.all_in PyStr.is_digit d2 = true →
  is_Some (PyFloat.decimal (d1 +:+ String "." d2)).
Proof.
  intros H1 Hne H2. unfold PyFloat.decimal.
  rewrite (span_digits_app d1 (String "." d2) H1) by reflexivity.
  pose proof (span_digits_app d2 EmptyString H2 I) as Hs.
  rewrite str_app_nil in Hs. rewrite Hs.
  destruct d1 as [|c d1]; [done|]. simpl. eauto.
Qed.

(** A numeral that starts with a digit is not a sign, [nan] or [inf]. *)
Lemma unsigned_numeral c s :
  PyStr.is_digit c = true →
  PyFloat.split_sign (String c s) = (false, String c s)
  ∧ String.eqb (PyFloat.lower_str (String c s)) "nan" = false
  ∧ String.eqb (PyFloat.lower_str (String c s)) "inf" = false
  ∧ String.eqb (PyFloat.lower_str (String c s)) "infinity" = false
  ∧ "-"%char ≠ c.
Proof.
  intros H. destruct (digit_cases c H) as [->|[->|[->|[->|[->|[->|[->|[->|[->| ->]]]]]]]]];
    split_and!; first [reflexivity | discriminate].
Qed.

Lemma float_of_numeral s neg d1 d2 :
  PyFloat.split_sign (PyStr.strip s) = (neg, d1 +:+ String "." d2) →
  Re.all_in PyStr.is_digit d1 = true → d1 ≠ EmptyString →
  Re.all_in PyStr.is_digit d2 = true →
  is_Some (PyFloat.float_of_string s).
Proof.
  intros Hs H1 Hne H2. unfold PyFloat.float_of_string. rewrite Hs.
  destruct (decimal_digits d1 d2 H1 Hne H2) as [[m e] Hdec].
  cbv zeta. rewrite Hdec.
  destruct d1 as [|c d1]; [done|].
  simpl in H1. apply andb_true_iff in H1 as [Hc _].
  change (String c d1 +:+ String "." d2) with (String c (d1 +:+ String "." d2)).
  destruct (unsigned_numeral c (d1 +:+ String "." d2) Hc) as (_ & -> & -> & -> & _).
  simpl. eauto.
Qed.

Lemma minus_not_space c :
  PyStr.is_char "-" c = true → negb (PyStr.is_space c) = true.
Proof. by intros ->%minus_char. Qed.

Lemma token_no_space m d1 d2 :
  Re.all_in (PyStr.is_char "-") m = true →
  Re.all_in PyStr.is_digit d1 = true → Re.all_in PyStr.is_digit d2 = true →
  Re.all_in (λ c, negb (PyStr.is_space c)) (m +:+ d1 +:+ String "." d2) = true.
Proof.
  intros Hm H1 H2. rewrite !all_in_app. cbn [Re.all_in].
  rewrite (all_in_mono _ _ m minus_not_space Hm).
  rewrite (all_in_mono _ _ d1 digit_not_space H1).
  rewrite (all_in_mono _ _ d2 digit_not_space H2). reflexivity.
Qed.

(** A number token is rejected by [float] exactly when it starts with
    two minus signs. *)
Lemma number_token_rejected line tok :
  tok ∈ Re.findall float_re line →
  PyFloat.float_of_string tok = None ↔ String.prefix "--" tok = true.
Proof.
  intros (s' & Hs')%findall_from_elem.
  apply float_re_text in Hs' as (m & d1 & d2 & -> & Hm & H1 & Hne1 & H2 & Hne2).
  pose proof (strip_none _ (token_no_space m d1 d2 Hm H1 H2)) as Hstrip.
  destruct m as [|c m].
  - (* no sign *)
    change (EmptyString +:+ d1 +:+ String "." d2) with (d1 +:+ String "." d2) in *.
    assert (PyFloat.split_sign (d1 +:+ String "." d2) = (false, d1 +:+ String "." d2)
            ∧ String.prefix "--" (d1 +:+ String "." d2) = false) as [Hsign Hp].
    { destruct d1 as [|c d1]; [done|].
      simpl in H1. apply andb_true_iff in H1 as [Hc _].
      change (String c d1 +:+ String "." d2) with (String c (d1 +:+ String "." d2)).
      destruct (unsigned_numeral c (d1 +:+ String "." d2) Hc) as (-> & _ & _ & _ & Hp).
      split; [done|]. cbn [String.prefix].
      by destruct (ascii_dec "-" c). }
    rewrite <- Hstrip in Hsign at 1.
    destruct (float_of_numeral _ false d1 d2 Hsign H1 Hne1 H2) as [f ->].
    rewrite Hp. split; done.
  - simpl in Hm. apply andb_true_iff in Hm as [Hc Hm].
    apply minus_char in Hc as ->.
    change (String "-" m +:+ d1 +:+ String "." d2)
      with (String "-" (m +:+ d1 +:+ String "." d2)) in *.
    destruct m as [|c m].
    + (* one sign *)
      change (EmptyString +:+ d1 +:+ String "." d2) with (d1 +:+ String "." d2) in *.
      assert (PyFloat.split_sign (PyStr.strip (String "-" (d1 +:+ String "." d2)))
              = (true, d1 +:+ String "." d2)) as Hsign by (by rewrite Hstrip).
      destruct (float_of_numeral _ true d1 d2 Hsign H1 Hne1 H2) as [f ->].
      assert (String.prefix "--" (String "-" (d1 +:+ String "." d2)) = false) as ->.
      { destruct d1 as [|c d1]; [done|].
        simpl in H1. apply andb_true_iff in H1 as [Hc _].
        change (String c d1 +:+ String "." d2) with (String c (d1 +:+ String "." d2)).
        destruct (unsigned_numeral c (d1 +:+ String "." d2) Hc) as (_ & _ & _ & _ & Hp).
        cbn [String.prefix].
        destruct (ascii_dec "-" "-"); [|done]. by destruct (ascii_dec "-" c). }
      split; done.
    + (* two signs or more *)
      simpl in Hm. apply andb_true_iff in Hm as [Hc Hm].
      apply minus_char in Hc as ->.
      change (String "-" m +:+ d1 +:+ String "." d2)
        with (String "-" (m +:+ d1 +:+ String "." d2)) in *.
      unfold PyFloat.float_of_string. rewrite Hstrip.
      split; [intros _|intros _; reflexivity].
      cbn [String.prefix].
      destruct (ascii_dec "-" "-"); [|done].
      by destruct (m +:+ d1 +:+ String "." d2).
Qed.

Lemma floats_cases l :
  (∃ fl, floats l = Ok fl ∧ length fl = length l
         ∧ Forall (λ tok, PyFloat.float_of_string tok ≠ None) l)
  ∨ (∃ l1 tok l2, l = l1 ++ tok :: l2
       ∧ Forall (λ tok, PyFloat.float_of_string tok ≠ None) l1
       ∧ PyFloat.float_of_string tok = None
       ∧ floats l = Raise (FloatError tok)).
Proof.
  induction l as [|val l IH]; [left; eexists; split_and!; [done|done|constructor]|].
  destruct (PyFloat.float_of_string val) as [f|] eqn:Hval;
    cbn [floats]; unfold py_float; rewrite Hval.
  - destruct IH as [(fl & -> & Hlen & Hall)|(l1 & tok & l2 & -> & Hall & Hnone & ->)].
    + left. eexists. split_and!; [reflexivity|by simpl; rewrite Hlen|].
      constructor; [by rewrite Hval|done].
    + right. exists (val :: l1), tok, l2. split_and!; [done| |done|reflexivity].
      constructor; [by rewrite Hval|done].
  - right. exists [], val, l. split_and!; [done|constructor|done|reflexivity].
Qed.

(** The numbers of a line either all convert, none of them starting
    with two minus signs, or the first that starts so stops the
    conversion. *)
Lemma floats_number_tokens line :
  (∃ fl, floats (Re.findall float_re line) = Ok fl
         ∧ length fl = length (Re.findall float_re line)
         ∧ Forall (λ tok, String.prefix "--" tok = false) (Re.findall float_re line))
  ∨ (∃ l1 tok l2, Re.findall float_re line = l1 ++ tok :: l2
       ∧ Forall (λ tok, String.prefix "--" tok = false) l1
       ∧ String.prefix "--" tok = true
       ∧ floats (Re.findall float_re line) = Raise (FloatError tok)).
Proof.
  assert (Hno : ∀ l, (∀ tok, tok ∈ l → tok ∈ Re.findall float_re line) →
                Forall (λ tok, PyFloat.float_of_string tok ≠ None) l →
                Forall (λ tok, String.prefix "--" tok = false) l).
  { intros l Hsub Hall. apply Forall_forall. intros tok Hin.
    rewrite Forall_forall in Hall. specialize (Hall tok Hin).
    destruct (String.prefix "--" tok) eqn:Hp; [|done].
    by apply (number_token_rejected line tok (Hsub tok Hin)) in Hp. }
  destruct (floats_cases (Re.findall float_re line))
    as [(fl & Hfl & Hlen & Hall)|(l1 & tok & l2 & Heq & Hall & Hnone & Hfl)].
  - left. exists fl. split_and!; [done|done|]. by apply Hno.
  - right. exists l1, tok, l2. split_and!; [done| | |done].
    + apply Hno; [|done]. intros t Ht. rewrite Heq. set_solver.
    + apply (number_token_rejected line tok); [|done]. rewrite Heq. set_solver.
Qed.

(** X15: the numbers that [-*\d+\.\d+] finds in a line are all accepted
    by [float], except those that start with two minus signs: the list
    comprehension returns exactly when no number of the line does. *)
Theorem number_tokens_accepted line :
  (∃ fl, floats (Re.findall float_re line) = Ok fl)
  ↔ Forall (λ tok, String.prefix "--" tok = false) (Re.findall float_re line).
Proof.
  destruct (floats_number_tokens line)
    as [(fl & Hfl & _ & Hall)|(l1 & tok & l2 & Heq & _ & Hp & Hfl)].
  - split; [done|eauto].
  - split.
    + intros [fl Hfl']. rewrite Hfl in Hfl'. discriminate Hfl'.
    + intros Hall. rewrite Forall_forall in Hall.
      rewrite (Hall tok) in Hp; [discriminate Hp|]. rewrite Heq. set_solver.
Qed.

(** X16: a line with a number that starts with two minus signs is fatal
    to [parse_ng86] and to [parse_yn00] wherever it stands and whether
    or not it is a row: once the lines before it are read, the call
    raises the error of [float] on the first such number of the line
    (no number before it starts so), and the lines after it are not
    read. *)
Theorem double_minus_is_fatal pre line post st :
  Exists (λ tok, String.prefix "--" tok = true) (Re.findall float_re line) →
  ∃ l1 tok l2, Re.findall float_re line = l1 ++ tok :: l2
    ∧ Forall (λ tok, String.prefix "--" tok = false) l1
    ∧ String.prefix "--" tok = true
    ∧ (∀ s1, parse_ng86 pre st = Ok s1 →
         parse_ng86 (pre ++ line :: post) st = Raise (FloatError tok))
    ∧ (∀ s1, parse_yn00 pre st = Ok s1 →
         parse_yn00 (pre ++ line :: post) st = Raise (FloatError tok)).
Proof.
  intros Hex.
  destruct (floats_number_tokens line)
    as [(fl & Hfl & _ & Hall)|(l1 & tok & l2 & Heq & Hl1 & Hp & Hfl)].
  { apply Exists_exists in Hex as (tok & Hin & Hp).
    rewrite Forall_forall in Hall. rewrite (Hall tok Hin) in Hp. discriminate Hp. }
  exists l1, tok, l2. split_and!; [done|done|done| |].
  - intros s1 Hpre. unfold parse_ng86 in *.
    rewrite for_each_app, Hpre. cbn [mbind result_bind for_each].
    unfold ng86_line. by rewrite Hfl.
  - intros s1 Hpre. unfold parse_yn00 in *.
    rewrite for_each_app, Hpre. cbn [mbind result_bind for_each].
    unfold yn00_line. by rewrite Hfl.
Qed.

Lemma double_minus_is_fatal_witness :
  Exists (λ tok, String.prefix "--" tok = true)
         (Re.findall float_re "B          0.5 --1.5 --2.5")
  ∧ ∃ l1 tok l2,
      Re.findall float_re "B          0.5 --1.5 --2.5" = l1 ++ tok :: l2
    ∧ Forall (λ tok, String.prefix "--" tok = false) l1
    ∧ String.prefix "--" tok = true
    ∧ (∀ s1, parse_ng86 ["A"] (State [] ∅ []) = Ok s1 →
         parse_ng86 (["A"] ++ "B          0.5 --1.5 --2.5" :: ["C"]) (State [] ∅ [])
         = Raise (FloatError tok))
    ∧ (∀ s1, parse_yn00 ["A"] (State [] ∅ []) = Ok s1 →
         parse_yn00 (["A"] ++ "B          0.5 --1.5 --2.5" :: ["C"]) (State [] ∅ [])
         = Raise (FloatError tok)).
Proof.
  assert (Exists (λ tok, String.prefix "--" tok = true)
                 (Re.findall float_re "B          0.5 --1.5 --2.5")) as H.
  { replace (Re.findall float_re "B          0.5 --1.5 --2.5")
      with ["0.5"; "--1.5"; "--2.5"] by (vm_compute; reflexivity).
    apply Exists_cons_tl, Exists_cons_hd. reflexivity. }
  split; [exact H|].
  exact (double_minus_is_fatal ["A"] _ ["C"] (State [] ∅ []) H).
Defined.

(** ** parse_yn00: a row, by its number tokens *)

(** X1: a line that the row pattern matches, with at least nine numbers
    none of which starts with two minus signs, indices that denote names
    [a] and [b], and pair entries for them: the iteration raises
    nothing; every number of the line is converted, and one new
    dictionary made of the first nine is stored under [YN00] in both
    directions; the list of names and the entries under other labels
    are left as they were. *)
Theorem yn00_row_stored line st g1 g2 a b :
  Re.match2 row_re line = Some (g1, g2) →
  Forall (λ tok, String.prefix "--" tok = false) (Re.findall float_re line) →
  (9 ≤ length (Re.findall float_re line))%nat →
  getitem_int (sequences st) (PyStr.int g1 - 1) = Ok a →
  getitem_int (sequences st) (PyStr.int g2 - 1) = Ok b →
  is_Some (pair_at st a b) → is_Some (pair_at st b a) →
  ∃ st' f0 f1 f2 f3 f4 f5 f6 f7 f8 rest,
    floats (Re.findall float_re line)
    = Ok (f0 :: f1 :: f2 :: f3 :: f4 :: f5 :: f6 :: f7 :: f8 :: rest)
    ∧ yn00_line line st = Ok st'
    ∧ method_stats st' a b "YN00"
      = Some (yn00_stats f0 f1 f2 f3 f4 f5 f6 f7 f8)
    ∧ method_ref st' a b "YN00" = Some (length (heap st))
    ∧ method_ref st' b a "YN00" = Some (length (heap st))
    ∧ sequences st' = sequences st
    ∧ (∀ x y l, l ≠ "YN00" → method_ref st' x y l = method_ref st x y l).
Proof.
  intros Hm Hall Hlen Ha Hb Hab Hba.
  destruct (floats_number_tokens line)
    as [(fl & Hfl & Hlfl & _)|(l1 & tok & l2 & Heq & _ & Hp & _)].
  2:{ rewrite Forall_forall in Hall.
      rewrite (Hall tok) in Hp; [discriminate Hp|]. rewrite Heq. set_solver. }
  rewrite <- Hlfl in Hlen.
  do 9 (destruct fl as [|? fl]; [simpl in Hlen; lia|]).
  destruct (yn00_row_effect line st g1 g2 a b _ _ _ _ _ _ _ _ _ fl
              Hfl Hm Ha Hb Hab Hba)
    as (st' & Hst' & Hstats & Hsame & Hseq & Hother & Hr).
  exists st'. do 10 eexists. split; [exact Hfl|]. split; [exact Hst'|].
  split; [exact Hstats|]. split; [exact Hr|].
  split; [by rewrite Hsame|]. split; [exact Hseq|].
  intros x y l Hl. apply Hother. intros [-> _]. done.
Qed.

Lemma yn00_row_full_tokens :
  Re.findall float_re yn00_row_full
  = ["67.3"; "154.7"; "0.0136"; "3.6564"; "0.0000"; "-0.0000"; "0.0000";
     "0.0150"; "0.0151"].
Proof. vm_compute. reflexivity. Qed.

Lemma yn00_row_short_tokens :
  Re.findall float_re yn00_row_short
  = ["67.3"; "154.7"; "0.0136"; "3.6564"; "0.0000"; "-0.0000"; "0.0000";
     "0.0150"].
Proof. vm_compute. reflexivity. Qed.

Lemma yn00_row_stored_witness :
  ∃ st' f0 f1 f2 f3 f4 f5 f6 f7 f8 rest,
    floats (Re.findall float_re yn00_row_full)
    = Ok (f0 :: f1 :: f2 :: f3 :: f4 :: f5 :: f6 :: f7 :: f8 :: rest)
    ∧ yn00_line yn00_row_full (State [] (pair_table "A" "B") ["A"; "B"]) = Ok st'
    ∧ method_stats st' "B" "A" "YN00"
      = Some (yn00_stats f0 f1 f2 f3 f4 f5 f6 f7 f8).
Proof.
  destruct (yn00_row_stored yn00_row_full
              (State [] (pair_table "A" "B") ["A"; "B"]) "2" "1" "B" "A")
    as (st' & f0 & f1 & f2 & f3 & f4 & f5 & f6 & f7 & f8 & rest
        & Hfl & Hst' & Hstats & _).
  - vm_compute; reflexivity.
  - rewrite yn00_row_full_tokens.
    repeat (apply Forall_cons_2; [reflexivity|]). apply Forall_nil_2.
  - rewrite yn00_row_full_tokens. simpl. lia.
  - reflexivity.
  - reflexivity.
  - apply pair_table_entries.
  - apply pair_table_entries.
  - exists st', f0, f1, f2, f3, f4, f5, f6, f7, f8, rest.
    split; [exact Hfl|]. split; [exact Hst' | exact Hstats].
Defined.

(** X2: a line that the row pattern matches and that carries fewer than
    nine numbers, none of which starts with two minus signs, raises
    [IndexError], whatever its indices and whatever the table holds. *)
Theorem yn00_short_row_raises line st g1 g2 :
  Re.match2 row_re line = Some (g1, g2) →
  Forall (λ tok, String.prefix "--" tok = false) (Re.findall float_re line) →
  (length (Re.findall float_re line) < 9)%nat →
  yn00_line line st = Raise IndexError.
Proof.
  intros Hm Hall Hlen.
  destruct (floats_number_tokens line)
    as [(fl & Hfl & Hlfl & _)|(l1 & tok & l2 & Heq & _ & Hp & _)].
  - rewrite <- Hlfl in Hlen. exact (yn00_short_row line st fl g1 g2 Hfl Hm Hlen).
  - rewrite Forall_forall in Hall.
    rewrite (Hall tok) in Hp; [discriminate Hp|]. rewrite Heq. set_solver.
Qed.

Lemma yn00_short_row_raises_witness :
  yn00_line yn00_row_short (State [] (pair_table "A" "B") ["A"; "B"])
  = Raise IndexError.
Proof.
  apply (yn00_short_row_raises yn00_row_short _ "2" "1").
  - vm_compute; reflexivity.
  - rewrite yn00_row_short_tokens.
    repeat (apply Forall_cons_2; [reflexivity|]). apply Forall_nil_2.
  - rewrite yn00_row_short_tokens. simpl. lia.
Defined.

(** X3: a line that the row pattern matches, none of whose numbers
    starts with two minus signs, and whose first or second index is
    larger than the number of names raises [IndexError]. *)
Theorem yn00_index_beyond_raises line st g1 g2 :
  Re.match2 row_re line = Some (g1, g2) →
  Forall (λ tok, String.prefix "--" tok = false) (Re.findall float_re line) →
  (Z.of_nat (length (sequences st)) < PyStr.int g1
   ∨ Z.of_nat (length (sequences st)) < PyStr.int g2)%Z →
  yn00_line line st = Raise IndexError.
Proof.
  intros Hm Hall Hbig.
  destruct (floats_number_tokens line)
    as [(fl & Hfl & _ & _)|(l1 & tok & l2 & Heq & _ & Hp & _)].
  - exact (yn00_index_beyond line st fl g1 g2 Hfl Hm Hbig).
  - rewrite Forall_forall in Hall.
    rewrite (Hall tok) in Hp; [discriminate Hp|]. rewrite Heq. set_solver.
Qed.

Lemma yn00_index_beyond_raises_witness :
  yn00_line yn00_row_full (State [] (pair_table "A" "B") ["A"])
  = Raise IndexError.
Proof.
  apply (yn00_index_beyond_raises yn00_row_full _ "2" "1").
  - vm_compute; reflexivity.
  - rewrite yn00_row_full_tokens.
    repeat (apply Forall_cons_2; [reflexivity|]). apply Forall_nil_2.
  - left. vm_compute; reflexivity.
Defined.
